(** * Order lifecycle and pricing of the food-ordering backend

    A shallow embedding of the order model ([models/order.js]), the order
    service ([services/orderService]), the order controller, the bot
    notification service and the request validators ([utils/validator.js]),
    followed by the properties of order creation, numbering, status
    transitions, rating, notes and statistics.  Around them: the reading
    handlers of the controller, the public routes with their middleware,
    the tenant controller with the cache, and the pipelines of the report
    service that read the orders.

    Conventions of the embedding.
    - JavaScript numbers are IEEE 754 doubles, the primitive [float]s; every
      [+], [*] and [/] of the source rounds as theirs do.  Equality of
      numbers is equality of doubles, which tells [-0] from [0].
    - A value of a request body in a numeric position, and the [rating] of
      the rating request, is a [jsval]: absent, [null], a boolean, a number,
      a string, an array or an object.  The operators of the language
      convert it as the language prescribes ([ToPrimitive], [ToNumber],
      [ToString]); a thrown [TypeError] is the result [None].
    - A JSON field typed as a string is an [option string]; [None] is an
      absent (or null) field and [Some EmptyString] the empty string.
    - Strings are sequences of bytes; non-ASCII text is its UTF-8 encoding and
      case conversion acts on ASCII letters only.
    - The validator library is read as Joi 17 and the ODM as Mongoose: the
      conversion of numeric strings by the former, the casts of the schema's
      [Number] paths by the latter.
    - The collection of orders is a list; a document's [_id] is its position.
      The ODM-maintained [updatedAt] stamp is not part of the record.
    - The store answers every query and ids are well-formed, written as
      the store prints them: connection failures and the driver's cast
      errors for malformed ids are not modelled (the tenant lookup of the
      notifications apart, which an environment may make fail).  Stored
      documents satisfy their schemas.
    - The store adds the doubles of a [$sum] one by one in the order of the
      documents, and its [$avg] divides that sum by their number.
    - Asynchronous functions are computations in a state-and-exception monad
      over the [world]; a thrown value keeps the state reached so far. *)

From Stdlib Require Import ZArith List String Ascii Lia Bool Arith Floats.
From stdpp Require Import base list strings gmap sorting.
Import ListNotations.

Local Open Scope string_scope.

#[global] Set Warnings "-inexact-float,-register-all".

(** ** String operations of the runtime *)

Module Str.

Definition is_upper (c : ascii) : bool :=
  let n := nat_of_ascii c in (65 <=? n)%nat && (n <=? 90)%nat.

Definition lower_char (c : ascii) : ascii :=
  if is_upper c then ascii_of_nat (nat_of_ascii c + 32) else c.

(** [s.toLowerCase()] *)
Fixpoint toLowerCase (s : string) : string :=
  match s with
  | EmptyString => EmptyString
  | String c r => String (lower_char c) (toLowerCase r)
  end.

(** [s.startsWith(p)] *)
Fixpoint startsWith (p s : string) : bool :=
  match p, s with
  | EmptyString, _ => true
  | String a p', String b s' => Ascii.eqb a b && startsWith p' s'
  | String _ _, EmptyString => false
  end.

(** [s.includes(p)] *)
Fixpoint includes (p s : string) : bool :=
  startsWith p s ||
  match s with
  | EmptyString => false
  | String _ r => includes p r
  end.

(** [s.split(c)] for a one-character separator. *)
Fixpoint split_go (c : ascii) (cur : string) (s : string) : list string :=
  match s with
  | EmptyString => [cur]
  | String a r =>
      if Ascii.eqb a c then cur :: split_go c EmptyString r
      else split_go c (cur ++ String a EmptyString) r
  end.

Definition split (c : ascii) (s : string) : list string :=
  split_go c EmptyString s.

(** [s.replace(/c/g, '')] for one character [c]. *)
Fixpoint remove_char (c : ascii) (s : string) : string :=
  match s with
  | EmptyString => EmptyString
  | String a r =>
      if Ascii.eqb a c then remove_char c r else String a (remove_char c r)
  end.

Definition digit_char (d : nat) : ascii := ascii_of_nat (48 + d).

Fixpoint digits_go (fuel n : nat) (acc : string) : string :=
  match fuel with
  | O => acc
  | S f =>
      let acc' := String (digit_char (n mod 10)) acc in
      if (n / 10 =? 0)%nat then acc' else digits_go f (n / 10) acc'
  end.

(** Decimal numeral of a natural number, as [Number.prototype.toString]. *)
Definition of_nat (n : nat) : string := digits_go (S n) n EmptyString.

Fixpoint replicate_char (n : nat) (c : ascii) : string :=
  match n with
  | O => EmptyString
  | S k => String c (replicate_char k c)
  end.

(** [s.padStart(w, c)] *)
Definition padStart (w : nat) (c : ascii) (s : string) : string :=
  replicate_char (w - String.length s) c ++ s.

Definition is_digit (c : ascii) : bool :=
  let n := nat_of_ascii c in (48 <=? n)%nat && (n <=? 57)%nat.

Definition digit_val (c : ascii) : nat := nat_of_ascii c - 48.

Definition is_space (c : ascii) : bool :=
  let n := nat_of_ascii c in
  (n =? 32)%nat || ((9 <=? n)%nat && (n <=? 13)%nat).

Fixpoint skip_spaces (s : string) : string :=
  match s with
  | String c r => if is_space c then skip_spaces r else s
  | EmptyString => EmptyString
  end.

Definition hex_val (c : ascii) : option nat :=
  let n := nat_of_ascii c in
  if is_digit c then Some (n - 48)
  else if (97 <=? n)%nat && (n <=? 102)%nat then Some (n - 87)
  else if (65 <=? n)%nat && (n <=? 70)%nat then Some (n - 55)
  else None.

(** Longest prefix of digits in the given base, read as a number;
    [None] when there is no digit. *)
Fixpoint read_digits (dv : ascii -> option nat) (base : nat)
    (s : string) (acc : option nat) : option nat :=
  match s with
  | EmptyString => acc
  | String c r =>
      match dv c with
      | Some d =>
          read_digits dv base r
            (Some (match acc with Some a => a * base + d | None => d end))
      | None => acc
      end
  end.

Definition dec_val (c : ascii) : option nat :=
  if is_digit c then Some (digit_val c) else None.

(** [parseInt(s)] without a radix: [None] is [NaN]. *)
Definition parseInt (s : string) : option Z :=
  let s1 := skip_spaces s in
  let '(neg, s2) :=
    match s1 with
    | String c r =>
        if Ascii.eqb c "-" then (true, r)
        else if Ascii.eqb c "+" then (false, r)
        else (false, s1)
    | EmptyString => (false, s1)
    end in
  let mag :=
    match s2 with
    | String c0 (String c1 r) =>
        if Ascii.eqb c0 "0" && (Ascii.eqb c1 "x" || Ascii.eqb c1 "X")
        then read_digits hex_val 16 r None
        else read_digits dec_val 10 s2 None
    | _ => read_digits dec_val 10 s2 None
    end in
  match mag with
  | Some n => Some (if neg then (- Z.of_nat n)%Z else Z.of_nat n)
  | None => None
  end.

(** [n.toString()] for an integral number or [NaN]. *)
Definition number_toString (n : option Z) : string :=
  match n with
  | None => "NaN"
  | Some z =>
      if (z <? 0)%Z then String "-" (of_nat (Z.to_nat (- z)))
      else of_nat (Z.to_nat z)
  end.

(** The text made of the given bytes. *)
Definition bytes (l : list nat) : string :=
  fold_right (fun n s => String (ascii_of_nat n) s) EmptyString l.

Fixpoint drop (n : nat) (s : string) : string :=
  match n, s with
  | S k, String _ r => drop k r
  | _, _ => s
  end.

Fixpoint take (n : nat) (s : string) : string :=
  match n, s with
  | S k, String c r => String c (take k r)
  | _, _ => EmptyString
  end.

Fixpoint rev_onto (s acc : string) : string :=
  match s with
  | EmptyString => acc
  | String c r => rev_onto r (String c acc)
  end.

Definition rev (s : string) : string := rev_onto s EmptyString.

(** The white space and the line terminators of the language, in UTF-8. *)
Definition white_space : list string :=
  List.map bytes
    [[9]; [10]; [11]; [12]; [13]; [32]; [194; 160]; [225; 154; 128];
     [226; 128; 128]; [226; 128; 129]; [226; 128; 130]; [226; 128; 131];
     [226; 128; 132]; [226; 128; 133]; [226; 128; 134]; [226; 128; 135];
     [226; 128; 136]; [226; 128; 137]; [226; 128; 138]; [226; 128; 168];
     [226; 128; 169]; [226; 128; 175]; [226; 129; 159]; [227; 128; 128];
     [239; 187; 191]].

(** [s] without one of the prefixes, when it starts with one. *)
Fixpoint strip_one (ps : list string) (s : string) : option string :=
  match ps with
  | [] => None
  | p :: r =>
      if startsWith p s then Some (drop (String.length p) s) else strip_one r s
  end.

Fixpoint strip_all (fuel : nat) (ps : list string) (s : string) : string :=
  match fuel with
  | O => s
  | S f =>
      match strip_one ps s with
      | Some r => strip_all f ps r
      | None => s
      end
  end.

(** [s.trim()] *)
Definition trim (s : string) : string :=
  let s1 := strip_all (String.length s) white_space s in
  rev (strip_all (String.length s1) (List.map rev white_space) (rev s1)).

(** The longest prefix of digits in the given base: its value, its length
    and the rest of the text. *)
Fixpoint span_digits (dv : ascii -> option nat) (base : Z) (s : string)
    (acc : Z) (len : Z) : Z * Z * string :=
  match s with
  | String c r =>
      match dv c with
      | Some d => span_digits dv base r (acc * base + Z.of_nat d)%Z (len + 1)%Z
      | None => (acc, len, s)
      end
  | EmptyString => (acc, len, s)
  end.

Definition bin_val (c : ascii) : option nat :=
  match dec_val c with
  | Some d => if (d <? 2)%nat then Some d else None
  | None => None
  end.

Definition oct_val (c : ascii) : option nat :=
  match dec_val c with
  | Some d => if (d <? 8)%nat then Some d else None
  | None => None
  end.

Fixpoint digits_Z (fuel : nat) (z : Z) (acc : string) : string :=
  match fuel with
  | O => acc
  | S f =>
      let acc' := String (ascii_of_nat (48 + Z.to_nat (z mod 10))) acc in
      if (z / 10 =? 0)%Z then acc' else digits_Z f (z / 10)%Z acc'
  end.

(** Decimal numeral of an integer that is not negative. *)
Definition of_Z (z : Z) : string :=
  digits_Z (S (Z.to_nat (Z.log2 z))) z EmptyString.

(** [s] without its leading zeros. *)
Fixpoint strip_zeros (s : string) : string :=
  match s with
  | String c r => if Ascii.eqb c "0" then strip_zeros r else s
  | EmptyString => s
  end.

(** [s.includes(c)] for one character. *)
Fixpoint has_char (c : ascii) (s : string) : bool :=
  match s with
  | String a r => Ascii.eqb a c || has_char c r
  | EmptyString => false
  end.

End Str.

(** ** Numbers *)

Module Number.

Local Open Scope Z_scope.

(** The double nearest to [n / d], ties to even, for a positive [d]: the
    quotient is taken with more than the 53 bits of a double, a last bit
    recording whether the division left a remainder. *)
Definition of_ratio (n d : Z) : float :=
  if n =? 0 then 0%float
  else
    let a := Z.abs n in
    let s := Z.max 0 (Z.log2 d - Z.log2 a + 64) in
    let q := a * 2 ^ s / d in
    let sticky := if (a * 2 ^ s) mod d =? 0 then 0 else 1 in
    let m := 2 * q + sticky in
    SF2Prim (binary_normalize prec emax (if n <? 0 then - m else m) (- s - 1) false).

(** The double nearest to an integer. *)
Definition of_Z (z : Z) : float := of_ratio z 1.

(** The double nearest to [m × 10^p]. *)
Definition of_decimal (m p : Z) : float :=
  if 0 <=? p then of_ratio (m * 10 ^ p) 1 else of_ratio m (10 ^ (- p)).

Definition read_sign (s : string) : bool * string :=
  match s with
  | String c r =>
      if Ascii.eqb c "-" then (true, r)
      else if Ascii.eqb c "+" then (false, r)
      else (false, s)
  | EmptyString => (false, s)
  end.

(** An [ExponentPart] up to the end of the text, or nothing at all. *)
Definition read_exponent (s : string) : option Z :=
  match s with
  | EmptyString => Some 0
  | String c r =>
      if Ascii.eqb c "e" || Ascii.eqb c "E" then
        let '(neg, r1) := read_sign r in
        match Str.span_digits Str.dec_val 10 r1 0 0 with
        | (v, len, EmptyString) =>
            if len =? 0 then None else Some (if neg then - v else v)
        | _ => None
        end
      else None
  end.

(** A [StrUnsignedDecimalLiteral] other than [Infinity], up to the end of
    the text: its digits as an integer [m] and the power of ten [p] that
    scales them. *)
Definition read_decimal (s : string) : option (Z * Z) :=
  let '(i, ilen, r) := Str.span_digits Str.dec_val 10 s 0 0 in
  let '(m, flen, r1) :=
    match r with
    | String c r0 =>
        if Ascii.eqb c "." then Str.span_digits Str.dec_val 10 r0 i 0
        else (i, 0, r)
    | EmptyString => (i, 0, r)
    end in
  if (ilen =? 0) && (flen =? 0) then None
  else
    match read_exponent r1 with
    | Some e => Some (m, e - flen)
    | None => None
    end.

(** A [NonDecimalIntegerLiteral]: [0x], [0o] or [0b] and digits. *)
Definition read_radix (s : string) : option Z :=
  match s with
  | String c0 (String c1 r) =>
      if Ascii.eqb c0 "0" then
        let lit dv base :=
          match Str.span_digits dv base r 0 0 with
          | (v, len, EmptyString) => if len =? 0 then None else Some v
          | _ => None
          end in
        if Ascii.eqb c1 "x" || Ascii.eqb c1 "X" then lit Str.hex_val 16
        else if Ascii.eqb c1 "o" || Ascii.eqb c1 "O" then lit Str.oct_val 8
        else if Ascii.eqb c1 "b" || Ascii.eqb c1 "B" then lit Str.bin_val 2
        else None
      else None
  | _ => None
  end.

(** [StringToNumber]: what [Number(s)] and the arithmetic operators make of
    a string.  The value of a literal is rounded once, from all its
    digits. *)
Definition of_string (s : string) : float :=
  let t := Str.trim s in
  match t with
  | EmptyString => 0%float
  | _ =>
      match read_radix t with
      | Some z => of_Z z
      | None =>
          let '(neg, u) := read_sign t in
          if String.eqb u "Infinity" then (if neg then neg_infinity else infinity)
          else
            match read_decimal u with
            | Some (m, p) =>
                let x := of_decimal m p in
                if neg then (- x)%float else x
            | None => nan
            end
      end
  end.

(** A finite double other than zero, [m × 2^e], as a fraction. *)
Definition ratio_of (m : positive) (e : Z) : Z * Z :=
  if 0 <=? e then (Zpos m * 2 ^ e, 1) else (Zpos m, 2 ^ (- e)).

(** [vn / vd < 10^n] *)
Definition below_pow10 (vn vd n : Z) : bool :=
  if 0 <=? n then vn <? vd * 10 ^ n else vn * 10 ^ (- n) <? vd.

Fixpoint first_above (fuel : nat) (vn vd n : Z) : Z :=
  match fuel with
  | O => n
  | S f => if below_pow10 vn vd n then n else first_above f vn vd (n + 1)
  end.

(** The [n] with [10^(n-1) <= vn / vd < 10^n], sought from an estimate by
    the binary logarithms that lies at most two below it. *)
Definition magnitude (vn vd : Z) : Z :=
  first_above 5 vn vd ((Z.log2 vn - Z.log2 vd) * 30103 / 100000 - 1).

(** The shortest digits that read back as [x = vn / vd]: the integer [s]
    of [k] digits, for the least [k] that has one, with [s × 10^(n-k)]
    nearest to [x] (the even [s] of two equally near). *)
Fixpoint shortest (fuel : nat) (k : Z) (x : float) (vn vd n : Z) : Z * Z :=
  match fuel with
  | O => (0, k)
  | S f =>
      let p := n - k in
      let '(an, ad) :=
        if 0 <=? p then (vn, vd * 10 ^ p) else (vn * 10 ^ (- p), vd) in
      let lo := an / ad in
      let hi := lo + 1 in
      let reads z := PrimFloat.Leibniz.eqb (of_decimal z p) x in
      let twice := 2 * (an - lo * ad) in
      let lo_nearer := (twice <? ad) || ((twice =? ad) && Z.even lo) in
      match reads lo, reads hi with
      | true, true => (if lo_nearer then lo else hi, k)
      | true, false => (lo, k)
      | false, true => (hi, k)
      | false, false => shortest f (k + 1) x vn vd n
      end
  end.

Definition exponent_text (n : Z) : string :=
  "e" ++ (if n - 1 <? 0 then "-" else "+") ++ Str.of_Z (Z.abs (n - 1)).

(** The text of a positive finite number from its digits [ds] and the
    position [n] of the decimal point. *)
Definition layout (ds : string) (n : Z) : string :=
  let k := Z.of_nat (String.length ds) in
  if (k <=? n) && (n <=? 21) then ds ++ Str.replicate_char (Z.to_nat (n - k)) "0"
  else if (0 <? n) && (n <=? 21) then
    Str.take (Z.to_nat n) ds ++ "." ++ Str.drop (Z.to_nat n) ds
  else if (-6 <? n) && (n <=? 0) then
    "0." ++ Str.replicate_char (Z.to_nat (- n)) "0" ++ ds
  else if k =? 1 then ds ++ exponent_text n
  else Str.take 1 ds ++ "." ++ Str.drop 1 ds ++ exponent_text n.

(** [Number::toString] in radix 10. *)
Definition to_string (x : float) : string :=
  match Prim2SF x with
  | S754_nan => "NaN"
  | S754_zero _ => "0"
  | S754_infinity s => if s then "-Infinity" else "Infinity"
  | S754_finite sgn m e =>
      let '(vn, vd) := ratio_of m e in
      let n := magnitude vn vd in
      let '(s, k) := shortest 17 1 (abs x) vn vd n in
      let ds := Str.of_Z s in
      let n' := n + (Z.of_nat (String.length ds) - k) in
      (if sgn then "-" else "")
      ++ layout (Str.rev (Str.strip_zeros (Str.rev ds))) n'
  end.

(** [x.toFixed(2)]: of the two nearest hundredths the larger. *)
Definition toFixed2 (x : float) : string :=
  match Prim2SF x with
  | S754_finite sgn m e =>
      if (1e21 <=? abs x)%float then to_string x
      else
        let '(vn, vd) := ratio_of m e in
        let n := (2 * vn * 100 + vd) / (2 * vd) in
        (if sgn then "-" else "") ++ Str.of_Z (n / 100) ++ "."
        ++ Str.of_Z (n mod 100 / 10) ++ Str.of_Z (n mod 10)
  | S754_zero _ => "0.00"
  | _ => to_string x
  end.

(** [Number.isInteger(x)] *)
Definition is_integer (x : float) : bool :=
  match Prim2SF x with
  | S754_zero _ => true
  | S754_finite _ m e => (0 <=? e) || (Zpos m mod 2 ^ (- e) =? 0)
  | _ => false
  end.

End Number.

(** ** Values of a request body and the operators on them *)

Module JS.

Inductive jsval : Type :=
| VUndefined
| VNull
| VBool (b : bool)
| VNum (x : float)
| VStr (s : string)
| VArr (elements : list jsval)
| VObj (fields : list (string * jsval)).

(** [ToBoolean]: [undefined], [null], [false], the zeros, [NaN] and the
    empty string are falsy. *)
Definition truthy (v : jsval) : bool :=
  match v with
  | VUndefined | VNull => false
  | VBool b => b
  | VNum x => negb (is_zero x || is_nan x)
  | VStr s => negb (String.eqb s "")
  | VArr _ | VObj _ => true
  end.

(** [a || b] *)
Definition or (a b : jsval) : jsval := if truthy a then a else b.

(** An own property of an object parsed from JSON. *)
Definition property (k : string) (fields : list (string * jsval)) : option jsval :=
  match List.find (fun f => String.eqb (fst f) k) fields with
  | Some (_, v) => Some v
  | None => None
  end.

(** [ToString]; [None] is a thrown [TypeError].  An array is joined with
    commas, [null] and [undefined] among its elements giving nothing; an
    object parsed from JSON inherits [toString] unless it has a property of
    that name, which no JSON value makes callable. *)
Fixpoint to_string (v : jsval) : option string :=
  match v with
  | VUndefined => Some "undefined"
  | VNull => Some "null"
  | VBool b => Some (if b then "true" else "false")
  | VNum x => Some (Number.to_string x)
  | VStr s => Some s
  | VArr elements =>
      (fix join (l : list jsval) (sep : string) : option string :=
         match l with
         | [] => Some ""
         | x :: r =>
             match (match x with
                    | VUndefined | VNull => Some ""
                    | _ => to_string x
                    end), join r "," with
             | Some a, Some b => Some (sep ++ a ++ b)
             | _, _ => None
             end
         end) elements ""
  | VObj fields =>
      match property "toString" fields with
      | Some _ => None
      | None => Some "[object Object]"
      end
  end.

(** [ToPrimitive] *)
Definition to_primitive (v : jsval) : option jsval :=
  match v with
  | VArr _ | VObj _ =>
      match to_string v with
      | Some s => Some (VStr s)
      | None => None
      end
  | _ => Some v
  end.

(** [ToNumber] of a primitive value. *)
Definition number_of (v : jsval) : float :=
  match v with
  | VNull => 0
  | VBool b => if b then 1 else 0
  | VNum x => x
  | VStr s => Number.of_string s
  | _ => nan
  end.

(** [ToNumber] *)
Definition to_number (v : jsval) : option float :=
  match to_primitive v with
  | Some p => Some (number_of p)
  | None => None
  end.

(** [a * b] *)
Definition mul (a b : jsval) : option jsval :=
  match to_number a, to_number b with
  | Some x, Some y => Some (VNum (x * y))
  | _, _ => None
  end.

(** [a + b]: a concatenation as soon as one operand is, or becomes, a
    string. *)
Definition add (a b : jsval) : option jsval :=
  match to_primitive a, to_primitive b with
  | Some pa, Some pb =>
      match pa, pb with
      | VStr _, _ | _, VStr _ =>
          match to_string pa, to_string pb with
          | Some x, Some y => Some (VStr (x ++ y))
          | _, _ => None
          end
      | _, _ => Some (VNum (number_of pa + number_of pb))
      end
  | _, _ => None
  end.

(** [a < y] for a number [y]: false when [a] reads as [NaN]. *)
Definition lt (a : jsval) (y : float) : option bool :=
  match to_number a with
  | Some x => Some (x <? y)%float
  | None => None
  end.

(** [a > y] for a number [y] *)
Definition gt (a : jsval) (y : float) : option bool :=
  match to_number a with
  | Some x => Some (y <? x)%float
  | None => None
  end.

End JS.

Import JS.

(** ** Time *)

(** A point in time as its UTC calendar fields (what [new Date()] yields,
    read through [toISOString]); years run from 0 to 9999. *)
Record instant : Type := {
  year : nat; month : nat; day : nat;
  hour : nat; minute : nat; second : nat; millis : nat
}.

Definition pad (w n : nat) : string := Str.padStart w "0" (Str.of_nat n).

(** [d.toISOString()] *)
Definition toISOString (t : instant) : string :=
  pad 4 (year t) ++ "-" ++ pad 2 (month t) ++ "-" ++ pad 2 (day t) ++ "T" ++
  pad 2 (hour t) ++ ":" ++ pad 2 (minute t) ++ ":" ++ pad 2 (second t) ++
  "." ++ pad 3 (millis t) ++ "Z".

(** Chronological rank of an instant, used to compare dates in queries. *)
Definition instant_key (t : instant) : Z :=
  ((((((Z.of_nat (year t) * 13 + Z.of_nat (month t)) * 32 + Z.of_nat (day t)) * 24
       + Z.of_nat (hour t)) * 60 + Z.of_nat (minute t)) * 60
     + Z.of_nat (second t)) * 1000 + Z.of_nat (millis t))%Z.

Definition instant_leb (a b : instant) : bool :=
  (instant_key a <=? instant_key b)%Z.

(** ** Documents *)

Inductive order_status : Type :=
| pending | confirmed | preparing | delivering | completed | cancelled.

#[global] Instance order_status_eq_dec : EqDecision order_status.
Proof. solve_decision. Defined.

Definition status_name (s : order_status) : string :=
  match s with
  | pending => "pending"
  | confirmed => "confirmed"
  | preparing => "preparing"
  | delivering => "delivering"
  | completed => "completed"
  | cancelled => "cancelled"
  end.

Definition all_statuses : list order_status :=
  [pending; confirmed; preparing; delivering; completed; cancelled].

(** The [enum] of the schema's [status] path. *)
Definition status_of_name (s : string) : option order_status :=
  List.find (fun st => String.eqb (status_name st) s) all_statuses.

Inductive payment_method : Type := pix | credit_card | cash.

Definition payment_name (p : payment_method) : string :=
  match p with
  | pix => "pix"
  | credit_card => "credit-card"
  | cash => "cash"
  end.

(** The [enum] of the schema's [paymentMethod] path. *)
Definition payment_of_name (s : string) : option payment_method :=
  List.find (fun p => String.eqb (payment_name p) s) [pix; credit_card; cash].

(** [ItemOptionSchema] *)
Record item_option : Type := {
  opt_name : string;
  opt_price : jsval
}.

(** [OrderItemSchema], also the shape of an item in a request body; in a
    stored item the numeric fields hold what the schema cast them to. *)
Record order_item : Type := {
  productId : option string;
  item_name : option string;
  flavor : option string;
  quantity : jsval;
  unitPrice : jsval;
  options : option (list item_option)
}.

Record customer_info : Type := {
  cust_name : option string;
  cust_phone : option string;
  cust_address : option string
}.

(** The body of an order-creation request ([orderData]). *)
Record order_data : Type := {
  body_customer : option customer_info;
  body_items : option (list order_item);
  body_paymentMethod : option string;
  body_changeFor : jsval;
  body_deliveryFee : jsval;
  body_notes : option string
}.

(** [OrderSchema]: a stored order. *)
Record order : Type := {
  tenantId : string;
  orderNumber : string;
  status : order_status;
  customer : customer_info;
  items : list order_item;
  paymentMethod : payment_method;
  changeFor : jsval;
  deliveryFee : float;
  subtotal : float;
  total : float;
  rating : option float;
  notes : option string;
  createdAt : instant
}.

Definition set_status (o : order) (s : order_status) : order :=
  {| tenantId := tenantId o; orderNumber := orderNumber o; status := s;
     customer := customer o; items := items o;
     paymentMethod := paymentMethod o; changeFor := changeFor o;
     deliveryFee := deliveryFee o; subtotal := subtotal o; total := total o;
     rating := rating o; notes := notes o; createdAt := createdAt o |}.

Definition set_rating (o : order) (r : option float) : order :=
  {| tenantId := tenantId o; orderNumber := orderNumber o; status := status o;
     customer := customer o; items := items o;
     paymentMethod := paymentMethod o; changeFor := changeFor o;
     deliveryFee := deliveryFee o; subtotal := subtotal o; total := total o;
     rating := r; notes := notes o; createdAt := createdAt o |}.

Definition set_notes (o : order) (n : option string) : order :=
  {| tenantId := tenantId o; orderNumber := orderNumber o; status := status o;
     customer := customer o; items := items o;
     paymentMethod := paymentMethod o; changeFor := changeFor o;
     deliveryFee := deliveryFee o; subtotal := subtotal o; total := total o;
     rating := rating o; notes := n; createdAt := createdAt o |}.

(** Catalog products, as far as order creation reads them. *)
Record size_price : Type := { sizeName : string }.

Record product : Type := {
  prod_id : string;
  prod_tenantId : string;
  available : bool;
  productType : string;
  sizesPrices : list size_price
}.

Record tenant : Type := {
  tenant_id : string;
  contact_phone : option string
}.

(** ** The world and the monad of asynchronous functions *)

(** The trace of what a request does besides touching the orders: the
    calls of the logger, the calls of the two notification functions of the
    bot service, and the messages handed over for delivery. *)
Inductive event : Type :=
| LogError (context : string)
| LogInfo (context : string)
| NotifyNewOrder (tenant_ : string) (number : string)
| NotifyStatusChange (tenant_ : string) (number : string) (st : order_status)
| MessageSent (tenant_ : string) (phone : string) (text : string).

Record world : Type := {
  orders : list order;
  events : list event
}.

(** Thrown values: the service's [{type: 'validation', message, details}]
    objects and ordinary [Error]s (of the runtime, the ODM or the store). *)
Inductive exn : Type :=
| ValidationExn (message : string) (details : list string)
| ErrorExn (message : string).

Inductive outcome (A : Type) : Type :=
| Ret (a : A)
| Throw (e : exn).
Arguments Ret {A} a.
Arguments Throw {A} e.

Definition M (A : Type) : Type := world -> outcome A * world.

Definition ret {A} (a : A) : M A := fun w => (Ret a, w).
Definition throw {A} (e : exn) : M A := fun w => (Throw e, w).

Definition bind {A B} (m : M A) (k : A -> M B) : M B :=
  fun w =>
    match m w with
    | (Ret a, w') => k a w'
    | (Throw e, w') => (Throw e, w')
    end.

(** [try { body } catch (e) { handler(e) }] *)
Definition try_catch {A} (body : M A) (handler : exn -> M A) : M A :=
  fun w =>
    match body w with
    | (Ret a, w') => (Ret a, w')
    | (Throw e, w') => handler e w'
    end.

Definition lift {A} (o : outcome A) : M A := fun w => (o, w).

(** A [TypeError] thrown by an operator. *)
Definition evaluated {A : Type} (r : option A) : outcome A :=
  match r with
  | Some a => Ret a
  | None => Throw (ErrorExn "TypeError")
  end.

Definition get_orders : M (list order) := fun w => (Ret (orders w), w).

Definition put_orders (os : list order) : M unit :=
  fun w => (Ret tt, {| orders := os; events := events w |}).

Definition emit (e : event) : M unit :=
  fun w => (Ret tt, {| orders := orders w; events := events w ++ [e] |}).

Declare Scope js_scope.
Delimit Scope js_scope with js.
Notation "'let*' x ':=' m 'in' k" := (bind m (fun x => k))
  (at level 10, x name, m at level 100, k at level 200) : js_scope.
Local Open Scope js_scope.

(** What a request reads but never writes: the catalog and the tenants. *)
Record env : Type := {
  catalog : list product;
  findTenant : string -> outcome (option tenant)
}.

(** ** The order model ([models/order.js]) *)

Module Order.

(** [today.toISOString().split('T')[0].replace(/-/g, '')] *)
Definition dateStr (today : instant) : string :=
  Str.remove_char "-" (nth 0 (Str.split "T" (toISOString today)) "").

Definition day_prefix (today : instant) : string :=
  "ORD-" ++ dateStr today ++ "-".

(** The filter [{ tenantId, orderNumber: /^ORD-<dateStr>-/ }]. *)
Definition matches_day (tid pre : string) (o : order) : bool :=
  String.eqb (tenantId o) tid && Str.startsWith pre (orderNumber o).

(** One step of the scan for the first document under
    [sort: { orderNumber: -1 }]; strings compare byte by byte. *)
Definition keep_greater (best : option order) (o : order) : option order :=
  match best with
  | None => Some o
  | Some b => if String.ltb (orderNumber b) (orderNumber o) then Some o else Some b
  end.

(** [findOne(filter, projection, { sort: { orderNumber: -1 } })] *)
Definition findLast (tid pre : string) (os : list order) : option order :=
  fold_left (fun best o => if matches_day tid pre o then keep_greater best o else best)
    os None.

(** [sequence = 1; if (lastOrder) sequence = parseInt(parts[2]) + 1] *)
Definition next_sequence (lastOrder : option order) : option Z :=
  match lastOrder with
  | None => Some 1%Z
  | Some o =>
      let parts := Str.split "-" (orderNumber o) in
      match nth_error parts 2 with
      | Some p =>
          match Str.parseInt p with
          | Some n => Some (n + 1)%Z
          | None => None
          end
      | None => None
      end
  end.

(** The number computed from the documents the query saw. *)
Definition number_after (today : instant) (tid : string) (os : list order) : string :=
  let sequence := next_sequence (findLast tid (day_prefix today) os) in
  day_prefix today ++ Str.padStart 3 "0" (Str.number_toString sequence).

(** [OrderSchema.statics.generateOrderNumber] *)
Definition generateOrderNumber (today : instant) (tid : string) : M string :=
  let* os := get_orders in
  ret (number_after today tid os).

(** A [required] string path holds a non-empty string. *)
Definition required_string (s : option string) : bool :=
  match s with
  | Some (String _ _) => true
  | _ => false
  end.

(** [castNumber] of the ODM: what a [Number] path makes of a value,
    [None] when the cast fails.  The empty string becomes [null]; a string
    or a boolean is read by [Number()]; arrays and objects are refused. *)
Definition castNumber (val : jsval) : option jsval :=
  match val with
  | VUndefined => Some VUndefined
  | VNull => Some VNull
  | VStr EmptyString => Some VNull
  | VStr s =>
      let x := Number.of_string s in
      if is_nan x then None else Some (VNum x)
  | VBool b => Some (VNum (if b then 1 else 0))
  | VNum x => if is_nan x then None else Some (VNum x)
  | VArr _ | VObj _ => None
  end.

(** [SchemaNumber.prototype.cast]: a value with an [_id] stands for its
    [_id], as a populated document does. *)
Definition cast (value : jsval) : option jsval :=
  castNumber (match value with
              | VObj fields =>
                  match JS.property "_id" fields with
                  | Some id => id
                  | None => value
                  end
              | _ => value
              end).

(** A [required] [Number] path: the number it holds after the cast. *)
Definition required_number (v : jsval) : option float :=
  match cast v with
  | Some (VNum x) => Some x
  | _ => None
  end.

(** [ItemOptionSchema]: a name and a [Number], which may be absent. *)
Definition cast_option (o : item_option) : option item_option :=
  match cast (opt_price o) with
  | Some p => Some {| opt_name := opt_name o; opt_price := p |}
  | None => None
  end.

(** The documents of an array, each cast; none may fail. *)
Fixpoint cast_all {A : Type} (f : A -> option A) (l : list A) : option (list A) :=
  match l with
  | [] => Some []
  | x :: r =>
      match f x, cast_all f r with
      | Some y, Some r' => Some (y :: r')
      | _, _ => None
      end
  end.

(** [OrderItemSchema]: [quantity] required with [min: 1], [unitPrice]
    required, the prices of the options numbers where they are given. *)
Definition cast_item (it : order_item) : option order_item :=
  match required_number (quantity it), required_number (unitPrice it),
        (match options it with
         | Some opts =>
             match cast_all cast_option opts with
             | Some opts' => Some (Some opts')
             | None => None
             end
         | None => Some None
         end) with
  | Some q, Some u, Some opts =>
      if (1 <=? q)%float then
        Some {| productId := productId it; item_name := item_name it;
                flavor := flavor it; quantity := VNum q; unitPrice := VNum u;
                options := opts |}
      else None
  | _, _, _ => None
  end.

(** What [new Order({...})] is given by the service. *)
Record draft : Type := {
  d_tenantId : string;
  d_orderNumber : string;
  d_customer : option customer_info;
  d_items : list order_item;
  d_paymentMethod : option string;
  d_changeFor : jsval;
  d_deliveryFee : jsval;
  d_subtotal : jsval;
  d_total : jsval;
  d_notes : option string
}.

(** The [deliveryFee] path, with its [default: 0] for an absent value.  The
    service hands over [orderData.deliveryFee || 0], which is never
    [null]. *)
Definition cast_fee (v : jsval) : option float :=
  match cast v with
  | Some (VNum f) => Some f
  | Some VUndefined => Some 0%float
  | _ => None
  end.

(** Casting and validation of a new document against [OrderSchema]; the
    status is ['pending'] and [createdAt] is the time of the save. *)
Definition validate (now : instant) (d : draft) : option order :=
  match d_customer d, d_paymentMethod d,
        required_number (d_subtotal d), required_number (d_total d) with
  | Some c, Some pm, Some sub, Some tot =>
      match payment_of_name pm, cast_fee (d_deliveryFee d),
            cast_all cast_item (d_items d), cast (d_changeFor d) with
      | Some p, Some fee, Some its, Some cf =>
          if required_string (Some (d_orderNumber d))
             && required_string (cust_name c) && required_string (cust_phone c)
          then Some {| tenantId := d_tenantId d; orderNumber := d_orderNumber d;
                       status := pending; customer := c; items := its;
                       paymentMethod := p; changeFor := cf;
                       deliveryFee := fee; subtotal := sub; total := tot;
                       rating := None; notes := d_notes d; createdAt := now |}
          else None
      | _, _, _, _ => None
      end
  | _, _, _, _ => None
  end.

(** [new Order(d).save()] *)
Definition create (now : instant) (d : draft) : M order :=
  match validate now d with
  | Some o =>
      let* os := get_orders in
      let* _ := put_orders (os ++ [o]) in
      ret o
  | None => throw (ErrorExn "Order validation failed")
  end.

(** [order.save()] for a document loaded from position [i]. *)
Definition save (i : nat) (o : order) : M unit :=
  let* os := get_orders in
  put_orders (<[i := o]> os).

(** [Order.findOne({ _id, tenantId })] *)
Definition findById (i : nat) (tid : string) : M (option order) :=
  let* os := get_orders in
  ret (match os !! i with
       | Some o => if String.eqb (tenantId o) tid then Some o else None
       | None => None
       end).

Fixpoint find_index (f : order -> bool) (os : list order) (i : nat)
  : option (nat * order) :=
  match os with
  | [] => None
  | o :: r => if f o then Some (i, o) else find_index f r (S i)
  end.

(** [Order.findOne({ tenantId, orderNumber })]: the first match, with its
    position. *)
Definition findByNumber (tid num : string) : M (option (nat * order)) :=
  let* os := get_orders in
  ret (find_index (fun o => String.eqb (tenantId o) tid
                            && String.eqb (orderNumber o) num) os 0).

End Order.

Definition jan15 (h m : nat) : instant :=
  {| year := 2024; month := 1; day := 15; hour := h; minute := m;
     second := 0; millis := 0 |}.

(** A string path in a template literal. *)
Definition text_or_empty (s : option string) : string :=
  match s with
  | Some t => t
  | None => ""
  end.

Definition text_or_undefined (s : option string) : string :=
  match s with
  | Some t => t
  | None => "undefined"
  end.

(** ** The order service ([services/orderService]) *)

Module orderService.

(** The catalog query [{ _id: item.productId, tenantId, available: true }]. *)
Definition findProduct (e : env) (pid tid : string) : option product :=
  List.find (fun p => String.eqb (prod_id p) pid
                      && String.eqb (prod_tenantId p) tid && available p)
    (catalog e).

(** The option-name test that detects a size option. *)
Definition is_size_option (opt : item_option) : bool :=
  let n := Str.toLowerCase (opt_name opt) in
  Str.includes "tamanho" n || Str.includes "tam" n || Str.includes "size" n.

(** The product checks made for one item of the loop. *)
Definition check_item (e : env) (tid : string) (item : order_item) : outcome unit :=
  match productId item with
  | Some (String c r as pid) =>
      match findProduct e pid tid with
      | None =>
          Throw (ValidationExn
                   ("Produto " ++ text_or_undefined (item_name item)
                    ++ " não encontrado ou indisponível") ["items"])
      | Some product =>
          match options item with
          | Some (o :: os) =>
              if String.eqb (productType product) "pizza" then
                match List.find is_size_option (o :: os) with
                | Some sizeOption =>
                    if existsb (fun sp =>
                                  String.eqb (Str.toLowerCase (sizeName sp))
                                    (Str.toLowerCase (opt_name sizeOption)))
                         (sizesPrices product)
                    then Ret tt
                    else Throw (ValidationExn
                                  ("Tamanho de pizza inválido: " ++ opt_name sizeOption)
                                  ["items.options"])
                | None => Ret tt
                end
              else Ret tt
          | _ => Ret tt
          end
      end
  | _ => Ret tt
  end.

(** [list.reduce(f, init)] for a callback that may throw. *)
Fixpoint reduce {A : Type} (f : jsval -> A -> option jsval) (l : list A)
    (acc : jsval) : option jsval :=
  match l with
  | [] => Some acc
  | x :: r =>
      match f acc x with
      | Some acc' => reduce f r acc'
      | None => None
      end
  end.

(** [item.options.reduce((sum, opt) => sum + (opt.price || 0), 0)] *)
Definition options_sum (opts : list item_option) : option jsval :=
  reduce (fun sum opt => JS.add sum (JS.or (opt_price opt) (VNum 0))) opts (VNum 0).

(** [itemTotal + optionsTotal] of one item. *)
Definition item_amount (item : order_item) : option jsval :=
  match JS.mul (quantity item) (unitPrice item) with
  | Some itemTotal =>
      match (match options item with
             | Some (o :: os) =>
                 match options_sum (o :: os) with
                 | Some sum => JS.mul sum (quantity item)
                 | None => None
                 end
             | _ => Some (VNum 0)
             end) with
      | Some optionsTotal => JS.add itemTotal optionsTotal
      | None => None
      end
  | None => None
  end.

(** [subtotal += itemTotal + optionsTotal] *)
Definition add_item (subtotal_ : jsval) (item : order_item) : option jsval :=
  match item_amount item with
  | Some amount => JS.add subtotal_ amount
  | None => None
  end.

(** The loop over [orderData.items], from the running [subtotal]. *)
Fixpoint price_items (e : env) (tid : string) (its : list order_item)
    (subtotal_ : jsval) : outcome jsval :=
  match its with
  | [] => Ret subtotal_
  | item :: rest =>
      match check_item e tid item with
      | Throw ex => Throw ex
      | Ret _ =>
          match evaluated (add_item subtotal_ item) with
          | Throw ex => Throw ex
          | Ret subtotal' => price_items e tid rest subtotal'
          end
      end
  end.

Definition customer_complete (c : option customer_info) : bool :=
  match c with
  | Some c => Order.required_string (cust_name c) && Order.required_string (cust_phone c)
  | None => false
  end.

(** Everything [createOrder] does before it asks for an order number: the
    two guards, the item loop and the total. *)
Definition prepare (e : env) (tid : string) (orderData : order_data)
  : outcome (list order_item * jsval * jsval * jsval) :=
  match body_items orderData with
  | None | Some [] =>
      Throw (ValidationExn "Pedido deve conter pelo menos um item" ["items"])
  | Some its =>
      if negb (customer_complete (body_customer orderData)) then
        Throw (ValidationExn "Dados do cliente incompletos" ["customer"])
      else
        match price_items e tid its (VNum 0) with
        | Throw ex => Throw ex
        | Ret subtotal_ =>
            let deliveryFee_ := JS.or (body_deliveryFee orderData) (VNum 0) in
            match evaluated (JS.add subtotal_ deliveryFee_) with
            | Throw ex => Throw ex
            | Ret total_ => Ret (its, deliveryFee_, subtotal_, total_)
            end
        end
  end.

Definition draft_of (tid : string) (orderData : order_data) (orderNumber_ : string)
    (p : list order_item * jsval * jsval * jsval) : Order.draft :=
  let '(its, deliveryFee_, subtotal_, total_) := p in
  {| Order.d_tenantId := tid; Order.d_orderNumber := orderNumber_;
     Order.d_customer := body_customer orderData; Order.d_items := its;
     Order.d_paymentMethod := body_paymentMethod orderData;
     Order.d_changeFor := body_changeFor orderData;
     Order.d_deliveryFee := deliveryFee_; Order.d_subtotal := subtotal_;
     Order.d_total := total_; Order.d_notes := body_notes orderData |}.

(** [orderService.createOrder]; both clock readings of the request, for the
    order number and for [createdAt], see the instant [now]. *)
Definition createOrder (e : env) (now : instant) (tid : string)
    (orderData : order_data) : M order :=
  try_catch
    (let* p := lift (prepare e tid orderData) in
     let* orderNumber_ := Order.generateOrderNumber now tid in
     Order.create now (draft_of tid orderData orderNumber_ p))
    (fun error =>
       let* _ := emit (LogError "Erro ao criar pedido para tenant") in
       throw error).

(** The table of [updateOrderStatus], an object keyed by status name. *)
Definition validTransitions : gmap string (list string) :=
  <["pending" := ["confirmed"; "cancelled"] ]>
  (<["confirmed" := ["preparing"; "cancelled"] ]>
  (<["preparing" := ["delivering"; "completed"; "cancelled"] ]>
  (<["delivering" := ["completed"; "cancelled"] ]>
  (<["completed" := [] ]>
  (<["cancelled" := [] ]> ∅))))).

(** [list.includes(s)] *)
Definition includes (l : list string) (s : string) : bool :=
  existsb (String.eqb s) l.

Definition transition_message (from : order_status) (to : string) : string :=
  "Não é possível alterar o status de '" ++ status_name from
  ++ "' para '" ++ to ++ "'".

(** [order.status = status; await order.save()]: the path's [enum] is
    checked by the save. *)
Definition save_status (i : nat) (o : order) (status_ : string) : M order :=
  match status_of_name status_ with
  | Some st =>
      let* _ := Order.save i (set_status o st) in
      ret (set_status o st)
  | None => throw (ErrorExn "Order validation failed")
  end.

(** [orderService.updateOrderStatus] *)
Definition updateOrderStatus (tid : string) (orderId : nat) (status_ : string)
  : M order :=
  try_catch
    (let* found := Order.findById orderId tid in
     match found with
     | None => throw (ErrorExn "Pedido não encontrado")
     | Some o =>
         match validTransitions !! status_name (status o) with
         | None => throw (ErrorExn "TypeError")
         | Some allowed =>
             if negb (includes allowed status_) then
               throw (ErrorExn (transition_message (status o) status_))
             else save_status orderId o status_
         end
     end)
    (fun error =>
       let* _ := emit (LogError "Erro ao atualizar status do pedido") in
       throw error).



(** One output document of [$group: { _id: '$status', count, total }]. *)
Record status_group : Type := {
  group_id : order_status;
  group_count : nat;
  group_total : float
}.

(** Accumulating one document into the groups of a [$group] stage. *)
Fixpoint group_add (st : order_status) (t : float) (gs : list status_group)
  : list status_group :=
  match gs with
  | [] => [{| group_id := st; group_count := 1; group_total := (0 + t)%float |}]
  | g :: r =>
      if decide (group_id g = st)
      then {| group_id := st; group_count := S (group_count g);
              group_total := (group_total g + t)%float |} :: r
      else g :: group_add st t r
  end.


(** [$sum: '$total'] over all matched documents. *)
Definition sum_totals (os : list order) : float :=
  fold_left (fun s o => (s + total o)%float) os 0%float.






End orderService.

(** ** The bot service ([services/botService]) *)

Module botService.

Definition dquote : string := String (ascii_of_nat 34) EmptyString.
Definition newline : string := String (ascii_of_nat 10) EmptyString.

(** [botService.sendMessage]: the delivery itself is simulated by the source
    and reports success once the tenant is found. *)
Definition sendMessage (e : env) (tid phone message : string) : M bool :=
  try_catch
    (let* _ := emit (LogInfo "Enviando mensagem para tenant") in
     let* found := lift (findTenant e tid) in
     match found with
     | None =>
         let* _ := emit (LogError "Tenant não encontrado ao enviar mensagem") in
         ret false
     | Some _ =>
         let* _ := emit (MessageSent tid phone message) in
         ret true
     end)
    (fun error =>
       let* _ := emit (LogError "Erro ao enviar mensagem") in
       ret false).

Definition new_order_text (o : order) : string :=
  "🔔 NOVO PEDIDO 🔔" ++ newline ++
  "Número: " ++ orderNumber o ++ newline ++
  "Cliente: " ++ text_or_undefined (cust_name (customer o)) ++ newline ++
  "Valor: R$ " ++ Number.toFixed2 (total o) ++ newline ++
  "Status: Pendente" ++ newline ++ newline ++
  "Digite " ++ dquote ++ "ver " ++ orderNumber o ++ dquote ++ " para detalhes".

(** [botService.notifyNewOrder] *)
Definition notifyNewOrder (e : env) (tid : string) (o : order) : M bool :=
  try_catch
    (let* _ := emit (NotifyNewOrder tid (orderNumber o)) in
     let* found := lift (findTenant e tid) in
     match found with
     | None =>
         let* _ := emit (LogError "Tenant não encontrado ao notificar novo pedido") in
         ret false
     | Some t =>
         match contact_phone t with
         | Some (String c r as adminPhone) =>
             sendMessage e tid adminPhone (new_order_text o)
         | _ =>
             let* _ := emit (LogError "Tenant não possui número de contato para notificações") in
             ret false
         end
     end)
    (fun error =>
       let* _ := emit (LogError "Erro ao notificar novo pedido para tenant") in
       ret false).

(** [statusMessages[order.status] || ''] *)
Definition statusMessages (s : order_status) : string :=
  match s with
  | pending => ""
  | confirmed => "Seu pedido foi confirmado e está sendo preparado."
  | preparing => "Seu pedido está sendo preparado na cozinha."
  | delivering => "Seu pedido saiu para entrega! Chega em breve."
  | completed => "Seu pedido foi entregue. Bom apetite! Agradecemos a preferência."
  | cancelled => "Seu pedido foi cancelado. Entre em contato para mais informações."
  end.

Definition status_change_text (o : order) : string :=
  "🔔 ATUALIZAÇÃO DE PEDIDO 🔔" ++ newline ++
  "Número: " ++ orderNumber o ++ newline ++
  "Status: " ++ status_name (status o) ++ newline ++ newline ++
  statusMessages (status o).

(** [botService.notifyStatusChange] *)
Definition notifyStatusChange (e : env) (tid : string) (o : order) : M bool :=
  try_catch
    (let* _ := emit (NotifyStatusChange tid (orderNumber o) (status o)) in
     let* found := lift (findTenant e tid) in
     match found with
     | None =>
         let* _ := emit (LogError "Tenant não encontrado ao notificar mudança de status") in
         ret false
     | Some _ =>
         sendMessage e tid (text_or_empty (cust_phone (customer o)))
           (status_change_text o)
     end)
    (fun error =>
       let* _ := emit (LogError "Erro ao notificar mudança de status para pedido") in
       ret false).

End botService.

(** ** Request validators ([utils/validator.js]) *)

Module validators.

(** [Number.MAX_SAFE_INTEGER] *)
Definition max_safe_integer : float := 9007199254740991.

(** Numbers are accepted within the safe range only. *)
Definition safe (x : float) : bool :=
  negb ((max_safe_integer <? x)%float || (x <? - max_safe_integer)%float).

Definition label (path : string) : string :=
  botService.dquote ++ path ++ botService.dquote.

(** The first error of a sequence of checks ([abortEarly]). *)
Fixpoint first_error (checks : list (option string)) : option string :=
  match checks with
  | [] => None
  | Some err :: _ => Some err
  | None :: r => first_error r
  end.

(** [Joi.string().required()] *)
Definition string_required (path : string) (v : option string) : option string :=
  match v with
  | None => Some (label path ++ " is required")
  | Some EmptyString => Some (label path ++ " is not allowed to be empty")
  | Some _ => None
  end.

(** [Joi.string()] *)
Definition string_optional (path : string) (v : option string) : option string :=
  match v with
  | Some EmptyString => Some (label path ++ " is not allowed to be empty")
  | _ => None
  end.

(** The digits that count in a numeral, as the library extracts them: the
    exponent part, the first point, the zeros at the end and the sign and
    zeros at the start are taken away, in this order. *)
Definition without_exponent (s : string) : string :=
  let r := Str.rev s in
  let '(_, len, r1) := Str.span_digits Str.dec_val 10 r 0 0 in
  if (len =? 0)%Z then s
  else
    let r2 := match r1 with
              | String c r' =>
                  if Ascii.eqb c "+" || Ascii.eqb c "-" then r' else r1
              | EmptyString => r1
              end in
    match r2 with
    | String c r' =>
        if Ascii.eqb c "e" || Ascii.eqb c "E" then Str.rev r' else s
    | EmptyString => s
    end.

Fixpoint without_first_point (s : string) : string :=
  match s with
  | String c r => if Ascii.eqb c "." then r else String c (without_first_point r)
  | EmptyString => s
  end.

Definition without_trailing_zeros (s : string) : string :=
  Str.rev (Str.strip_zeros (Str.rev s)).

Definition extractSignificantDigits (value : string) : string :=
  let s1 := without_trailing_zeros (without_first_point (without_exponent value)) in
  Str.strip_zeros (snd (Number.read_sign s1)).

(** A decimal numeral in the form in which a number prints. *)
Definition normalizeDecimal (str : string) : string :=
  (* a leading plus sign goes *)
  let s1 := match str with
            | String c r => if Ascii.eqb c "+" then r else str
            | EmptyString => str
            end in
  (* a point followed by zeros only, at the end, goes *)
  let s2 :=
    let r := Str.strip_zeros (Str.rev s1) in
    match r with
    | String c r' => if Ascii.eqb c "." then Str.rev r' else s1
    | EmptyString => s1
    end in
  (* a numeral that starts with its point gets a zero in front *)
  let '(neg, u) := match s2 with
                   | String c r => if Ascii.eqb c "-" then (true, r) else (false, s2)
                   | EmptyString => (false, s2)
                   end in
  let sign := if neg then "-" else "" in
  let s3 :=
    match u with
    | String c r =>
        if Ascii.eqb c "." && negb (Str.has_char "." r) then sign ++ "0." ++ r
        else s2
    | EmptyString => s2
    end in
  (* zeros in front of a digit go *)
  let '(neg3, u3) := match s3 with
                     | String c r => if Ascii.eqb c "-" then (true, r) else (false, s3)
                     | EmptyString => (false, s3)
                     end in
  let s4 :=
    match u3 with
    | String c r =>
        if Ascii.eqb c "0" then
          let z := Str.strip_zeros u3 in
          match z with
          | String d _ =>
              if Str.is_digit d then (if neg3 then "-" else "") ++ z
              else (if neg3 then "-" else "") ++ String "0" z
          | EmptyString => (if neg3 then "-" else "") ++ "0"
          end
        else s3
    | EmptyString => s3
    end in
  (* zeros at the end of the decimals go *)
  let s5 :=
    if Str.has_char "." s4 && Str.startsWith "0" (Str.rev s4)
    then without_trailing_zeros s4 else s4 in
  if String.eqb s5 "-0" then "0" else s5.

(** What [Joi.number()] makes of a string, conversion being on by
    default: nothing, a number, or a number it finds unsafe because the
    text holds more digits than the number keeps. *)
Inductive coerced : Type :=
| NotANumber
| Unsafe
| Converted (y : float).

Definition coerce (value : string) : coerced :=
  let t := Str.trim value in
  match Number.read_decimal (snd (Number.read_sign t)) with
  | None => NotANumber
  | Some _ =>
      let parsed := Number.of_string t in
      let y := if is_zero parsed then 0%float else parsed in
      if Str.has_char "e" t || Str.has_char "E" t then
        if String.eqb (extractSignificantDigits t)
                      (extractSignificantDigits (Number.to_string y))
        then Converted y else Unsafe
      else
        let printed := Number.to_string y in
        if Str.has_char "e" printed then Converted y
        else if String.eqb printed (normalizeDecimal t) then Converted y
        else Unsafe
  end.

(** [Joi.number()] on a present value: the error, or the number the
    following rules see.  The middleware keeps the body as it was sent. *)
Definition number_value (path : string) (v : jsval) : string + float :=
  let checked (x : float) : string + float :=
    if is_infinity x then inl (label path ++ " cannot be infinity")
    else if is_nan x then inl (label path ++ " must be a number")
    else if safe x then inr x
    else inl (label path ++ " must be a safe number") in
  match v with
  | VNum x => checked x
  | VStr s =>
      match coerce s with
      | Converted y => checked y
      | Unsafe => inl (label path ++ " must be a safe number")
      | NotANumber => inl (label path ++ " must be a number")
      end
  | _ => inl (label path ++ " must be a number")
  end.

Definition number_present (path : string) (v : jsval) : option string :=
  match number_value path v with
  | inl err => Some err
  | inr _ => None
  end.

(** [Joi.number().required()] *)
Definition number_required (path : string) (v : jsval) : option string :=
  match v with
  | VUndefined => Some (label path ++ " is required")
  | _ => number_present path v
  end.

(** [Joi.number()], optional. *)
Definition number_optional (path : string) (v : jsval) : option string :=
  match v with
  | VUndefined => None
  | _ => number_present path v
  end.

(** [Joi.number().integer().min(1).required()] *)
Definition quantity_rule (path : string) (v : jsval) : option string :=
  match v with
  | VUndefined => Some (label path ++ " is required")
  | _ =>
      match number_value path v with
      | inl err => Some err
      | inr x =>
          if negb (Number.is_integer x) then Some (label path ++ " must be an integer")
          else if negb (1 <=? x)%float
               then Some (label path ++ " must be greater than or equal to 1")
               else None
      end
  end.

(** [Joi.forbidden()] *)
Definition forbidden (path : string) (v : jsval) : option string :=
  match v with
  | VUndefined => None
  | _ => Some (label path ++ " is not allowed")
  end.

(** [Joi.string().valid(...).required()] *)
Definition one_of (path : string) (allowed : list string) (v : option string)
  : option string :=
  match v with
  | None => Some (label path ++ " is required")
  | Some s =>
      if existsb (String.eqb s) allowed then None
      else Some (label path ++ " must be one of ["
                 ++ String.concat ", " allowed ++ "]")
  end.

Definition option_rule (path : string) (j : nat) (o : item_option) : option string :=
  let p := path ++ "[" ++ Str.of_nat j ++ "]" in
  first_error [string_required (p ++ ".name") (Some (opt_name o));
               number_required (p ++ ".price") (opt_price o)].

Definition item_rule (i : nat) (it : order_item) : option string :=
  let p := "items[" ++ Str.of_nat i ++ "]" in
  first_error
    [string_optional (p ++ ".productId") (productId it);
     string_optional (p ++ ".name") (item_name it);
     string_optional (p ++ ".flavor") (flavor it);
     quantity_rule (p ++ ".quantity") (quantity it);
     number_required (p ++ ".unitPrice") (unitPrice it);
     match options it with
     | None => None
     | Some opts => first_error (imap (option_rule (p ++ ".options")) opts)
     end].

Definition customer_rule (c : option customer_info) : option string :=
  match c with
  | None => Some (label "customer" ++ " is required")
  | Some c =>
      first_error [string_required "customer.name" (cust_name c);
                   string_required "customer.phone" (cust_phone c);
                   string_required "customer.address" (cust_address c)]
  end.

Definition items_rule (its : option (list order_item)) : option string :=
  match its with
  | None => Some (label "items" ++ " is required")
  | Some l =>
      first_error
        [first_error (imap item_rule l);
         match l with
         | [] => Some (label "items" ++ " must contain at least 1 items")
         | _ => None
         end]
  end.

(** [Joi.when('paymentMethod', { is: 'cash', then: Joi.number().optional(),
    otherwise: Joi.forbidden() })] *)
Definition changeFor_rule (pm : option string) (v : jsval) : option string :=
  match pm with
  | Some s =>
      if String.eqb s "cash" then number_optional "changeFor" v
      else forbidden "changeFor" v
  | None => forbidden "changeFor" v
  end.

(** [validators.order]; [notes] takes every text, the empty one and null. *)
Definition order (b : order_data) : option string :=
  first_error
    [customer_rule (body_customer b);
     items_rule (body_items b);
     one_of "paymentMethod" ["pix"; "credit-card"; "cash"] (body_paymentMethod b);
     changeFor_rule (body_paymentMethod b) (body_changeFor b);
     number_optional "deliveryFee" (body_deliveryFee b)].

(** [validators.orderStatus] on the body's [status]. *)
Definition orderStatus (s : option string) : option string :=
  one_of "status" (List.map status_name all_statuses) s.

End validators.

(** ** The order controller and its routes *)

Inductive res_body : Type :=
| OrderCreated (message : string) (number : string) (st : order_status) (amount : float)
| ErrorBody (error : string) (details : list string)
| OrderRated (message : string) (value : option float)
| StatusUpdated (message : string) (st : order_status)
| NoteAdded (message : string) (text : option string).

Record response : Type := { code : nat; body : res_body }.

Definition respond (c : nat) (b : res_body) : M response :=
  ret {| code := c; body := b |}.

Module orderController.

(** [exports.createOrder] *)
Definition createOrder (e : env) (now : instant) (tid : string)
    (orderData : order_data) : M response :=
  try_catch
    (let* o := orderService.createOrder e now tid orderData in
     let* _ := botService.notifyNewOrder e tid o in
     respond 201 (OrderCreated "Pedido criado com sucesso"
                    (orderNumber o) (status o) (total o)))
    (fun error =>
       let* _ := emit (LogError "Erro ao criar pedido para tenant") in
       match error with
       | ValidationExn message details => respond 400 (ErrorBody message details)
       | _ => respond 500 (ErrorBody "Erro ao processar pedido" [])
       end).

(** [!rating || rating < 1 || rating > 5]; [None] is a [TypeError] thrown
    by a comparison. *)
Definition rating_rejected (rating_ : jsval) : option bool :=
  if negb (JS.truthy rating_) then Some true
  else
    match JS.lt rating_ 1 with
    | Some true => Some true
    | Some false => JS.gt rating_ 5
    | None => None
    end.

(** The value the [rating] path takes when the request's value is assigned;
    the save reports a failed cast and checks the path's [min: 1] and
    [max: 5]. *)
Definition rating_cast (rating_ : jsval) : option (option float) :=
  match Order.cast rating_ with
  | Some (VNum x) =>
      if (1 <=? x)%float && (x <=? 5)%float then Some (Some x) else None
  | Some _ => Some None
  | None => None
  end.

(** [order.notes ? `${order.notes}\n${text}` : text] *)
Definition append_line (old : option string) (text : string) : option string :=
  match old with
  | Some (String c r as n) => Some (n ++ botService.newline ++ text)
  | _ => Some text
  end.

(** [exports.rateOrder] *)
Definition rateOrder (tid num : string) (rating_ : jsval) (comment : option string)
  : M response :=
  try_catch
    (let* rejected := lift (evaluated (rating_rejected rating_)) in
     if rejected : bool then
       respond 400 (ErrorBody "Avaliação deve ser um número entre 1 e 5" [])
     else
       let* found := Order.findByNumber tid num in
       match found with
       | None => respond 404 (ErrorBody "Pedido não encontrado" [])
       | Some (i, o) =>
           if negb (bool_decide (status o = completed)) then
             respond 400 (ErrorBody "Apenas pedidos entregues podem ser avaliados" [])
           else
             match rating_cast rating_ with
             | None => throw (ErrorExn "Order validation failed")
             | Some r =>
                 let o1 := set_rating o r in
                 let o2 :=
                   match comment with
                   | Some (String c t as text) =>
                       set_notes o1 (append_line (notes o1)
                                       ("Avaliação do cliente: " ++ text))
                   | _ => o1
                   end in
                 let* _ := Order.save i o2 in
                 respond 200 (OrderRated "Pedido avaliado com sucesso" (rating o2))
             end
       end)
    (fun error =>
       let* _ := emit (LogError "Erro ao avaliar pedido") in
       respond 500 (ErrorBody "Erro ao registrar avaliação" [])).

(** [exports.updateOrderStatus] *)
Definition updateOrderStatus (e : env) (tid : string) (id : nat) (status_ : string)
  : M response :=
  try_catch
    (let* found := Order.findById id tid in
     match found with
     | None => respond 404 (ErrorBody "Pedido não encontrado" [])
     | Some o =>
         match orderService.validTransitions !! status_name (status o) with
         | None => throw (ErrorExn "TypeError")
         | Some allowed =>
             if negb (orderService.includes allowed status_) then
               respond 400
                 (ErrorBody (orderService.transition_message (status o) status_) [])
             else
               let* o' := orderService.save_status id o status_ in
               let* _ := botService.notifyStatusChange e tid o' in
               respond 200 (StatusUpdated "Status do pedido atualizado com sucesso"
                              (status o'))
         end
     end)
    (fun error =>
       let* _ := emit (LogError "Erro ao atualizar status do pedido") in
       respond 500 (ErrorBody "Erro ao atualizar status do pedido" [])).

(** [`[${timestamp}] ${req.user.name}: ${note}`] *)
Definition noteWithTimestamp (now : instant) (user note : string) : string :=
  "[" ++ toISOString now ++ "] " ++ user ++ ": " ++ note.

(** [exports.addOrderNote] *)
Definition addOrderNote (now : instant) (tid user : string) (id : nat)
    (note : option string) : M response :=
  try_catch
    (match note with
     | Some (String c r as text) =>
         let* found := Order.findById id tid in
         match found with
         | None => respond 404 (ErrorBody "Pedido não encontrado" [])
         | Some o =>
             let o' := set_notes o (append_line (notes o)
                                      (noteWithTimestamp now user text)) in
             let* _ := Order.save id o' in
             respond 200 (NoteAdded "Observação adicionada com sucesso" (notes o'))
         end
     | _ => respond 400 (ErrorBody "Observação não pode ser vazia" [])
     end)
    (fun error =>
       let* _ := emit (LogError "Erro ao adicionar observação ao pedido") in
       respond 500 (ErrorBody "Erro ao adicionar observação" [])).

End orderController.

Module routes.

(** The [validate(schema)] middleware in front of a handler. *)
Definition validate {B : Type} (schema : B -> option string)
    (handler : B -> M response) (b : B) : M response :=
  match schema b with
  | Some err => respond 400 (ErrorBody "Erro de validação" [err])
  | None => handler b
  end.

(** [POST /:tenantId], after the tenant is resolved. *)
Definition post_order (e : env) (now : instant) (tid : string)
  : order_data -> M response :=
  validate validators.order (orderController.createOrder e now tid).

(** [PATCH /:id/status] *)
Definition patch_status (e : env) (tid : string) (id : nat)
  : option string -> M response :=
  validate validators.orderStatus
    (fun s => orderController.updateOrderStatus e tid id (text_or_empty s)).

End routes.


(** ** Creation requests in flight

    [orderService.createOrder] gives control back while it awaits the query
    of [generateOrderNumber] and again while it awaits the save; what lies
    between two such points runs without interruption.  A request in flight
    is therefore in one of three states, and the server advances one request
    by one step at a time, in any order. *)

Module Concurrent.

Inductive request : Type :=
| Waiting (now : instant) (tid : string) (orderData : order_data)
| Numbered (now : instant) (tid : string) (orderData : order_data)
    (p : list order_item * jsval * jsval * jsval) (orderNumber_ : string)
| Finished (result : outcome order).

(** The [catch] clause of [createOrder], ending the request. *)
Definition fail (ex : exn) : M request :=
  let* _ := emit (LogError "Erro ao criar pedido para tenant") in
  ret (Finished (Throw ex)).

(** One uninterrupted step of a request. *)
Definition step (e : env) (r : request) : M request :=
  match r with
  | Waiting now tid orderData =>
      match orderService.prepare e tid orderData with
      | Throw ex => fail ex
      | Ret p =>
          let* orderNumber_ := Order.generateOrderNumber now tid in
          ret (Numbered now tid orderData p orderNumber_)
      end
  | Numbered now tid orderData p orderNumber_ =>
      try_catch
        (let* o := Order.create now
                     (orderService.draft_of tid orderData orderNumber_ p) in
         ret (Finished (Ret o)))
        fail
  | Finished result => ret (Finished result)
  end.

(** The server advances the request at position [i]. *)
Definition advance (e : env) (i : nat) (pool : list request) : M (list request) :=
  match pool !! i with
  | Some r =>
      let* r' := step e r in
      ret (<[i := r']> pool)
  | None => ret pool
  end.

(** The server follows a schedule, a sequence of positions. *)
Fixpoint run (e : env) (schedule : list nat) (pool : list request)
  : M (list request) :=
  match schedule with
  | [] => ret pool
  | i :: rest =>
      let* pool' := advance e i pool in
      run e rest pool'
  end.

End Concurrent.

(** ** The reading handlers of the order controller *)

Module orderQueries.

(** The projection ['orderNumber status customer.name createdAt'] of an
    order, with its [_id]. *)
Record order_view : Type := {
  view_id : nat;
  view_orderNumber : string;
  view_status : order_status;
  view_customer_name : option string;
  view_createdAt : instant
}.

Inductive read_body : Type :=
| StatusOf (v : order_view)
| OrderOf (id : nat) (o : order)
| PageOf (docs : list (nat * order)) (page limit total pages : Z)
| ReadError (error : string).

Record read_response : Type := { read_code : nat; read_body_of : read_body }.

Definition answer (c : nat) (b : read_body) : M read_response :=
  ret {| read_code := c; read_body_of := b |}.

(** [exports.getOrderStatus] *)
Definition getOrderStatus (tid num : string) : M read_response :=
  try_catch
    (let* found := Order.findByNumber tid num in
     match found with
     | None => answer 404 (ReadError "Pedido não encontrado")
     | Some (i, o) =>
         answer 200 (StatusOf {| view_id := i;
                                 view_orderNumber := orderNumber o;
                                 view_status := status o;
                                 view_customer_name := cust_name (customer o);
                                 view_createdAt := createdAt o |})
     end)
    (fun error =>
       let* _ := emit (LogError "Erro ao buscar status do pedido") in
       answer 500 (ReadError "Erro ao buscar status do pedido")).

(** [exports.getOrderById] *)
Definition getOrderById (tid : string) (id : nat) : M read_response :=
  try_catch
    (let* found := Order.findById id tid in
     match found with
     | None => answer 404 (ReadError "Pedido não encontrado")
     | Some o => answer 200 (OrderOf id o)
     end)
    (fun error =>
       let* _ := emit (LogError "Erro ao buscar pedido") in
       answer 500 (ReadError "Erro ao buscar pedido")).

(** What [new Date(text)] makes of a date parameter. *)
Inductive date_param : Type :=
| ValidDate (t : instant)
| InvalidDate.

(** [req.query] of the listing; a parameter is absent or a text. *)
Record list_query : Type := {
  q_status : option string;
  q_phone : option string;
  q_dateFrom : option (string * date_param);
  q_dateTo : option (string * date_param);
  q_page : option string;
  q_limit : option string
}.

(** [if (req.query.x)]: the parameter is there and not empty. *)
Definition given (p : option string) : option string :=
  match p with
  | Some (String c r as s) => Some s
  | _ => None
  end.

Definition given_date (p : option (string * date_param)) : option date_param :=
  match p with
  | Some (String c r, d) => Some d
  | _ => None
  end.

(** The filter built from the parameters; an invalid date cannot be cast
    and makes the query fail. *)
Definition filter_ok (q : list_query) : bool :=
  match given_date (q_dateFrom q), given_date (q_dateTo q) with
  | Some InvalidDate, _ | _, Some InvalidDate => false
  | _, _ => true
  end.

Definition matches (tid : string) (q : list_query) (o : order) : bool :=
  String.eqb (tenantId o) tid
  && match given (q_status q) with
     | Some s => String.eqb (status_name (status o)) s
     | None => true
     end
  && match given (q_phone q) with
     | Some p => match cust_phone (customer o) with
                 | Some ph => String.eqb ph p
                 | None => false
                 end
     | None => true
     end
  && match given_date (q_dateFrom q) with
     | Some (ValidDate d) => instant_leb d (createdAt o)
     | _ => true
     end
  && match given_date (q_dateTo q) with
     | Some (ValidDate d) => instant_leb (createdAt o) d
     | _ => true
     end.

(** [parseInt(text) || fallback] *)
Definition int_or (p : option string) (fallback : Z) : Z :=
  match p with
  | Some s =>
      match Str.parseInt s with
      | Some z => if (z =? 0)%Z then fallback else z
      | None => fallback
      end
  | None => fallback
  end.

(** [sort: { createdAt: -1 }]: the later document first. *)
Definition newer_first (a b : nat * order) : Prop :=
  (instant_key (createdAt (snd b)) <= instant_key (createdAt (snd a)))%Z.

#[global] Instance newer_first_dec (a b : nat * order) : Decision (newer_first a b).
Proof. unfold newer_first. apply _. Defined.

(** The documents of a collection with their positions. *)
Definition with_ids (os : list order) : list (nat * order) :=
  imap (fun i o => (i, o)) os.

(** [Math.ceil(total / limit)] for a limit other than zero. *)
Definition ceil_div (total_ limit : Z) : Z := (- ((- total_) / limit))%Z.

(** [exports.getAllOrders].  A negative [skip] is refused by the store; a
    negative limit asks for that many documents in one batch. *)
Definition getAllOrders (tid : string) (q : list_query) : M read_response :=
  try_catch
    (let page := int_or (q_page q) 1 in
     let limit := int_or (q_limit q) 10 in
     let skip := ((page - 1) * limit)%Z in
     let* os := get_orders in
     if negb (filter_ok q) then throw (ErrorExn "CastError")
     else if (skip <? 0)%Z then throw (ErrorExn "skip must be non-negative")
     else
       let found := List.filter (fun d => matches tid q (snd d)) (with_ids os) in
       let docs := firstn (Z.to_nat (Z.abs limit))
                     (skipn (Z.to_nat skip) (merge_sort newer_first found)) in
       let total_ := Z.of_nat (length found) in
       answer 200 (PageOf docs page limit total_ (ceil_div total_ limit)))
    (fun error =>
       let* _ := emit (LogError "Erro ao listar pedidos para tenant") in
       answer 500 (ReadError "Erro ao buscar pedidos")).

End orderQueries.

(** ** Tenants ([models/tenant.js]) *)

Module Tenant.

(** A tenant document; its [_id] is the text [t_id].  The address and the
    settings are not part of the record. *)
Record doc : Type := {
  t_id : string;
  t_name : string;
  t_slug : string;
  t_apiKey : string;
  t_active : bool;
  t_planType : string;
  t_email : string;
  t_phone : option string
}.

Definition set_active (t : doc) (a : bool) : doc :=
  {| t_id := t_id t; t_name := t_name t; t_slug := t_slug t;
     t_apiKey := t_apiKey t; t_active := a; t_planType := t_planType t;
     t_email := t_email t; t_phone := t_phone t |}.

(** [TenantSchema.statics.findByApiKey]: [findOne({ apiKey, active: true })] *)
Definition findByApiKey (ts : list doc) (apiKey : string) : option doc :=
  List.find (fun t => String.eqb (t_apiKey t) apiKey && t_active t) ts.

(** [Tenant.findById(id)], with the document's position. *)
Fixpoint findById_from (ts : list doc) (id : string) (i : nat) : option (nat * doc) :=
  match ts with
  | [] => None
  | t :: r => if String.eqb (t_id t) id then Some (i, t) else findById_from r id (S i)
  end.

Definition findById (ts : list doc) (id : string) : option (nat * doc) :=
  findById_from ts id 0.

End Tenant.

(** The tenant lookup of the services, on a collection of tenants. *)
Definition env_of (ts : list Tenant.doc) (products : list product) : env :=
  {| catalog := products;
     findTenant := fun id =>
       Ret (match Tenant.findById ts id with
            | Some (_, t) => Some {| tenant_id := Tenant.t_id t;
                                     contact_phone := Tenant.t_phone t |}
            | None => None
            end) |}.

(** ** The way in for clients ([middleware/auth.js], [tenantResolver]) *)

Module access.

(** A middleware either hands the request on or answers it. *)
Inductive passage (A : Type) : Type :=
| Next (a : A)
| Answer (status_ : nat) (error : string).

Arguments Next {A} a.
Arguments Answer {A} status_ error.

(** [authenticateApiKey], on the header [x-api-key]; what it hands on is
    [req.tenant]. *)
Definition authenticateApiKey (ts : list Tenant.doc) (apiKey : option string)
  : passage Tenant.doc :=
  match apiKey with
  | Some (String c r as k) =>
      match Tenant.findByApiKey ts k with
      | Some t => Next t
      | None => Answer 401 "API key inválida"
      end
  | _ => Answer 401 "API key não fornecida"
  end.

(** [tenantResolver], on [req.params.tenantId || req.body.tenantId] and the
    [req.tenant] set so far:
    [findOne({ $or: [{ _id: tenantId }, { slug: tenantId }], active: true })]. *)
Definition tenantResolver (ts : list Tenant.doc) (tenantId : option string)
    (current : Tenant.doc) : passage Tenant.doc :=
  match tenantId with
  | Some (String c r as p) =>
      match List.find (fun t => (String.eqb (Tenant.t_id t) p
                                 || String.eqb (Tenant.t_slug t) p)
                                && Tenant.t_active t) ts with
      | Some t => Next t
      | None => Answer 404 "Tenant não encontrado"
      end
  | _ => Next current
  end.

(** [authenticateApiKey, tenantResolver] in front of a handler that reads
    [req.tenant._id]; [refuse] builds the answer of a middleware. *)
Definition through {R : Type} (ts : list Tenant.doc) (apiKey : option string)
    (tenantId : string) (refuse : nat -> string -> R) (handler : string -> M R) : M R :=
  match authenticateApiKey ts apiKey with
  | Answer c err => ret (refuse c err)
  | Next t0 =>
      match tenantResolver ts (Some tenantId) t0 with
      | Answer c err => ret (refuse c err)
      | Next t => handler (Tenant.t_id t)
      end
  end.

Definition refused (c : nat) (err : string) : response :=
  {| code := c; body := ErrorBody err [] |}.

Definition read_refused (c : nat) (err : string) : orderQueries.read_response :=
  {| orderQueries.read_code := c;
     orderQueries.read_body_of := orderQueries.ReadError err |}.

(** [router.post('/:tenantId', ...)] *)
Definition post_order (ts : list Tenant.doc) (products : list product)
    (now : instant) (apiKey : option string) (tenantId : string) (b : order_data)
  : M response :=
  through ts apiKey tenantId refused
    (fun tid => routes.post_order (env_of ts products) now tid b).

(** [router.get('/:tenantId/status/:orderNumber', ...)] *)
Definition get_status (ts : list Tenant.doc) (apiKey : option string)
    (tenantId orderNumber_ : string) : M orderQueries.read_response :=
  through ts apiKey tenantId read_refused
    (fun tid => orderQueries.getOrderStatus tid orderNumber_).

(** [router.post('/:tenantId/rate/:orderNumber', ...)] *)
Definition post_rate (ts : list Tenant.doc) (apiKey : option string)
    (tenantId orderNumber_ : string) (rating_ : jsval) (comment : option string)
  : M response :=
  through ts apiKey tenantId refused
    (fun tid => orderController.rateOrder tid orderNumber_ rating_ comment).

End access.

(** ** The cache ([utils/cacheManager.js]) *)

Module cacheManager.

(** The live entries of the cache; their expiry is not modelled. *)
Definition cache (V : Type) : Type := gmap string V.

Definition get {V : Type} (c : cache V) (key : string) : option V := c !! key.

Definition set {V : Type} (c : cache V) (key : string) (value : V) : cache V :=
  <[key := value]> c.

Definition del {V : Type} (c : cache V) (key : string) : cache V := delete key c.

(** [delByPrefix]: the number of keys removed and the cache left. *)
Definition delByPrefix {V : Type} (c : cache V) (prefix : string) : nat * cache V :=
  let delKeys := List.filter (Str.startsWith prefix) (List.map fst (map_to_list c)) in
  (length delKeys, fold_right (fun k acc => delete k acc) c delKeys).

Definition flush {V : Type} (c : cache V) : cache V := ∅.

End cacheManager.

(** ** The tenant controller *)

Module tenantController.

(** A user document ([models/user.js]), without its password and dates. *)
Record user : Type := {
  u_tenantId : string;
  u_name : string;
  u_email : string;
  u_role : string;
  u_active : bool
}.

Definition deactivate (u : user) : user :=
  {| u_tenantId := u_tenantId u; u_name := u_name u; u_email := u_email u;
     u_role := u_role u; u_active := false |}.

(** What the tenant controller works on. *)
Record state (V : Type) : Type := {
  tenants : list Tenant.doc;
  users : list user;
  cached : cacheManager.cache V
}.

Arguments tenants {V} s.
Arguments users {V} s.
Arguments cached {V} s.

Inductive answer : Type :=
| Toggled (message : string) (status_ : bool)
| KeyGenerated (message : string) (apiKey : string)
| Failed (status_ : nat) (error : string).

(** [User.updateMany({ tenantId }, { $set: { active: false } })] *)
Definition deactivate_users (tid : string) (us : list user) : list user :=
  List.map (fun u => if String.eqb (u_tenantId u) tid then deactivate u else u) us.

(** [exports.toggleTenantStatus] *)
Definition toggleTenantStatus {V : Type} (id : string) (s : state V)
  : answer * state V :=
  match Tenant.findById (tenants s) id with
  | None => (Failed 404 "Tenant não encontrado", s)
  | Some (i, t) =>
      let t' := Tenant.set_active t (negb (Tenant.t_active t)) in
      let us := if negb (Tenant.t_active t')
                then deactivate_users (Tenant.t_id t') (users s)
                else users s in
      let c := snd (cacheManager.delByPrefix (cached s) ("tenant_" ++ Tenant.t_id t')) in
      (Toggled ("Tenant " ++ (if Tenant.t_active t' then "ativado" else "desativado")
                ++ " com sucesso") (Tenant.t_active t'),
       {| tenants := <[i := t']> (tenants s); users := us; cached := c |})
  end.

Definition set_apiKey (t : Tenant.doc) (k : string) : Tenant.doc :=
  {| Tenant.t_id := Tenant.t_id t; Tenant.t_name := Tenant.t_name t;
     Tenant.t_slug := Tenant.t_slug t; Tenant.t_apiKey := k;
     Tenant.t_active := Tenant.t_active t; Tenant.t_planType := Tenant.t_planType t;
     Tenant.t_email := Tenant.t_email t; Tenant.t_phone := Tenant.t_phone t |}.

(** [generateUniqueApiKey], on the keys that [crypto.randomBytes(32)] is
    going to give, as hexadecimal text: the first one that no tenant has,
    with the draws left.  [None] stands for a run that is still drawing when
    the given draws are used up. *)
Fixpoint generateUniqueApiKey (draws : list string) (ts : list Tenant.doc)
  : option (string * list string) :=
  match draws with
  | [] => None
  | apiKey :: rest =>
      if existsb (fun t => String.eqb (Tenant.t_apiKey t) apiKey) ts
      then generateUniqueApiKey rest ts
      else Some (apiKey, rest)
  end.

(** [exports.generateApiKey] *)
Definition generateApiKey {V : Type} (id : string) (draws : list string)
    (s : state V) : option (answer * state V * list string) :=
  match Tenant.findById (tenants s) id with
  | None => Some (Failed 404 "Tenant não encontrado", s, draws)
  | Some (i, t) =>
      match generateUniqueApiKey draws (tenants s) with
      | None => None
      | Some (apiKey, rest) =>
          let t' := set_apiKey t apiKey in
          let c := snd (cacheManager.delByPrefix (cached s)
                          ("tenant_" ++ Tenant.t_id t')) in
          Some (KeyGenerated "Nova API key gerada com sucesso" apiKey,
                {| tenants := <[i := t']> (tenants s); users := users s; cached := c |},
                rest)
      end
  end.

End tenantController.

(** ** The report service ([services/reportService])

    The aggregation pipelines of the sales report and of the customers
    report that read the orders alone.  A [$group] stage gives its groups
    in no particular order; here they come in the order in which their keys
    first occur, and the properties proved of them do not depend on it.
    The breakdown by category, which joins the catalog, the rankings cut by
    [$limit] and the part of the customers report that reads the
    conversations are not modelled. *)

Module reportService.

#[global] Instance payment_method_eq_dec : EqDecision payment_method.
Proof. solve_decision. Defined.

Section Group.

Context {D K A : Type} `{EqDecision K}.
Variables (key : D -> K) (init : A) (step : A -> D -> A).

(** Accumulating one document into the groups of a [$group] stage. *)
Fixpoint group_add (d : D) (gs : list (K * A)) : list (K * A) :=
  match gs with
  | [] => [(key d, step init d)]
  | (k, a) :: r =>
      if decide (k = key d) then (k, step a d) :: r else (k, a) :: group_add d r
  end.

(** [{ $group: { _id: <key>, <accumulators> } }] *)
Definition group (ds : list D) : list (K * A) :=
  fold_left (fun gs d => group_add d gs) ds [].

End Group.

(** [count: { $sum: 1 }, total: { $sum: '$total' }] *)
Record sales_group : Type := { group_count : nat; group_total : float }.




(** [$sort: { '_id.year': 1, '_id.month': 1, '_id.day': 1 }] *)
Definition day_le (a b : nat * nat * nat) : Prop :=
  let '(y1, m1, d1) := a in
  let '(y2, m2, d2) := b in
  (y1 < y2 \/ (y1 = y2 /\ (m1 < m2 \/ (m1 = m2 /\ d1 <= d2))))%nat.

#[global] Instance day_le_dec (a b : nat * nat * nat) : Decision (day_le a b).
Proof. destruct a as [[y1 m1] d1], b as [[y2 m2] d2]. cbn. apply _. Defined.

Definition earlier_day {A : Type} (x y : nat * nat * nat * A) : Prop :=
  day_le (fst x) (fst y).

#[global] Instance earlier_day_dec {A : Type} (x y : nat * nat * nat * A)
  : Decision (earlier_day x y).
Proof. unfold earlier_day. apply _. Defined.

(** [$sort: { total: -1 }] *)
Definition larger_total {K : Type} (x y : K * sales_group) : Prop :=
  (group_total (snd y) <=? group_total (snd x))%float = true.

#[global] Instance larger_total_dec {K : Type} (x y : K * sales_group)
  : Decision (larger_total x y).
Proof. unfold larger_total. apply _. Defined.









(** [$group: { _id: '$customer.phone', count: { $sum: 1 } }] *)
Definition ordersByPhone (matched : list order) : list (option string * nat) :=
  group (fun o => cust_phone (customer o)) 0%nat (fun n _ => S n) matched.

Definition fewer_orders (x y : nat * nat) : Prop := (fst x <= fst y)%nat.

#[global] Instance fewer_orders_dec (x y : nat * nat) : Decision (fewer_orders x y).
Proof. unfold fewer_orders. apply _. Defined.

(** The pipeline [orderFrequency]: how many customers placed how many
    orders, by [_id] ascending. *)
Definition orderFrequency (matched : list order) : list (nat * nat) :=
  merge_sort fewer_orders
    (group (fun g : option string * nat => snd g) 0%nat (fun n _ => S n)
       (ordersByPhone matched)).

(** The pipeline [uniqueCustomers] and [totalUniqueCustomers]: [$count]
    keeps nothing of the groups but their number, and gives no document
    when there is none. *)
Definition uniqueCustomers (matched : list order) : list nat :=
  match group (fun o => cust_phone (customer o)) tt (fun u _ => u) matched with
  | [] => []
  | gs => [length gs]
  end.

Definition totalUniqueCustomers (matched : list order) : nat :=
  match uniqueCustomers matched with
  | n :: _ => n
  | [] => 0
  end.

End reportService.
(** * Specification-side definitions

    The notions the properties are stated with, written after the words of
    the specification, and the data of its scenarios. *)

Section SpecPricing.

Local Open Scope float_scope.

(** The number a field holds. *)
Definition num (v : jsval) : float :=
  match v with
  | VNum x => x
  | _ => 0
  end.

(** A number; [NaN] is none. *)
Definition is_num (v : jsval) : Prop := exists x, v = VNum x /\ is_nan x = false.

(** A value of the kinds JSON has for a numeric field that is not given
    as text: a number, [null], or nothing. *)
Definition plain (v : jsval) : Prop :=
  v = VUndefined \/ v = VNull \/ is_num v.

(** What a price or a fee counts for: its number, and 0 when it is absent,
    [null], zero or no number. *)
Definition amount_of (v : jsval) : float :=
  match v with
  | VNum x => if is_zero x || is_nan x then 0 else x
  | _ => 0
  end.

Definition item_options (it : order_item) : list item_option :=
  match options it with
  | Some opts => opts
  | None => []
  end.

(** The pricing rule as the service evaluates it, every sum and product a
    double: the option prices are added up from 0 in their order, an item
    costs [quantity × unitPrice + (sum of the option prices) × quantity]
    (the second term being 0 for an item without options), and the items
    are added up from 0 in their order. *)
Definition spec_options_total (opts : list item_option) : float :=
  fold_left (fun acc o => acc + amount_of (opt_price o)) opts 0.

Definition spec_item_total (it : order_item) : float :=
  num (quantity it) * num (unitPrice it)
  + match item_options it with
    | [] => 0
    | opts => spec_options_total opts * num (quantity it)
    end.

Definition spec_subtotal (its : list order_item) : float :=
  fold_left (fun acc it => acc + spec_item_total it) its 0.

(** [deliveryFee] of the request, 0 when absent. *)
Definition spec_fee (orderData : order_data) : float :=
  amount_of (body_deliveryFee orderData).

(** The pricing rule in the words of the specification:
    [itemTotal = quantity × (unitPrice + sum of the option prices)]. *)
Definition claimed_item_total (it : order_item) : float :=
  num (quantity it) * (num (unitPrice it) + spec_options_total (item_options it)).

Definition claimed_subtotal (its : list order_item) : float :=
  fold_left (fun acc it => acc + claimed_item_total it) its 0.

(** An item whose quantity and unit price are numbers, the prices of its
    options numbers where they are given. *)
Definition numeric_item (it : order_item) : Prop :=
  is_num (quantity it) /\ is_num (unitPrice it) /\
  Forall (fun o => plain (opt_price o)) (item_options it).

(** An item of a valid item list: a quantity of at least one, a unit price,
    and a price on every option. *)
Definition priced_item (it : order_item) : Prop :=
  (exists q, quantity it = VNum q /\ (1 <=? q) = true) /\
  is_num (unitPrice it) /\
  Forall (fun o => is_num (opt_price o)) (item_options it).

(** A request whose numeric fields are JSON numbers where they are given,
    none of them a text. *)
Definition numbers_typed (b : order_data) : Prop :=
  (forall its, body_items b = Some its -> Forall numeric_item its) /\
  plain (body_deliveryFee b) /\ plain (body_changeFor b).

(** The total the service computes for a request. *)
Definition spec_total (b : order_data) : float :=
  spec_subtotal (match body_items b with Some its => its | None => [] end)
  + spec_fee b.

(** The request is priced to a number: no sum of its amounts is [NaN]. *)
Definition priced_to_a_number (b : order_data) : Prop :=
  is_nan (spec_total b) = false.

(** Two numbers that [===] holds of: the same double, or two zeros. *)
Definition same_number (x y : float) : Prop :=
  x = y \/ (is_zero x = true /\ is_zero y = true).

End SpecPricing.

(** ** Scenario data *)

Definition no_env : env := {| catalog := []; findTenant := fun _ => Ret None |}.

Definition empty_world : world := {| orders := []; events := [] |}.

Definition ana : customer_info :=
  {| cust_name := Some "Ana"; cust_phone := Some "5511999990000";
     cust_address := Some "Rua A, 1" |}.

(** Scenario A: two pizzas at 30 with a border of 5, delivery fee 5. *)
Definition item_a : order_item :=
  {| productId := None; item_name := Some "Pizza"; flavor := None;
     quantity := VNum 2; unitPrice := VNum 30;
     options := Some [{| opt_name := "Borda"; opt_price := VNum 5 |}] |}.

Definition body_a : order_data :=
  {| body_customer := Some ana; body_items := Some [item_a];
     body_paymentMethod := Some "pix"; body_changeFor := VUndefined;
     body_deliveryFee := VNum 5; body_notes := None |}.

(** Scenario A without a delivery fee. *)
Definition body_no_fee : order_data :=
  {| body_customer := Some ana; body_items := Some [item_a];
     body_paymentMethod := Some "pix"; body_changeFor := VUndefined;
     body_deliveryFee := VUndefined; body_notes := None |}.

(** Three drinks at 9.9 with an option of 0.1, no delivery fee. *)
Definition item_rounded : order_item :=
  {| productId := None; item_name := Some "Suco"; flavor := None;
     quantity := VNum 3; unitPrice := VNum 9.9;
     options := Some [{| opt_name := "Gelo"; opt_price := VNum 0.1 |}] |}.

Definition body_rounded : order_data :=
  {| body_customer := Some ana; body_items := Some [item_rounded];
     body_paymentMethod := Some "pix"; body_changeFor := VUndefined;
     body_deliveryFee := VUndefined; body_notes := None |}.

(** Scenario A with the delivery fee sent as a text. *)
Definition body_text_fee : order_data :=
  {| body_customer := Some ana; body_items := Some [item_a];
     body_paymentMethod := Some "pix"; body_changeFor := VUndefined;
     body_deliveryFee := VStr "5"; body_notes := None |}.



(** ** Preconditions of a successful creation *)

(** The request names one of the schema's payment methods. *)
Definition payment_known (orderData : order_data) : Prop :=
  exists pm p, body_paymentMethod orderData = Some pm /\ payment_of_name pm = Some p.

(** Every item passes the catalog checks of the service. *)
Definition products_ok (e : env) (tid : string) (its : list order_item) : Prop :=
  Forall (fun it => orderService.check_item e tid it = Ret tt) its.

(** Calls of [botService.notifyStatusChange] in a trace. *)
Definition is_status_call (ev : event) : bool :=
  match ev with
  | NotifyStatusChange _ _ _ => true
  | _ => false
  end.

Definition status_calls (evs : list event) : nat :=
  length (List.filter is_status_call evs).




(** ** The lifecycle graph of the specification *)

Inductive allowed_transition : order_status -> order_status -> Prop :=
| pending_confirmed : allowed_transition pending confirmed
| pending_cancelled : allowed_transition pending cancelled
| confirmed_preparing : allowed_transition confirmed preparing
| confirmed_cancelled : allowed_transition confirmed cancelled
| preparing_delivering : allowed_transition preparing delivering
| preparing_completed : allowed_transition preparing completed
| preparing_cancelled : allowed_transition preparing cancelled
| delivering_completed : allowed_transition delivering completed
| delivering_cancelled : allowed_transition delivering cancelled.

(** A requested status text that the graph allows from [from]. *)
Definition allowed_request (from : order_status) (requested : string) : Prop :=
  exists to, requested = status_name to /\ allowed_transition from to.

(** The status a request text stands for; [pending] when it names none. *)
Definition requested_status (requested : string) : order_status :=
  match status_of_name requested with
  | Some st => st
  | None => pending
  end.

(** A stored order of tenant [t1], pending, numbered 001 on 15 January. *)
Definition order_1 : order :=
  {| tenantId := "t1"; orderNumber := "ORD-20240115-001"; status := pending;
     customer := ana; items := [item_a]; paymentMethod := pix;
     changeFor := VUndefined; deliveryFee := 5; subtotal := 70; total := 75;
     rating := None; notes := None; createdAt := jan15 12 0 |}.

Definition world_1 : world := {| orders := [order_1]; events := [] |}.

(** ** Requests of scenario C *)

(** Every field of the body other than [paymentMethod] and [changeFor]
    passes its rule of [validators.order]. *)
Definition other_fields_pass (b : order_data) : Prop :=
  validators.customer_rule (body_customer b) = None /\
  validators.items_rule (body_items b) = None /\
  validators.number_optional "deliveryFee" (body_deliveryFee b) = None.

Definition body_cash : order_data :=
  {| body_customer := Some ana; body_items := Some [item_a];
     body_paymentMethod := Some "cash"; body_changeFor := VUndefined;
     body_deliveryFee := VNum 5; body_notes := None |}.

Definition body_pix_change : order_data :=
  {| body_customer := Some ana; body_items := Some [item_a];
     body_paymentMethod := Some "pix"; body_changeFor := VNum 10;
     body_deliveryFee := VNum 5; body_notes := None |}.

(** ** Options without a price *)

(** An item acceptable to the schema whatever the prices of its options:
    a quantity of at least one and a unit price, the prices of the options
    numbers where they are given. *)
Definition item_acceptable (it : order_item) : Prop :=
  (exists q, quantity it = VNum q /\ (1 <=? q)%float = true) /\
  is_num (unitPrice it) /\
  Forall (fun o => plain (opt_price o)) (item_options it).

(** The subtotal the loop of the service arrives at, the catalog checks
    left aside; [None] when an operator throws. *)
Definition running_subtotal (its : list order_item) : option jsval :=
  orderService.reduce orderService.add_item its (VNum 0).

(** The item with its falsy-priced options left out. *)
Definition without_free_options (it : order_item) : order_item :=
  {| productId := productId it; item_name := item_name it; flavor := flavor it;
     quantity := quantity it; unitPrice := unitPrice it;
     options := match options it with
                | Some opts => Some (List.filter (fun o => JS.truthy (opt_price o)) opts)
                | None => None
                end |}.

(** Scenario A with the price of the border left out. *)
Definition item_free_border : order_item :=
  {| productId := None; item_name := Some "Pizza"; flavor := None;
     quantity := VNum 2; unitPrice := VNum 30;
     options := Some [{| opt_name := "Borda"; opt_price := VUndefined |}] |}.

Definition body_free_border : order_data :=
  {| body_customer := Some ana; body_items := Some [item_free_border];
     body_paymentMethod := Some "pix"; body_changeFor := VUndefined;
     body_deliveryFee := VNum 5; body_notes := None |}.

(** ** Rating and notes *)

(** A value that is neither an array nor an object. *)
Definition scalar (v : jsval) : Prop :=
  match v with
  | VArr _ | VObj _ => False
  | _ => True
  end.



(** A rating the controller and the schema accept: a scalar value that,
    read as a number, lies between 1 and 5.  A number reads as itself,
    [true] as 1, a text as the number it spells. *)
Definition rating_accepted (v : jsval) : Prop :=
  scalar v /\
  (1 <=? JS.number_of v)%float = true /\ (JS.number_of v <=? 5)%float = true.


(** A value the controller lets through although it is no number: a text
    that is not empty and spells no number. *)
Definition rating_unreadable (v : jsval) : Prop :=
  scalar v /\ JS.truthy v = true /\ is_nan (JS.number_of v) = true.

(** The filter [{ tenantId, orderNumber }]. *)
Definition has_number (tid num_ : string) (o : order) : bool :=
  String.eqb (tenantId o) tid && String.eqb (orderNumber o) num_.

(** The stored order after its rating is set to [r], with the given
    comment. *)
Definition rated_as (o : order) (r : option float) (comment : option string) : order :=
  match comment with
  | Some (String c t as text) =>
      set_notes (set_rating o r)
        (orderController.append_line (notes o) ("Avaliação do cliente: " ++ text))
  | _ => set_rating o r
  end.

(** The stored order after a rating [q] with the given comment. *)
Definition rated (o : order) (q : float) (comment : option string) : order :=
  rated_as o (Some q) comment.

(** The notes so far, ready for one more line. *)
Definition notes_base (o : order) : string :=
  match notes o with
  | Some (String c r as n) => n ++ botService.newline
  | _ => ""
  end.


(** The order of [world_1], delivered. *)
Definition order_done : order := set_status order_1 completed.

Definition world_done : world := {| orders := [order_done]; events := [] |}.

(** ** Statistics *)

Section SpecStatistics.

Local Open Scope float_scope.



(** The sum of the totals of a list of orders, added up from 0 in their
    order, each addition a double. *)
Definition sum_of (os : list order) : float :=
  fold_left (fun acc o => acc + total o) os 0.





End SpecStatistics.

(** Scenario E: a completed order of 75 and a cancelled one of 40 on
    15 January, next to an order of another day and one of another tenant. *)
Definition order_e (tid : string) (st : order_status) (amount : float) (d : nat) : order :=
  {| tenantId := tid; orderNumber := "ORD-20240115-001"; status := st;
     customer := ana; items := [item_a]; paymentMethod := pix;
     changeFor := VUndefined; deliveryFee := 0; subtotal := amount;
     total := amount; rating := None; notes := None;
     createdAt := {| year := 2024; month := 1; day := d; hour := 12; minute := 0;
                     second := 0; millis := 0 |} |}.

Definition world_e : world :=
  {| orders := [order_e "t1" completed 75 15; order_e "t1" cancelled 40 15;
                order_e "t1" completed 20 16; order_e "t2" pending 10 15];
     events := [] |}.




(** ** Order numbers *)

(** The date of an instant as eight digits. *)
Definition yyyymmdd (t : instant) : string :=
  pad 4 (year t) ++ pad 2 (month t) ++ pad 2 (day t).

(** An order of the tenant numbered under the given prefix. *)
Definition numbered_today (tid pre : string) (o : order) : Prop :=
  tenantId o = tid /\ Str.startsWith pre (orderNumber o) = true.

(** [n] is the lexicographically greatest number of the tenant's orders whose
    number starts with [pre]. *)
Definition greatest_number (tid pre : string) (os : list order) (n : string) : Prop :=
  (exists o, In o os /\ numbered_today tid pre o /\ orderNumber o = n) /\
  forall o, In o os -> numbered_today tid pre o ->
            String.leb (orderNumber o) n = true.

Fixpoint all_digits (s : string) : bool :=
  match s with
  | EmptyString => true
  | String c r => Str.is_digit c && all_digits r
  end.

(** The number a string of decimal digits denotes. *)
Fixpoint digits_value (s : string) (acc : nat) : nat :=
  match s with
  | EmptyString => acc
  | String c r => digits_value r (acc * 10 + Str.digit_val c)
  end.

(** [ORD-<date>-<seq>] with the sequence padded to three digits. *)
Definition order_number (today : instant) (seq_ : nat) : string :=
  "ORD-" ++ yyyymmdd today ++ "-" ++ pad 3 seq_.

(** ** Requests served one after another *)

(** Creation requests, each served to its end before the next starts. *)
Fixpoint create_all (e : env) (tid : string) (reqs : list (instant * order_data))
  : M (list order) :=
  match reqs with
  | [] => ret []
  | (now, orderData) :: rest =>
      let* o := orderService.createOrder e now tid orderData in
      let* os := create_all e tid rest in
      ret (o :: os)
  end.

(** The orders of the tenant under the prefix are numbered 1 to [k], and
    [k] itself is there unless it is 0. *)
Definition numbered_up_to (tid : string) (today : instant) (k : nat)
    (os : list order) : Prop :=
  (forall o, In o os -> numbered_today tid (Order.day_prefix today) o ->
             exists j, (1 <= j <= k)%nat /\ orderNumber o = order_number today j) /\
  ((1 <= k)%nat ->
   exists o, In o os /\ numbered_today tid (Order.day_prefix today) o
             /\ orderNumber o = order_number today k).

(** What has to hold of [pad 3] below one thousand. *)
Definition pad3_check (k : nat) : bool :=
  (digits_value (pad 3 k) 0 =? k)%nat
  && String.ltb (pad 3 k) (pad 3 (S k))
  && negb (String.eqb (pad 3 k) "").

(** The order of [world_1] under another number. *)
Definition order_numbered (n : string) : order :=
  {| tenantId := "t1"; orderNumber := n; status := pending;
     customer := ana; items := [item_a]; paymentMethod := pix;
     changeFor := VUndefined; deliveryFee := 5; subtotal := 70; total := 75;
     rating := None; notes := None; createdAt := jan15 12 0 |}.

(** ** Requests to the order API, one after another *)

(** The four writing requests of [routes/order.js]. *)
Inductive api_request : Type :=
| PostOrder (now : instant) (tid : string) (b : order_data)
| PatchStatus (tid : string) (id : nat) (requested : option string)
| RateOrder (tid num : string) (rating_ : jsval) (comment : option string)
| AddNote (now : instant) (tid user : string) (id : nat) (note : option string).

Definition serve (e : env) (r : api_request) : M response :=
  match r with
  | PostOrder now tid b => routes.post_order e now tid b
  | PatchStatus tid id requested => routes.patch_status e tid id requested
  | RateOrder tid num rating_ comment =>
      orderController.rateOrder tid num rating_ comment
  | AddNote now tid user id note => orderController.addOrderNote now tid user id note
  end.

(** The world after a sequence of requests. *)
Fixpoint after_requests (e : env) (rs : list api_request) (w : world) : world :=
  match rs with
  | [] => w
  | r :: rest => after_requests e rest (snd (serve e r w))
  end.

(** What no request changes in a stored order. *)
Definition same_core (o o' : order) : Prop :=
  tenantId o' = tenantId o /\ orderNumber o' = orderNumber o /\
  customer o' = customer o /\ items o' = items o /\
  paymentMethod o' = paymentMethod o /\ changeFor o' = changeFor o /\
  deliveryFee o' = deliveryFee o /\ subtotal o' = subtotal o /\
  total o' = total o /\ createdAt o' = createdAt o.

(** How a request may change a stored order. *)
Inductive evolves (o : order) : order -> Prop :=
| evolves_status to :
    allowed_transition (status o) to -> evolves o (set_status o to)
| evolves_rating q comment :
    status o = completed -> (1 <=? q)%float = true -> (q <=? 5)%float = true ->
    evolves o (rated o q comment)
| evolves_unrated comment :
    status o = completed -> evolves o (rated_as o None comment)
| evolves_notes text :
    evolves o (set_notes o (Some text)).

(** What a request may do to the collection. *)
Inductive collection_step (e : env) (os : list order) : list order -> Prop :=
| step_nothing : collection_step e os os
| step_created now tid b w w1 o :
    orders w = os ->
    orderService.createOrder e now tid b w = (Ret o, w1) ->
    collection_step e os (os ++ [o])
| step_changed i o o' :
    os !! i = Some o -> evolves o o' ->
    collection_step e os (<[i := o']> os).


(** The steps an order has left in its lifecycle. *)
Definition rank (s : order_status) : nat :=
  match s with
  | pending => 0
  | confirmed => 1
  | preparing => 2
  | delivering => 3
  | completed => 4
  | cancelled => 4
  end.

Definition terminal (s : order_status) : Prop := s = completed \/ s = cancelled.

(** Status updates of one order, one after another; the answers and the
    world at the end. *)
Fixpoint updates (e : env) (tid : string) (id : nat) (rs : list string) (w : world)
  : list (outcome response) * world :=
  match rs with
  | [] => ([], w)
  | r :: rest =>
      let '(res, w1) := orderController.updateOrderStatus e tid id r w in
      let '(more, w2) := updates e tid id rest w1 in
      (res :: more, w2)
  end.

Definition succeeded (res : outcome response) : bool :=
  match res with
  | Ret r => (code r =? 200)%nat
  | Throw _ => false
  end.

(** ** The listing of a tenant's orders *)

(** The orders a listing is about. *)
Definition matching (tid : string) (q : orderQueries.list_query) (os : list order)
  : list order :=
  List.filter (orderQueries.matches tid q) os.

(** The query [q] asking for page [p]. *)
Definition with_page (q : orderQueries.list_query) (p : nat) : orderQueries.list_query :=
  {| orderQueries.q_status := orderQueries.q_status q;
     orderQueries.q_phone := orderQueries.q_phone q;
     orderQueries.q_dateFrom := orderQueries.q_dateFrom q;
     orderQueries.q_dateTo := orderQueries.q_dateTo q;
     orderQueries.q_page := Some (Str.of_nat p);
     orderQueries.q_limit := orderQueries.q_limit q |}.

(** The documents of an answer; none when the answer is not a page. *)
Definition page_docs (r : outcome orderQueries.read_response * world)
  : list (nat * order) :=
  match fst r with
  | Ret {| orderQueries.read_body_of := orderQueries.PageOf docs _ _ _ _ |} => docs
  | _ => []
  end.

(** Pages [1 .. n] of a listing, one after the other. *)
Definition all_pages (tid : string) (q : orderQueries.list_query) (w : world) (n : nat)
  : list (nat * order) :=
  concat (List.map (fun p => page_docs (orderQueries.getAllOrders tid (with_page q p) w))
            (seq 1 n)).

(** The query with no parameter but the page size. *)
Definition query_of_limit (l : string) : orderQueries.list_query :=
  {| orderQueries.q_status := None; orderQueries.q_phone := None;
     orderQueries.q_dateFrom := None; orderQueries.q_dateTo := None;
     orderQueries.q_page := None; orderQueries.q_limit := Some l |}.

(** ** Order numbers past the third digit *)

(** The numbers of the tenant's orders of the day, as the query of
    [generateOrderNumber] sees them. *)
Definition numbers_of_day (today : instant) (tid : string) (os : list order)
  : list string :=
  List.map orderNumber (List.filter (Order.matches_day tid (Order.day_prefix today)) os).

(** The tenant's orders of the day are numbered within 1 to 1000, and
    999 is among them. *)
Definition reached_999 (tid : string) (today : instant) (os : list order) : Prop :=
  (forall o, In o os -> numbered_today tid (Order.day_prefix today) o ->
             exists j, (1 <= j <= 1000)%nat /\ orderNumber o = order_number today j) /\
  exists o, In o os /\ numbered_today tid (Order.day_prefix today) o
            /\ orderNumber o = order_number today 999.

(** ** Well-formed requests *)

(** A text the driver casts to an [ObjectId]: 24 hexadecimal digits. *)
Definition object_id (s : string) : bool :=
  (String.length s =? 24)%nat
  && forallb (fun c => match Str.hex_val c with Some _ => true | None => false end)
       (list_ascii_of_string s).


(** A page number or page size the driver takes as a 32-bit integer. *)
Definition driver_range (z : Z) : Prop := (Z.abs z <= 2147483647)%Z.

Definition paging_in_range (q : orderQueries.list_query) : Prop :=
  driver_range (orderQueries.int_or (orderQueries.q_page q) 1) /\
  driver_range (orderQueries.int_or (orderQueries.q_limit q) 10).

(** ** Products a tenant cannot sell *)





(** ** Messages that leave the system *)

(** The messages handed to the messaging channel in a trace: tenant, phone
    and text. *)
Fixpoint messages (evs : list event) : list (string * string * string) :=
  match evs with
  | [] => []
  | MessageSent t p m :: r => (t, p, m) :: messages r
  | _ :: r => messages r
  end.

(** The phone the owner of a tenant is notified on. *)
Definition owner_phone (e : env) (tid : string) : option string :=
  match findTenant e tid with
  | Ret (Some t) =>
      match contact_phone t with
      | Some (String c r as p) => Some p
      | _ => None
      end
  | _ => None
  end.

Definition tenant_known (e : env) (tid : string) : bool :=
  match findTenant e tid with
  | Ret (Some _) => true
  | _ => false
  end.

(** A tenant store with tenant [t1], reachable on a phone. *)
Definition shop_env : env :=
  {| catalog := [];
     findTenant := fun t => Ret (if String.eqb t "t1"
                                 then Some {| tenant_id := "t1";
                                              contact_phone := Some "5511888880000" |}
                                 else None) |}.

(** ** Reading a statistics answer *)



(** ** Tenants and their keys *)

(** No tenant is addressed by the text [p] through its slug. *)
Definition no_slug_is (ts : list Tenant.doc) (p : string) : Prop :=
  forall t, In t ts -> Tenant.t_slug t <> p.

(** No active tenant has the key. *)
Definition key_unknown (ts : list Tenant.doc) (key : option string) : Prop :=
  forall k t, key = Some k -> In t ts -> Tenant.t_apiKey t = k ->
              Tenant.t_active t = false.

(** No active tenant is addressed by the text, by id or by slug. *)
Definition path_unknown (ts : list Tenant.doc) (p : string) : Prop :=
  forall t, In t ts -> Tenant.t_id t = p \/ Tenant.t_slug t = p ->
            Tenant.t_active t = false.

(** Two pizzerias. *)
Definition tenant_a : Tenant.doc :=
  {| Tenant.t_id := "65a00000000000000000000a"; Tenant.t_name := "Pizzaria A";
     Tenant.t_slug := "pizzaria-a"; Tenant.t_apiKey := "key-a";
     Tenant.t_active := true; Tenant.t_planType := "basic";
     Tenant.t_email := "a@example.com"; Tenant.t_phone := Some "5511888880000" |}.

Definition tenant_b : Tenant.doc :=
  {| Tenant.t_id := "65a00000000000000000000b"; Tenant.t_name := "Pizzaria B";
     Tenant.t_slug := "pizzaria-b"; Tenant.t_apiKey := "key-b";
     Tenant.t_active := true; Tenant.t_planType := "basic";
     Tenant.t_email := "b@example.com"; Tenant.t_phone := None |}.

Definition two_tenants : list Tenant.doc := [tenant_a; tenant_b].

(** A user of each, and what the cache holds for them. *)
Definition user_of (tid name_ : string) : tenantController.user :=
  {| tenantController.u_tenantId := tid; tenantController.u_name := name_;
     tenantController.u_email := name_ ++ "@example.com";
     tenantController.u_role := "admin"; tenantController.u_active := true |}.

Definition admin_state : tenantController.state nat :=
  {| tenantController.tenants := two_tenants;
     tenantController.users := [user_of "65a00000000000000000000a" "ana";
                                user_of "65a00000000000000000000b" "bia"];
     tenantController.cached :=
       <["tenant_65a00000000000000000000a_products" := 1%nat]>
         (<["tenant_65a00000000000000000000b_products" := 2%nat]> ∅) |}.

(** Some draw is a key that no tenant has. *)
Definition fresh_draw (draws : list string) (ts : list Tenant.doc) : Prop :=
  exists k, In k draws /\ forall t, In t ts -> Tenant.t_apiKey t <> k.

(** The draws are 32 bytes in hexadecimal. *)
Definition hex_draws (draws : list string) : Prop :=
  Forall (fun k => String.length k = 64%nat) draws.

Definition sixty_four (c : ascii) : string := Str.replicate_char 64 c.

(** ** Reading a report *)



(** The customers and the orders a frequency distribution stands for. *)
Definition customers_in (fs : list (nat * nat)) : nat :=
  list_sum (List.map snd fs).

Definition orders_in (fs : list (nat * nat)) : nat :=
  list_sum (List.map (fun f => (fst f * snd f)%nat) fs).

(** An id as the store prints it: 24 hexadecimal digits in lower case. *)
Definition canonical_id (s : string) : Prop :=
  object_id s = true /\ Str.toLowerCase s = s.

(** No two of the orders were created at the same instant, so that the
    order of a sort by [createdAt] is determined. *)
Definition distinct_times (os : list order) : Prop :=
  NoDup (List.map (fun o => instant_key (createdAt o)) os).

(** Three orders of tenant [t1] on three days, and one of tenant [t2]. *)
Definition world_l : world :=
  {| orders := [order_e "t1" completed 75 15; order_e "t2" pending 10 15;
                order_e "t1" cancelled 40 16; order_e "t1" completed 20 17];
     events := [] |}.
(** * Properties *)

(** ** The runtime functions on examples *)

Example toLowerCase_ex : Str.toLowerCase "Tamanho G" = "tamanho g".
Proof. reflexivity. Qed.

Example split_ex : Str.split "-" "ORD-20240115-007" = ["ORD"; "20240115"; "007"].
Proof. reflexivity. Qed.

Example parseInt_ex :
  Str.parseInt "007" = Some 7%Z /\ Str.parseInt "" = None /\
  Str.parseInt "12ab" = Some 12%Z /\ Str.parseInt "0x1A" = Some 26%Z.
Proof. repeat split; reflexivity. Qed.

Example padStart_ex :
  Str.padStart 3 "0" (Str.of_nat 7) = "007" /\
  Str.padStart 3 "0" (Str.of_nat 1000) = "1000".
Proof. split; reflexivity. Qed.

Example toISOString_ex :
  toISOString {| year := 2024; month := 1; day := 15; hour := 9; minute := 5;
                 second := 0; millis := 42 |} = "2024-01-15T09:05:00.042Z".
Proof. reflexivity. Qed.

Example dateStr_ex : Order.dateStr (jan15 9 30) = "20240115".
Proof. reflexivity. Qed.

Example generate_first :
  Order.number_after (jan15 9 30) "t1" [] = "ORD-20240115-001".
Proof. reflexivity. Qed.


(** ** Proof steps shared by the sections below *)

(** Projections of a draft built by the service. *)
Ltac draft_fields :=
  cbn [Order.d_customer Order.d_paymentMethod Order.d_subtotal Order.d_total
       Order.d_deliveryFee Order.d_orderNumber Order.d_items Order.d_changeFor
       Order.d_tenantId Order.d_notes] in *.

(** One step of a computation in [M]. *)
Ltac run_monad :=
  unfold try_catch, bind, lift, ret, throw, emit, respond, get_orders, put_orders;
  cbn [orders events].
(** ** Running the service's [createOrder] *)

Section CreateOrderRuns.

Variables (e : env) (now : instant) (tid : string) (orderData : order_data).

Lemma createOrder_ok (w : world) p o :
  orderService.prepare e tid orderData = Ret p ->
  Order.validate now
    (orderService.draft_of tid orderData
       (Order.number_after now tid (orders w)) p) = Some o ->
  orderService.createOrder e now tid orderData w
  = (Ret o, {| orders := orders w ++ [o]; events := events w |}).
Proof.
  intros Hp Hv.
  unfold orderService.createOrder, try_catch, bind, lift,
    Order.generateOrderNumber, get_orders, ret, Order.create.
  rewrite Hp. cbn. rewrite Hv. reflexivity.
Qed.

Lemma createOrder_ret_inv (w w' : world) o :
  orderService.createOrder e now tid orderData w = (Ret o, w') ->
  exists p,
    orderService.prepare e tid orderData = Ret p /\
    Order.validate now
      (orderService.draft_of tid orderData
         (Order.number_after now tid (orders w)) p) = Some o /\
    w' = {| orders := orders w ++ [o]; events := events w |}.
Proof.
  unfold orderService.createOrder, try_catch, bind, lift,
    Order.generateOrderNumber, get_orders, ret, Order.create, throw, emit.
  destruct (orderService.prepare e tid orderData) as [p|ex] eqn:Hp; cbn.
  - destruct (Order.validate _ _) as [o'|] eqn:Hv; cbn.
    + intros H. injection H as <- <-. exists p. auto.
    + discriminate.
  - discriminate.
Qed.

(** A failing creation stores nothing. *)
Lemma createOrder_throw_orders (w w' : world) ex :
  orderService.createOrder e now tid orderData w = (Throw ex, w') ->
  orders w' = orders w.
Proof.
  unfold orderService.createOrder, try_catch, bind, lift,
    Order.generateOrderNumber, get_orders, ret, Order.create, throw, emit.
  destruct (orderService.prepare e tid orderData) as [p|ex'] eqn:Hp; cbn.
  - destruct (Order.validate _ _) as [o'|] eqn:Hv; cbn.
    + discriminate.
    + intros H. injection H as _ <-. reflexivity.
  - intros H. injection H as _ <-. reflexivity.
Qed.

End CreateOrderRuns.
(** ** Doubles

    What the properties below need of the arithmetic and the order of
    doubles, from the specification of the primitive operations. *)

Section Doubles.

Local Open Scope float_scope.

Lemma SFcompare_swap (a b : spec_float) :
  SFcompare b a = match SFcompare a b with
                  | Some c => Some (CompOpp c)
                  | None => None
                  end.
Proof.
  destruct a as [sa|sa| |sa ma ea], b as [sb|sb| |sb mb eb]; cbn;
    try reflexivity;
    try (destruct sa; reflexivity); try (destruct sb; reflexivity);
    try (destruct sa, sb; reflexivity).
  destruct sa, sb; try reflexivity.
  - rewrite (Z.compare_antisym ea eb).
    destruct (ea ?= eb)%Z; cbn; try reflexivity.
    rewrite (Pos.compare_cont_antisym ma mb Eq). reflexivity.
  - rewrite (Z.compare_antisym ea eb).
    destruct (ea ?= eb)%Z; cbn; try reflexivity.
    rewrite (Pos.compare_cont_antisym ma mb Eq). cbn.
    destruct (Pos.compare_cont Eq ma mb); reflexivity.
Qed.


Lemma SFcompare_refl (a : spec_float) :
  a <> S754_nan -> SFcompare a a = Some Eq.
Proof.
  destruct a as [sa|sa| |sa ma ea]; cbn; try congruence.
  - destruct sa; reflexivity.
  - intros _. rewrite Z.compare_refl.
    change (Pos.compare_cont Eq ma ma) with (Pos.compare ma ma).
    rewrite Pos.compare_refl. destruct sa; reflexivity.
Qed.

Lemma is_nan_spec (x : float) : is_nan x = true <-> Prim2SF x = S754_nan.
Proof.
  unfold is_nan. rewrite FloatAxioms.eqb_spec. unfold SFeqb. split.
  - intros H. destruct (Prim2SF x) eqn:E; try reflexivity;
      rewrite SFcompare_refl in H by discriminate; discriminate.
  - intros ->. reflexivity.
Qed.

Lemma is_nan_false (x : float) : is_nan x = false <-> Prim2SF x <> S754_nan.
Proof.
  rewrite <- is_nan_spec. destruct (is_nan x); split; congruence.
Qed.


Lemma ltb_false_of_leb (x y : float) : (x <=? y) = true -> (y <? x) = false.
Proof.
  rewrite FloatAxioms.ltb_spec, FloatAxioms.leb_spec. unfold SFltb, SFleb.
  rewrite (SFcompare_swap (Prim2SF x) (Prim2SF y)).
  destruct (SFcompare (Prim2SF x) (Prim2SF y)) as [[]|]; cbn; congruence.
Qed.

Lemma leb_not_nan (x y : float) :
  (x <=? y) = true -> is_nan x = false /\ is_nan y = false.
Proof.
  rewrite !is_nan_false, FloatAxioms.leb_spec. unfold SFleb.
  destruct (Prim2SF x), (Prim2SF y); cbn; try discriminate; split; discriminate.
Qed.





Lemma is_zero_spec (x : float) :
  is_zero x = true <-> exists s, Prim2SF x = S754_zero s.
Proof.
  unfold is_zero. rewrite FloatAxioms.eqb_spec. unfold SFeqb.
  change (Prim2SF zero) with (S754_zero false). split.
  - destruct (Prim2SF x) as [s|s| |s m e]; cbn; try discriminate; eauto.
    + destruct s; discriminate.
    + destruct s; discriminate.
  - intros (s & ->). reflexivity.
Qed.

(** A number from one upwards is not zero. *)
Lemma one_leb_not_zero (x : float) : (1 <=? x) = true -> is_zero x = false.
Proof.
  intros H. destruct (is_zero x) eqn:Hz; [|reflexivity].
  apply is_zero_spec in Hz as (s & Hs). rewrite FloatAxioms.leb_spec, Hs in H.
  vm_compute in H. discriminate.
Qed.

(** [NaN] on either side of a sum or a product gives [NaN]. *)
Lemma add_nan_l (x y : float) : is_nan x = true -> is_nan (x + y) = true.
Proof.
  rewrite !is_nan_spec, FloatAxioms.add_spec. intros ->. reflexivity.
Qed.

Lemma add_nan_r (x y : float) : is_nan y = true -> is_nan (x + y) = true.
Proof.
  rewrite !is_nan_spec, FloatAxioms.add_spec. intros ->. now destruct (Prim2SF x).
Qed.

Lemma mul_nan_l (x y : float) : is_nan x = true -> is_nan (x * y) = true.
Proof.
  rewrite !is_nan_spec, FloatAxioms.mul_spec. intros ->. reflexivity.
Qed.

Lemma mul_nan_r (x y : float) : is_nan y = true -> is_nan (x * y) = true.
Proof.
  rewrite !is_nan_spec, FloatAxioms.mul_spec. intros ->. now destruct (Prim2SF x).
Qed.

Lemma same_number_refl x : same_number x x.
Proof. now left. Qed.

Lemma same_number_eqb (x y : float) :
  same_number x y -> is_nan x = false -> (x =? y) = true.
Proof.
  intros [->|[Hx Hy]] Hn.
  - unfold is_nan in Hn. now destruct (y =? y).
  - apply is_zero_spec in Hx as (s & Hs), Hy as (t & Ht).
    rewrite FloatAxioms.eqb_spec, Hs, Ht. reflexivity.
Qed.

Lemma zero_cases (x : float) :
  is_zero x = true -> x = 0 \/ x = (-0)%float.
Proof.
  intros H. apply is_zero_spec in H as ([] & Hs).
  - right. apply Prim2SF_inj. rewrite Hs. reflexivity.
  - left. apply Prim2SF_inj. rewrite Hs. reflexivity.
Qed.

Lemma add_same (x x' y y' : float) :
  same_number x x' -> same_number y y' -> same_number (x + y) (x' + y').
Proof.
  intros Hx Hy.
  assert (H : forall a a' b : float, is_zero a = true -> is_zero a' = true ->
                same_number (a + b) (a' + b) /\ same_number (b + a) (b + a')).
  { intros a a' b Ha Ha'. apply is_zero_spec in Ha as (s & Hs), Ha' as (s' & Hs').
    destruct (Prim2SF b) as [sb|sb| |sb mb eb] eqn:Eb.
    - split; right; rewrite !is_zero_spec, !FloatAxioms.add_spec, Hs, Hs', Eb; cbn;
        destruct s, s', sb; eauto.
    - split; left; apply Prim2SF_inj; rewrite !FloatAxioms.add_spec, Hs, Hs', Eb; reflexivity.
    - split; left; apply Prim2SF_inj; rewrite !FloatAxioms.add_spec, Hs, Hs', Eb; reflexivity.
    - split; left; apply Prim2SF_inj; rewrite !FloatAxioms.add_spec, Hs, Hs', Eb; reflexivity. }
  destruct Hx as [->|[Hx Hx']], Hy as [->|[Hy Hy']].
  - now left.
  - apply (H y y' x' Hy Hy').
  - apply (H x x' y' Hx Hx').
  - right. apply is_zero_spec in Hx as (a & Ha), Hx' as (a' & Ha'),
      Hy as (b & Hb), Hy' as (b' & Hb').
    rewrite !is_zero_spec, !FloatAxioms.add_spec, Ha, Ha', Hb, Hb'. cbn.
    destruct a, a', b, b'; eauto.
Qed.

Lemma mul_same (x x' y y' : float) :
  same_number x x' -> same_number y y' -> same_number (x * y) (x' * y').
Proof.
  intros Hx Hy.
  assert (H : forall a a' b : float, is_zero a = true -> is_zero a' = true ->
                same_number (a * b) (a' * b) /\ same_number (b * a) (b * a')).
  { intros a a' b Ha Ha'. apply is_zero_spec in Ha as (s & Hs), Ha' as (s' & Hs').
    destruct (Prim2SF b) as [sb|sb| |sb mb eb] eqn:Eb.
    - split; right; rewrite !is_zero_spec, !FloatAxioms.mul_spec, Hs, Hs', Eb; cbn; eauto.
    - split; left; apply Prim2SF_inj; rewrite !FloatAxioms.mul_spec, Hs, Hs', Eb; reflexivity.
    - split; left; apply Prim2SF_inj; rewrite !FloatAxioms.mul_spec, Hs, Hs', Eb; reflexivity.
    - split; right; rewrite !is_zero_spec, !FloatAxioms.mul_spec, Hs, Hs', Eb; cbn; eauto. }
  destruct Hx as [->|[Hx Hx']], Hy as [->|[Hy Hy']].
  - now left.
  - apply (H y y' x' Hy Hy').
  - apply (H x x' y' Hx Hx').
  - right. apply is_zero_spec in Hx as (a & Ha), Hx' as (a' & Ha'),
      Hy as (b & Hb), Hy' as (b' & Hb').
    rewrite !is_zero_spec, !FloatAxioms.mul_spec, Ha, Ha', Hb, Hb'. cbn. eauto.
Qed.

(** Adding zero leaves a number as it is, but for the sign of a zero. *)
Lemma add_zero_same (x : float) : same_number (x + 0) x.
Proof.
  destruct (Prim2SF x) as [s|s| |s m e] eqn:E.
  - right. rewrite !is_zero_spec, FloatAxioms.add_spec, E. cbn. destruct s; eauto.
  - left. apply Prim2SF_inj. rewrite FloatAxioms.add_spec, E. reflexivity.
  - left. apply Prim2SF_inj. rewrite FloatAxioms.add_spec, E. reflexivity.
  - left. apply Prim2SF_inj. rewrite FloatAxioms.add_spec, E. reflexivity.
Qed.

(** Zero times a number is zero or [NaN]. *)
Lemma zero_mul (z q : float) :
  is_zero z = true -> is_nan (z * q) = false -> is_zero (z * q) = true.
Proof.
  intros Hz. apply is_zero_spec in Hz as (s & Hs).
  rewrite is_nan_false, is_zero_spec, FloatAxioms.mul_spec, Hs.
  destruct (Prim2SF q) as [sq|sq| |sq mq eq_]; cbn; try congruence; eauto.
Qed.

End Doubles.

(** ** Pricing *)

Section Pricing.

Local Open Scope float_scope.

Lemma is_num_truthy (x : float) :
  is_nan x = false -> JS.truthy (VNum x) = negb (is_zero x).
Proof. intros H. cbn. now rewrite H, orb_false_r. Qed.

(** What [price || 0] is for a price that is not a text. *)
Lemma or_zero_plain (v : jsval) : plain v -> JS.or v (VNum 0) = VNum (amount_of v).
Proof.
  unfold amount_of, JS.or.
  intros [->|[->|(x & -> & _)]]; try reflexivity.
  unfold JS.truthy. now destruct (is_zero x), (is_nan x).
Qed.

(** A falsy price counts as zero. *)
Lemma falsy_amount_zero (v : jsval) : JS.truthy v = false -> amount_of v = 0.
Proof.
  destruct v as [| | |x| | |]; try reflexivity. unfold JS.truthy, amount_of.
  now destruct (is_zero x), (is_nan x).
Qed.

Lemma amount_of_truthy (x : float) :
  JS.truthy (VNum x) = true -> amount_of (VNum x) = x.
Proof. unfold JS.truthy, amount_of. now destruct (is_zero x), (is_nan x). Qed.

Lemma options_sum_from (opts : list item_option) (a : float) :
  Forall (fun o => plain (opt_price o)) opts ->
  orderService.reduce
    (fun sum opt => JS.add sum (JS.or (opt_price opt) (VNum 0))) opts (VNum a)
  = Some (VNum (fold_left (fun acc o => acc + amount_of (opt_price o)) opts a)).
Proof.
  intros H. revert a. induction H as [|o opts Ho _ IH]; intros a; [reflexivity|].
  cbn [orderService.reduce fold_left]. rewrite (or_zero_plain _ Ho).
  change (JS.add (VNum a) (VNum (amount_of (opt_price o))))
    with (Some (VNum (a + amount_of (opt_price o)))).
  apply IH.
Qed.

Lemma item_amount_spec (it : order_item) :
  numeric_item it ->
  orderService.item_amount it = Some (VNum (spec_item_total it)).
Proof.
  intros ((q & Hq & _) & (u & Hu & _) & Hopts).
  unfold orderService.item_amount, spec_item_total, item_options in *.
  rewrite Hq, Hu. cbn [num].
  change (JS.mul (VNum q) (VNum u)) with (Some (VNum (q * u))).
  destruct (options it) as [[|o os]|]; try reflexivity.
  unfold orderService.options_sum. rewrite (options_sum_from (o :: os) 0 Hopts).
  reflexivity.
Qed.

Lemma add_item_spec (it : order_item) (a : float) :
  numeric_item it ->
  orderService.add_item (VNum a) it = Some (VNum (a + spec_item_total it)).
Proof.
  intros H. unfold orderService.add_item. rewrite (item_amount_spec it H).
  reflexivity.
Qed.

Lemma price_items_spec (e : env) (tid : string) (its : list order_item) (a : float) :
  Forall numeric_item its ->
  Forall (fun it => orderService.check_item e tid it = Ret tt) its ->
  orderService.price_items e tid its (VNum a)
  = Ret (VNum (fold_left (fun acc it => acc + spec_item_total it) its a)).
Proof.
  intros Hp. revert a. induction Hp as [|it its Hit _ IH]; intros a Hc;
    [reflexivity|].
  inversion Hc as [|? ? Hc1 Hc2]; subst. cbn [orderService.price_items fold_left].
  rewrite Hc1, (add_item_spec it a Hit). cbn [evaluated]. now apply IH.
Qed.

Lemma priced_item_numeric (it : order_item) : priced_item it -> numeric_item it.
Proof.
  intros ((q & Hq & Hge) & Hu & Ho). split; [|split; [exact Hu|]].
  - exists q. split; [exact Hq|]. now apply leb_not_nan in Hge.
  - eapply Forall_impl; [exact Ho|]. intros o Hn. right. now right.
Qed.

Lemma item_acceptable_numeric (it : order_item) :
  item_acceptable it -> numeric_item it.
Proof.
  intros ((q & Hq & Hge) & Hu & Ho). split; [|split; [exact Hu|exact Ho]].
  exists q. split; [exact Hq|]. now apply leb_not_nan in Hge.
Qed.

(** The sums of a list are [NaN] as soon as they start from [NaN] or add
    one. *)
Lemma fold_add_nan {A : Type} (f : A -> float) (l : list A) (a : float) :
  is_nan (fold_left (fun acc x => acc + f x) l a) = false ->
  is_nan a = false /\ Forall (fun x => is_nan (f x) = false) l.
Proof.
  revert a. induction l as [|x l IH]; intros a H; [split; [exact H|constructor]|].
  cbn [fold_left] in H. apply IH in H as [Ha Hl].
  destruct (is_nan a) eqn:Hna.
  { now rewrite (add_nan_l a (f x) Hna) in Ha. }
  split; [reflexivity|]. constructor; [|exact Hl].
  destruct (is_nan (f x)) eqn:Hnx; [|reflexivity].
  now rewrite (add_nan_r a (f x) Hnx) in Ha.
Qed.

End Pricing.

(** ** The schema on a draft of numbers *)

Section CastNumbers.

Lemma cast_plain (v : jsval) : plain v -> Order.cast v = Some v.
Proof.
  intros [->|[->|(x & -> & Hx)]]; try reflexivity.
  unfold Order.cast, Order.castNumber. now rewrite Hx.
Qed.

Lemma required_number_num (x : float) :
  is_nan x = false -> Order.required_number (VNum x) = Some x.
Proof.
  intros Hx. unfold Order.required_number, Order.cast, Order.castNumber.
  now rewrite Hx.
Qed.

Lemma cast_options_plain (opts : list item_option) :
  Forall (fun o => plain (opt_price o)) opts ->
  Order.cast_all Order.cast_option opts = Some opts.
Proof.
  induction 1 as [|o opts Ho _ IH]; [reflexivity|].
  cbn [Order.cast_all]. unfold Order.cast_option at 1.
  rewrite (cast_plain _ Ho), IH. now destruct o.
Qed.

Lemma cast_item_acceptable (it : order_item) :
  item_acceptable it -> Order.cast_item it = Some it.
Proof.
  intros ((q & Hq & Hge) & (u & Hu & Hnu) & Ho). unfold Order.cast_item.
  rewrite Hq, Hu.
  rewrite (required_number_num q) by now apply leb_not_nan in Hge.
  rewrite (required_number_num u Hnu), Hge.
  unfold item_options in Ho. destruct it as [pid nm fl qq uu [opts|]]; cbn in *.
  - rewrite (cast_options_plain opts Ho). now subst.
  - now subst.
Qed.

Lemma cast_items_acceptable (its : list order_item) :
  Forall item_acceptable its -> Order.cast_all Order.cast_item its = Some its.
Proof.
  induction 1 as [|it its Hit _ IH]; [reflexivity|].
  cbn [Order.cast_all]. now rewrite (cast_item_acceptable it Hit), IH.
Qed.


Lemma required_number_some (v : jsval) (x : float) :
  Order.required_number v = Some x -> is_nan x = false.
Proof.
  unfold Order.required_number, Order.cast.
  destruct (Order.castNumber _) as [[]|] eqn:Hc; try discriminate.
  intros H. injection H as ->.
  unfold Order.castNumber in Hc.
  repeat match type of Hc with
         | match ?x with _ => _ end = _ => destruct x eqn:?
         | (if ?c then _ else _) = _ => destruct c eqn:?
         end;
    try discriminate; injection Hc as <-; try assumption;
    match goal with |- is_nan (if ?b then _ else _) = false => now destruct b end.
Qed.




End CastNumbers.

Section PricingOfCreatedOrders.

Local Open Scope float_scope.

Lemma price_items_ret_checks (e : env) (tid : string) (its : list order_item) a v :
  orderService.price_items e tid its a = Ret v ->
  Forall (fun it => orderService.check_item e tid it = Ret tt) its.
Proof.
  revert a. induction its as [|it its IH]; intros a H; [constructor|].
  cbn [orderService.price_items] in H.
  destruct (orderService.check_item e tid it) as [[]|ex] eqn:Hc; [|discriminate].
  destruct (evaluated _) as [a'|ex]; [|discriminate].
  constructor; [exact Hc|]. eapply IH, H.
Qed.

(** What [prepare] hands over when the numeric fields are numbers. *)
Lemma prepare_priced (e : env) (tid : string) (orderData : order_data) its p :
  body_items orderData = Some its ->
  Forall numeric_item its ->
  plain (body_deliveryFee orderData) ->
  orderService.prepare e tid orderData = Ret p ->
  p = (its, VNum (spec_fee orderData), VNum (spec_subtotal its),
       VNum (spec_subtotal its + spec_fee orderData)).
Proof.
  intros Hits Hpr Hfee. unfold orderService.prepare. rewrite Hits.
  destruct its as [|it its']; [discriminate|].
  destruct (negb _); [discriminate|].
  destruct (orderService.price_items e tid (it :: its') (VNum 0)) as [v|ex] eqn:Hpi;
    [|discriminate].
  rewrite (price_items_spec e tid (it :: its') 0 Hpr
             (price_items_ret_checks _ _ _ _ _ Hpi)) in Hpi.
  injection Hpi as <-. rewrite (or_zero_plain _ Hfee).
  intros H. injection H as <-. reflexivity.
Qed.

Lemma prepare_runs (e : env) (tid : string) (orderData : order_data) its :
  body_items orderData = Some its ->
  its <> [] ->
  Forall numeric_item its ->
  plain (body_deliveryFee orderData) ->
  products_ok e tid its ->
  orderService.customer_complete (body_customer orderData) = true ->
  orderService.prepare e tid orderData
  = Ret (its, VNum (spec_fee orderData), VNum (spec_subtotal its),
         VNum (spec_subtotal its + spec_fee orderData)).
Proof.
  intros Hits Hne Hnum Hfee Hprod Hcust. unfold orderService.prepare.
  rewrite Hits. destruct its as [|it its']; [contradiction|].
  rewrite Hcust. cbn [negb].
  rewrite (price_items_spec e tid (it :: its') 0 Hnum Hprod).
  now rewrite (or_zero_plain _ Hfee).
Qed.

(** The fields the schema takes over from a draft. *)
Lemma validate_fields now tid b n p o :
  Order.validate now (orderService.draft_of tid b n p) = Some o ->
  Order.cast (body_changeFor b) = Some (changeFor o) /\
  Some (payment_name (paymentMethod o)) = body_paymentMethod b /\
  orderNumber o = n /\ tenantId o = tid /\ status o = pending /\
  createdAt o = now /\ rating o = None /\
  Some (customer o) = body_customer b /\ notes o = body_notes b /\
  Order.required_string (cust_name (customer o)) = true /\
  Order.required_string (cust_phone (customer o)) = true.
Proof.
  destruct p as [[[its fee] sub] tot].
  unfold Order.validate, orderService.draft_of. draft_fields.
  destruct (body_customer b) as [c|]; [|done].
  destruct (body_paymentMethod b) as [pm|]; [|done].
  destruct (Order.required_number sub); [|done].
  destruct (Order.required_number tot); [|done].
  destruct (payment_of_name pm) as [pmv|] eqn:Hpm; [|done].
  destruct (Order.cast_fee fee); [|done].
  destruct (Order.cast_all Order.cast_item its); [|done].
  destruct (Order.cast (body_changeFor b)); [|done].
  destruct (_ && _) eqn:Hreq; [|done].
  intros H. injection H as <-. cbn.
  apply andb_prop in Hreq as [Hreq Hph]. apply andb_prop in Hreq as [_ Hn].
  repeat split; try assumption.
  unfold payment_of_name in Hpm. apply find_some in Hpm as [_ Hpm].
  apply String.eqb_eq in Hpm. now rewrite Hpm.
Qed.

(** The amounts and the items the schema takes over from a draft. *)
Lemma validate_stored now tid b n its fee sub tot o :
  Order.validate now (orderService.draft_of tid b n (its, fee, sub, tot)) = Some o ->
  Order.cast_all Order.cast_item its = Some (items o) /\
  Order.cast_fee fee = Some (deliveryFee o) /\
  Order.required_number sub = Some (subtotal o) /\
  Order.required_number tot = Some (total o).
Proof.
  unfold Order.validate, orderService.draft_of. draft_fields.
  destruct (body_customer b) as [c|]; [|done].
  destruct (body_paymentMethod b) as [pm|]; [|done].
  destruct (Order.required_number sub); [|done].
  destruct (Order.required_number tot); [|done].
  destruct (payment_of_name pm) as [pmv|] eqn:Hpm; [|done].
  destruct (Order.cast_fee fee); [|done].
  destruct (Order.cast_all Order.cast_item its); [|done].
  destruct (Order.cast (body_changeFor b)); [|done].
  destruct (_ && _); [|done].
  intros H. injection H as <-. cbn. repeat split.
Qed.

(** The stored amounts are those of a draft of numbers. *)
Lemma validate_amounts now tid orderData num_ its fee sub tot o :
  Forall item_acceptable its ->
  Order.validate now
    (orderService.draft_of tid orderData num_ (its, VNum fee, VNum sub, VNum tot))
  = Some o ->
  items o = its /\ deliveryFee o = fee /\ subtotal o = sub /\ total o = tot.
Proof.
  intros Hacc Hv. apply validate_stored in Hv as (Hi & Hf & Hs & Ht).
  rewrite (cast_items_acceptable its Hacc) in Hi. injection Hi as Hi.
  pose proof (required_number_some _ _ Hs) as Hns.
  pose proof (required_number_some _ _ Ht) as Hnt.
  unfold Order.required_number, Order.cast, Order.castNumber in Hs, Ht.
  unfold Order.cast_fee, Order.cast, Order.castNumber in Hf.
  destruct (is_nan sub); [discriminate|]. destruct (is_nan tot); [discriminate|].
  destruct (is_nan fee); [discriminate|].
  injection Hs as Hs. injection Ht as Ht. injection Hf as Hf. auto.
Qed.

(** What a valid draft of numbers is stored as. *)
Lemma validate_runs now tid (b : order_data) num_ its (fee sub tot : float) c pm p cf :
  body_customer b = Some c ->
  body_paymentMethod b = Some pm ->
  payment_of_name pm = Some p ->
  Order.cast (body_changeFor b) = Some cf ->
  Order.required_string (Some num_) = true ->
  Order.required_string (cust_name c) = true ->
  Order.required_string (cust_phone c) = true ->
  Forall item_acceptable its ->
  is_nan fee = false -> is_nan sub = false -> is_nan tot = false ->
  Order.validate now
    (orderService.draft_of tid b num_ (its, VNum fee, VNum sub, VNum tot))
  = Some {| tenantId := tid; orderNumber := num_; status := pending;
            customer := c; items := its; paymentMethod := p; changeFor := cf;
            deliveryFee := fee; subtotal := sub; total := tot;
            rating := None; notes := body_notes b; createdAt := now |}.
Proof.
  intros Hc Hpm Hp Hcf Hnum Hn Hph Hacc Hfee Hsub Htot.
  unfold Order.validate, orderService.draft_of. draft_fields.
  rewrite Hc, Hpm, (required_number_num sub Hsub), (required_number_num tot Htot),
    Hp, (cast_items_acceptable its Hacc), Hcf, Hnum, Hn, Hph.
  unfold Order.cast_fee, Order.cast, Order.castNumber. rewrite Hfee.
  reflexivity.
Qed.

Lemma priced_item_acceptable (it : order_item) : priced_item it -> item_acceptable it.
Proof.
  intros (Hq & Hu & Ho). split; [exact Hq|]. split; [exact Hu|].
  eapply Forall_impl; [exact Ho|]. intros o Hn. right. now right.
Qed.

Lemma amount_of_not_nan (v : jsval) : plain v -> is_nan (amount_of v) = false.
Proof.
  unfold amount_of.
  intros [->|[->|(x & -> & Hx)]]; try reflexivity.
  rewrite Hx. now destruct (is_zero x).
Qed.

(** Creation succeeds on acceptable input that is priced to a number. *)
Lemma createOrder_succeeds (e : env) (now : instant) (tid : string)
    (orderData : order_data) (its : list order_item) (w : world) :
  body_items orderData = Some its ->
  its <> [] ->
  Forall item_acceptable its ->
  plain (body_deliveryFee orderData) ->
  products_ok e tid its ->
  orderService.customer_complete (body_customer orderData) = true ->
  payment_known orderData ->
  plain (body_changeFor orderData) ->
  priced_to_a_number orderData ->
  exists o,
    orderService.createOrder e now tid orderData w
    = (Ret o, {| orders := orders w ++ [o]; events := events w |}) /\
    items o = its /\ subtotal o = spec_subtotal its /\
    deliveryFee o = spec_fee orderData /\
    total o = spec_subtotal its + spec_fee orderData /\
    changeFor o = body_changeFor orderData /\
    Some (payment_name (paymentMethod o)) = body_paymentMethod orderData.
Proof.
  intros Hits Hne Hacc Hfee Hprod Hcust (pm & p & Hpm & Hp) Hcf Hpriced.
  assert (Hnum : Forall numeric_item its)
    by (eapply Forall_impl; [exact Hacc|apply item_acceptable_numeric]).
  pose proof (prepare_runs e tid orderData its Hits Hne Hnum Hfee Hprod Hcust)
    as Hprep.
  unfold priced_to_a_number, spec_total in Hpriced. rewrite Hits in Hpriced.
  assert (Hsub : is_nan (spec_subtotal its) = false).
  { destruct (is_nan (spec_subtotal its)) eqn:Hn; [|reflexivity].
    now rewrite (add_nan_l _ (spec_fee orderData) Hn) in Hpriced. }
  unfold orderService.customer_complete in Hcust.
  destruct (body_customer orderData) as [c|] eqn:Hbc; [|discriminate].
  apply andb_prop in Hcust as [Hn Hph].
  eexists. split.
  - eapply createOrder_ok; [exact Hprep|].
    eapply (validate_runs now tid orderData _ its); eauto using cast_plain.
    apply (amount_of_not_nan _ Hfee).
  - cbn. repeat split. unfold payment_of_name in Hp.
    apply find_some in Hp as [_ Hp]. apply String.eqb_eq in Hp.
    now rewrite Hpm, Hp.
Qed.

(** C1, as amended.  For an order-creation input whose item list is valid
    and whose fee is a number where it is given, the persisted order has the
    items as sent, [subtotal] equal to the sum over the items of
    [quantity × unitPrice + (sum of the option prices) × quantity], every
    product and sum a double taken in the order of the service, the fee of
    the request or 0 when it has none, and [total] equal to the double
    [subtotal + deliveryFee]; and such an input is stored whenever its
    products, its customer, its payment method and its [changeFor] are
    acceptable and its total is a number. *)
Theorem created_order_pricing (e : env) (now : instant) (tid : string)
    (orderData : order_data) (its : list order_item) (w : world) :
  body_items orderData = Some its ->
  Forall priced_item its ->
  plain (body_deliveryFee orderData) ->
  (forall w' o,
     orderService.createOrder e now tid orderData w = (Ret o, w') ->
     orders w' = (orders w ++ [o])%list /\
     items o = its /\
     subtotal o = spec_subtotal its /\
     deliveryFee o = spec_fee orderData /\
     total o = subtotal o + deliveryFee o) /\
  (its <> [] ->
   products_ok e tid its ->
   orderService.customer_complete (body_customer orderData) = true ->
   payment_known orderData ->
   plain (body_changeFor orderData) ->
   priced_to_a_number orderData ->
   exists o w',
     orderService.createOrder e now tid orderData w = (Ret o, w')).
Proof.
  intros Hits Hpr Hfee.
  assert (Hacc : Forall item_acceptable its)
    by (eapply Forall_impl; [exact Hpr|apply priced_item_acceptable]).
  split.
  - intros w' o Hrun.
    apply createOrder_ret_inv in Hrun as (p & Hp & Hv & ->).
    rewrite (prepare_priced e tid orderData its p Hits
               (Forall_impl _ _ _ Hpr priced_item_numeric) Hfee Hp) in Hv.
    apply (validate_amounts _ _ _ _ _ _ _ _ _ Hacc) in Hv as (Hi & Hf & Hs & Ht).
    rewrite Hi, Hf, Hs, Ht. repeat split.
  - intros Hne Hprod Hcust Hpay Hcf Hnum.
    destruct (createOrder_succeeds e now tid orderData its w Hits Hne Hacc Hfee
                Hprod Hcust Hpay Hcf Hnum) as (o & Hrun & _).
    eauto.
Qed.

End PricingOfCreatedOrders.

(** Scenario A is stored with subtotal 70, fee 5 and total 75; the same
    request without a fee is stored with fee 0 and total 70. *)
Lemma scenario_a_pricing :
  (exists o w',
     orderService.createOrder no_env (jan15 12 0) "t1" body_a empty_world = (Ret o, w')
     /\ subtotal o = 70%float /\ deliveryFee o = 5%float /\ total o = 75%float) /\
  (exists o w',
     orderService.createOrder no_env (jan15 12 0) "t1" body_no_fee empty_world
     = (Ret o, w')
     /\ subtotal o = 70%float /\ deliveryFee o = 0%float /\ total o = 70%float).
Proof.
  assert (Hitem : Forall priced_item [item_a]).
  { repeat constructor; cbn.
    - exists 2%float. split; reflexivity.
    - exists 30%float. split; reflexivity.
    - exists 5%float. split; reflexivity. }
  assert (Hprod : products_ok no_env "t1" [item_a]) by (repeat constructor).
  split.
  - destruct (created_order_pricing no_env (jan15 12 0) "t1" body_a [item_a]
                empty_world eq_refl Hitem) as (Hamounts & Hruns).
    { right. right. exists 5%float. split; reflexivity. }
    destruct Hruns as (o & w' & Hrun); try reflexivity; try exact Hprod.
    + discriminate.
    + eexists _, _. split; reflexivity.
    + now left.
    + exists o, w'. split; [exact Hrun|].
      destruct (Hamounts w' o Hrun) as (_ & _ & Hs & Hf & Ht).
      rewrite Ht, Hs, Hf. repeat split.
  - destruct (created_order_pricing no_env (jan15 12 0) "t1" body_no_fee [item_a]
                empty_world eq_refl Hitem) as (Hamounts & Hruns).
    { now left. }
    destruct Hruns as (o & w' & Hrun); try reflexivity; try exact Hprod.
    + discriminate.
    + eexists _, _. split; reflexivity.
    + now left.
    + exists o, w'. split; [exact Hrun|].
      destruct (Hamounts w' o Hrun) as (_ & _ & Hs & Hf & Ht).
      rewrite Ht, Hs, Hf. repeat split.
Defined.

(** Three times 9.9 with an option of 0.1 is stored as 30.000000000000004,
    where three times the sum of 9.9 and 0.1 is 30; and a delivery fee sent
    as the text ["5"] passes the validator, is joined to the subtotal 70 as
    a text and stored as the total 705. *)
Lemma amounts_rounded_and_joined :
  (exists o w',
     orderService.createOrder no_env (jan15 12 0) "t1" body_rounded empty_world
     = (Ret o, w') /\
     items o = [item_rounded] /\
     subtotal o = 30.000000000000004%float /\
     claimed_subtotal [item_rounded] = 30%float) /\
  (exists o w',
     routes.post_order no_env (jan15 12 0) "t1" body_text_fee empty_world
     = (Ret {| code := 201;
               body := OrderCreated "Pedido criado com sucesso"
                         "ORD-20240115-001" pending 705 |}, w') /\
     orders w' = [o] /\
     subtotal o = 70%float /\ deliveryFee o = 5%float /\ total o = 705%float /\
     (subtotal o + deliveryFee o)%float = 75%float).
Proof.
  split; eexists _, _; vm_compute; repeat split; reflexivity.
Qed.

(** ** Notifications never throw and never touch the orders *)

Lemma sendMessage_runs (e : env) (tid phone text : string) (w : world) :
  exists b w',
    botService.sendMessage e tid phone text w = (Ret b, w') /\
    orders w' = orders w /\
    status_calls (events w') = status_calls (events w).
Proof.
  unfold botService.sendMessage. run_monad.
  destruct (findTenant e tid) as [[t|]|ex]; cbn; eexists _, _;
    (split; [reflexivity|]); cbn; split; try reflexivity;
    unfold status_calls; rewrite !List.filter_app, !length_app; cbn; lia.
Qed.

Lemma notifyNewOrder_runs (e : env) (tid : string) (o : order) (w : world) :
  exists b w',
    botService.notifyNewOrder e tid o w = (Ret b, w') /\ orders w' = orders w.
Proof.
  unfold botService.notifyNewOrder. run_monad.
  destruct (findTenant e tid) as [[t|]|ex] eqn:Hft; cbn.
  - destruct (contact_phone t) as [[|c r]|]; cbn;
      try (eexists _, _; split; [reflexivity|]; reflexivity).
    match goal with
    | |- context [botService.sendMessage e tid ?p ?m ?w0] =>
        destruct (sendMessage_runs e tid p m w0) as (b & w' & Hs & Ho & _)
    end.
    rewrite Hs. exists b, w'. split; [reflexivity|]. rewrite Ho. reflexivity.
  - eexists _, _. split; reflexivity.
  - eexists _, _. split; reflexivity.
Qed.

Lemma notifyStatusChange_runs (e : env) (tid : string) (o : order) (w : world) :
  exists b w',
    botService.notifyStatusChange e tid o w = (Ret b, w') /\
    orders w' = orders w /\
    status_calls (events w') = S (status_calls (events w)).
Proof.
  unfold botService.notifyStatusChange. run_monad.
  destruct (findTenant e tid) as [[t|]|ex] eqn:Hft; cbn.
  - match goal with
    | |- context [botService.sendMessage e tid ?p ?m ?w0] =>
        destruct (sendMessage_runs e tid p m w0) as (b & w' & Hs & Ho & Hc)
    end.
    rewrite Hs. exists b, w'. split; [reflexivity|]. rewrite Ho, Hc. cbn.
    split; [reflexivity|].
    unfold status_calls; rewrite !List.filter_app, !length_app; cbn; lia.
  - eexists _, _. split; [reflexivity|]. cbn. split; [reflexivity|].
    unfold status_calls; rewrite !List.filter_app, !length_app; cbn; lia.
  - eexists _, _. split; [reflexivity|]. cbn. split; [reflexivity|].
    unfold status_calls; rewrite !List.filter_app, !length_app; cbn; lia.
Qed.

(** ** The transition table *)

Lemma status_of_name_name (s : order_status) : status_of_name (status_name s) = Some s.
Proof. destruct s; reflexivity. Qed.

Lemma status_name_inj (s t : order_status) : status_name s = status_name t -> s = t.
Proof.
  intros H. apply (f_equal status_of_name) in H.
  rewrite !status_of_name_name in H. congruence.
Qed.

Lemma validTransitions_total (s : order_status) :
  exists l, orderService.validTransitions !! status_name s = Some l.
Proof. destruct s; eexists; vm_compute; reflexivity. Qed.

Lemma includes_allowed (s : order_status) (requested : string) (l : list string) :
  orderService.validTransitions !! status_name s = Some l ->
  orderService.includes l requested = true <-> allowed_request s requested.
Proof.
  intros Hl. split.
  - intros Hin. unfold orderService.includes in Hin.
    apply existsb_exists in Hin as (x & Hx & Heq).
    apply String.eqb_eq in Heq. subst x.
    destruct s; vm_compute in Hl; injection Hl as <-; cbn in Hx;
      repeat (destruct Hx as [<-|Hx]; [eexists; split;
        [|constructor]; reflexivity|]); contradiction.
  - intros (t & -> & Hallowed).
    destruct Hallowed; vm_compute in Hl; injection Hl as <-; reflexivity.
Qed.

(** A request text is allowed or not, decidably. *)
Lemma allowed_request_dec (s : order_status) (requested : string) :
  {allowed_request s requested} + {~ allowed_request s requested}.
Proof.
  destruct (orderService.validTransitions !! status_name s) as [l|] eqn:Hl.
  - destruct (orderService.includes l requested) eqn:Hin.
    + left. now apply (includes_allowed s requested l Hl).
    + right. intros H. apply (includes_allowed s requested l Hl) in H. congruence.
  - exfalso. destruct (validTransitions_total s) as (l & Hl'). congruence.
Defined.

(** ** Status updates through the controller *)

Section StatusUpdate.

Variables (e : env) (tid : string) (id : nat) (w : world) (o : order).
Hypothesis Hstored : orders w !! id = Some o.
Hypothesis Hten : tenantId o = tid.

Lemma findById_stored :
  Order.findById id tid w = (Ret (Some o), w).
Proof using Hstored Hten.
  unfold Order.findById. run_monad. rewrite Hstored, Hten, String.eqb_refl.
  reflexivity.
Qed.

Lemma update_rejected (requested : string) :
  ~ allowed_request (status o) requested ->
  orderController.updateOrderStatus e tid id requested w
  = (Ret {| code := 400;
            body := ErrorBody
                      (orderService.transition_message (status o) requested) [] |},
     w).
Proof using Hstored Hten.
  intros Hno. unfold orderController.updateOrderStatus.
  unfold try_catch, bind at 1. rewrite findById_stored.
  destruct (validTransitions_total (status o)) as (l & Hl). rewrite Hl.
  destruct (orderService.includes l requested) eqn:Hin.
  - exfalso. apply Hno. now apply (includes_allowed _ _ l Hl).
  - reflexivity.
Qed.

Lemma update_accepted (to : order_status) :
  allowed_transition (status o) to ->
  exists w',
    orderController.updateOrderStatus e tid id (status_name to) w
    = (Ret {| code := 200;
              body := StatusUpdated "Status do pedido atualizado com sucesso" to |},
       w') /\
    orders w' = <[id := set_status o to]> (orders w) /\
    status_calls (events w') = S (status_calls (events w)).
Proof using Hstored Hten.
  intros Hal. unfold orderController.updateOrderStatus.
  unfold try_catch, bind at 1. rewrite findById_stored.
  destruct (validTransitions_total (status o)) as (l & Hl). rewrite Hl.
  assert (Hin : orderService.includes l (status_name to) = true).
  { apply (includes_allowed _ _ l Hl). now exists to. }
  rewrite Hin. cbn [negb].
  unfold orderService.save_status. rewrite status_of_name_name.
  unfold Order.save. run_monad.
  match goal with
  | |- context [botService.notifyStatusChange e tid ?o1 ?w1] =>
      destruct (notifyStatusChange_runs e tid o1 w1) as (b & w2 & Hn & Ho & Hc)
  end.
  rewrite Hn. exists w2. split; [reflexivity|]. split; [exact Ho|exact Hc].
Qed.

End StatusUpdate.

(** C3. A status update succeeds exactly on the pairs of the transition
    table.  On a pair of the table the new status is stored and
    [notifyStatusChange] is called exactly once; on any other pair the request
    fails with a message naming the current and the requested status, and
    nothing changes. *)
Theorem status_update_follows_table (e : env) (tid : string) (id : nat)
    (w : world) (o : order) (requested : string) :
  orders w !! id = Some o ->
  tenantId o = tid ->
  (allowed_request (status o) requested ->
   exists w',
     orderController.updateOrderStatus e tid id requested w
     = (Ret {| code := 200;
               body := StatusUpdated "Status do pedido atualizado com sucesso"
                         (requested_status requested) |}, w') /\
     orders w' = <[id := set_status o (requested_status requested)]> (orders w) /\
     status_calls (events w') = S (status_calls (events w))) /\
  (~ allowed_request (status o) requested ->
   orderController.updateOrderStatus e tid id requested w
   = (Ret {| code := 400;
             body := ErrorBody
                       ("Não é possível alterar o status de '"
                        ++ status_name (status o) ++ "' para '" ++ requested ++ "'")
                       [] |}, w)).
Proof.
  intros Hst Hten. split.
  - intros (to & -> & Hal). unfold requested_status.
    rewrite status_of_name_name. now apply update_accepted.
  - intros Hno. now apply update_rejected.
Qed.

Lemma status_update_follows_table_witness :
  (exists w',
     orderController.updateOrderStatus no_env "t1" 0 "confirmed" world_1
     = (Ret {| code := 200;
               body := StatusUpdated "Status do pedido atualizado com sucesso"
                         confirmed |}, w') /\
     orders w' = [set_status order_1 confirmed] /\
     status_calls (events w') = 1%nat) /\
  orderController.updateOrderStatus no_env "t1" 0 "completed" world_1
  = (Ret {| code := 400;
            body := ErrorBody
                      "Não é possível alterar o status de 'pending' para 'completed'"
                      [] |}, world_1).
Proof.
  split.
  - apply (status_update_follows_table no_env "t1" 0 world_1 order_1 "confirmed");
      [reflexivity|reflexivity|].
    exists confirmed. split; [reflexivity|constructor].
  - apply (status_update_follows_table no_env "t1" 0 world_1 order_1 "completed");
      [reflexivity|reflexivity|].
    intros (to & Hname & Hal). apply (status_name_inj completed to) in Hname.
    subst to. inversion Hal.
Defined.

(** The service's own [updateOrderStatus], which no route calls, follows the
    same table and notifies nobody. *)
Lemma service_update_follows_table (tid : string) (id : nat) (w : world)
    (o : order) (to : order_status) :
  orders w !! id = Some o ->
  tenantId o = tid ->
  allowed_transition (status o) to ->
  orderService.updateOrderStatus tid id (status_name to) w
  = (Ret (set_status o to),
     {| orders := <[id := set_status o to]> (orders w); events := events w |}).
Proof.
  intros Hst Hten Hal. unfold orderService.updateOrderStatus.
  unfold try_catch, bind at 1. rewrite (findById_stored tid id w o Hst Hten).
  destruct (validTransitions_total (status o)) as (l & Hl). rewrite Hl.
  assert (Hin : orderService.includes l (status_name to) = true).
  { apply (includes_allowed _ _ l Hl). now exists to. }
  rewrite Hin. cbn [negb]. unfold orderService.save_status.
  rewrite status_of_name_name. reflexivity.
Qed.
(** ** Creation through the controller *)

Section ControllerCreate.

Variables (e : env) (now : instant) (tid : string) (orderData : order_data).

Lemma controller_create_ok (w w1 : world) (o : order) :
  orderService.createOrder e now tid orderData w = (Ret o, w1) ->
  exists w2,
    orderController.createOrder e now tid orderData w
    = (Ret {| code := 201;
              body := OrderCreated "Pedido criado com sucesso"
                        (orderNumber o) (status o) (total o) |}, w2) /\
    orders w2 = orders w1.
Proof.
  intros Hrun. unfold orderController.createOrder.
  unfold try_catch, bind at 1. rewrite Hrun.
  destruct (notifyNewOrder_runs e tid o w1) as (b & w2 & Hn & Ho).
  unfold bind. rewrite Hn. exists w2. split; [reflexivity|exact Ho].
Qed.


End ControllerCreate.

(** ** A failed notification is logged *)






(** ** The request validator *)

Lemma first_error_none (checks : list (option string)) :
  validators.first_error checks = None -> Forall (fun c => c = None) checks.
Proof.
  induction checks as [|[err|] r IH]; cbn; intros H.
  - constructor.
  - discriminate.
  - constructor; [reflexivity|auto].
Qed.

Lemma first_error_imap_none {A} (f : nat -> A -> option string) (l : list A) :
  validators.first_error (imap f l) = None ->
  forall x, In x l -> exists i, f i x = None.
Proof.
  revert f. induction l as [|a l IH]; intros f H x Hin; [contradiction|].
  cbn in H. destruct (f 0%nat a) as [err|] eqn:Hf; [discriminate|].
  destruct Hin as [<-|Hin]; [eauto|].
  destruct (IH _ H x Hin) as (i & Hi). exists (S i). exact Hi.
Qed.

(** What the number rules let through of a value that is not a text. *)
Lemma number_value_plain path v x :
  plain v -> validators.number_value path v = inr x -> v = VNum x /\ is_nan x = false.
Proof.
  unfold validators.number_value.
  intros [->|[->|(y & -> & Hy)]]; try discriminate.
  destruct (is_infinity y); [discriminate|]. rewrite Hy.
  destruct (validators.safe y); [|discriminate].
  intros H. injection H as <-. auto.
Qed.

Lemma number_required_none path v :
  plain v -> validators.number_required path v = None -> is_num v.
Proof.
  intros Hp. unfold validators.number_required, validators.number_present.
  destruct (validators.number_value path v) as [err|x] eqn:Hv.
  - destruct v; discriminate.
  - intros _. destruct (number_value_plain path v x Hp Hv) as [-> Hx].
    now exists x.
Qed.

Lemma quantity_rule_none path v :
  plain v -> validators.quantity_rule path v = None ->
  exists q, v = VNum q /\ (1 <=? q)%float = true.
Proof.
  intros Hp. unfold validators.quantity_rule.
  destruct (validators.number_value path v) as [err|x] eqn:Hv.
  - destruct v; discriminate.
  - destruct (number_value_plain path v x Hp Hv) as [-> Hx].
    destruct (Number.is_integer x); cbn; [|discriminate].
    destruct (1 <=? x)%float eqn:Hq; cbn; [|discriminate].
    intros _. now exists x.
Qed.

Lemma option_rule_none path j o :
  plain (opt_price o) ->
  validators.option_rule path j o = None -> is_num (opt_price o).
Proof.
  unfold validators.option_rule. intros Hp H. apply first_error_none in H.
  inversion H as [|? ? _ H1]; subst. inversion H1 as [|? ? H2 _]; subst.
  eapply number_required_none; [exact Hp|exact H2].
Qed.

(** An item of numbers that passes the request validator is an item of a
    valid item list. *)
Lemma item_rule_none i it :
  numeric_item it -> validators.item_rule i it = None -> priced_item it.
Proof.
  intros (Hnq & Hnu & Hno).
  unfold validators.item_rule. intros H. apply first_error_none in H.
  do 3 (inversion H as [|? ? _ H1]; subst; clear H; rename H1 into H).
  inversion H as [|? ? Hq H1]; subst; clear H; rename H1 into H.
  inversion H as [|? ? Hu H1]; subst; clear H; rename H1 into H.
  inversion H as [|? ? Ho _]; subst; clear H.
  split; [|split; [exact Hnu|]].
  - apply (quantity_rule_none _ _ (or_intror (or_intror Hnq)) Hq).
  - unfold item_options in *. destruct (options it) as [opts|]; [|constructor].
    apply Forall_forall. intros o Hin. rewrite Forall_forall in Hno.
    pose proof (Hno o Hin) as Hp. apply list_elem_of_In in Hin.
    destruct (first_error_imap_none _ _ Ho o Hin) as (j & Hj).
    eapply option_rule_none; [exact Hp|exact Hj].
Qed.

Lemma items_rule_none its :
  (forall l, its = Some l -> Forall numeric_item l) ->
  validators.items_rule its = None ->
  exists l, its = Some l /\ l <> [] /\ Forall priced_item l.
Proof.
  unfold validators.items_rule. destruct its as [l|]; [|discriminate].
  intros Hnum H. apply first_error_none in H.
  inversion H as [|? ? Hitems H1]; subst; clear H.
  inversion H1 as [|? ? Hmin _]; subst; clear H1.
  exists l. split; [reflexivity|]. split; [now destruct l|].
  specialize (Hnum l eq_refl).
  apply Forall_forall. intros it Hin. rewrite Forall_forall in Hnum.
  pose proof (Hnum it Hin) as Hit. apply list_elem_of_In in Hin.
  destruct (first_error_imap_none _ _ Hitems it Hin) as (i & Hi).
  now apply (item_rule_none i).
Qed.

Lemma customer_rule_none c :
  validators.customer_rule c = None -> orderService.customer_complete c = true.
Proof.
  unfold validators.customer_rule. destruct c as [c|]; [|discriminate].
  intros H. apply first_error_none in H.
  inversion H as [|? ? Hn H1]; subst; clear H.
  inversion H1 as [|? ? Hp _]; subst; clear H1.
  cbn. destruct (cust_name c) as [[|a r]|]; try discriminate.
  destruct (cust_phone c) as [[|a' r']|]; try discriminate. reflexivity.
Qed.

(** What a body accepted by [validators.order] satisfies. *)
Lemma order_rule_none (b : order_data) :
  validators.order b = None ->
  other_fields_pass b /\
  validators.one_of "paymentMethod" ["pix"; "credit-card"; "cash"]
    (body_paymentMethod b) = None /\
  validators.changeFor_rule (body_paymentMethod b) (body_changeFor b) = None.
Proof.
  unfold validators.order. intros H. apply first_error_none in H.
  inversion H as [|? ? H1 G1]; subst; clear H.
  inversion G1 as [|? ? H2 G2]; subst; clear G1.
  inversion G2 as [|? ? H3 G3]; subst; clear G2.
  inversion G3 as [|? ? H4 G4]; subst; clear G3.
  inversion G4 as [|? ? H5 _]; subst; clear G4.
  repeat split; assumption.
Qed.

Lemma order_rule_pass (b : order_data) :
  other_fields_pass b ->
  validators.one_of "paymentMethod" ["pix"; "credit-card"; "cash"]
    (body_paymentMethod b) = None ->
  validators.changeFor_rule (body_paymentMethod b) (body_changeFor b) = None ->
  validators.order b = None.
Proof.
  intros (H1 & H2 & H5) H3 H4. unfold validators.order.
  rewrite H1, H2, H3, H4, H5. reflexivity.
Qed.

Lemma one_of_payment_known (b : order_data) :
  validators.one_of "paymentMethod" ["pix"; "credit-card"; "cash"]
    (body_paymentMethod b) = None ->
  payment_known b.
Proof.
  unfold validators.one_of, payment_known.
  destruct (body_paymentMethod b) as [pm|]; [|discriminate].
  destruct (existsb (String.eqb pm) _) eqn:Hex; [|discriminate]. intros _.
  apply existsb_exists in Hex as (x & Hx & Heq). apply String.eqb_eq in Heq.
  subst x. cbn in Hx.
  destruct Hx as [<-|[<-|[<-|[]]]]; eexists _, _; split; reflexivity.
Qed.

(** A request of numbers that passes the validator and the catalog checks
    and is priced to a number is created. *)
Lemma post_order_created (e : env) (now : instant) (tid : string)
    (b : order_data) (w : world) :
  validators.order b = None ->
  numbers_typed b ->
  priced_to_a_number b ->
  (forall its, body_items b = Some its -> products_ok e tid its) ->
  exists o w',
    routes.post_order e now tid b w
    = (Ret {| code := 201;
              body := OrderCreated "Pedido criado com sucesso"
                        (orderNumber o) (status o) (total o) |}, w') /\
    orders w' = (orders w ++ [o])%list /\
    orderService.createOrder e now tid b w
    = (Ret o, {| orders := orders w ++ [o]; events := events w |}).
Proof.
  intros Hv (Hnum & Hfee & Hcf) Hpriced Hprod.
  unfold routes.post_order, routes.validate. rewrite Hv.
  apply order_rule_none in Hv as ((Hc & Hi & _) & Hpm & _).
  apply (items_rule_none _ Hnum) in Hi as (its & Hits & Hne & Hvalid).
  destruct (createOrder_succeeds e now tid b its w Hits Hne
              (Forall_impl _ _ _ Hvalid priced_item_acceptable) Hfee
              (Hprod its Hits) (customer_rule_none _ Hc)
              (one_of_payment_known _ Hpm) Hcf Hpriced)
    as (o & Hrun & _).
  destruct (controller_create_ok e now tid b w _ o Hrun) as (w2 & Hctl & Ho).
  exists o, w2. split; [exact Hctl|]. split; [exact Ho|exact Hrun].
Qed.

(** A request that fails the validator is answered 400 and changes nothing. *)
Lemma post_order_invalid (e : env) (now : instant) (tid : string)
    (b : order_data) (w : world) err :
  validators.order b = Some err ->
  routes.post_order e now tid b w
  = (Ret {| code := 400; body := ErrorBody "Erro de validação" [err] |}, w).
Proof.
  intros Hv. unfold routes.post_order, routes.validate. rewrite Hv. reflexivity.
Qed.

Lemma payment_name_inj (p q : payment_method) : payment_name p = payment_name q -> p = q.
Proof. destruct p, q; cbn; intros H; try reflexivity; discriminate. Qed.

Lemma controller_create_inv (e : env) (now : instant) (tid : string)
    (b : order_data) (w w' : world) (r : response) :
  orderController.createOrder e now tid b w = (Ret r, w') ->
  code r = 201%nat ->
  exists o w1,
    orderService.createOrder e now tid b w = (Ret o, w1) /\ orders w' = orders w1.
Proof.
  intros Hrun Hcode.
  destruct (orderService.createOrder e now tid b w) as [[o|[m d|m]] w1] eqn:Hsvc.
  - destruct (controller_create_ok e now tid b w w1 o Hsvc) as (w2 & Hctl & Ho).
    rewrite Hctl in Hrun. injection Hrun as <- <-. eauto.
  - revert Hrun. unfold orderController.createOrder.
    unfold try_catch, bind at 1. rewrite Hsvc. run_monad.
    intros H. injection H as <- <-. discriminate.
  - revert Hrun. unfold orderController.createOrder.
    unfold try_catch, bind at 1. rewrite Hsvc. run_monad.
    intros H. injection H as <- <-. discriminate.
Qed.

Lemma forbidden_some path v :
  v <> VUndefined -> exists err, validators.forbidden path v = Some err.
Proof. destruct v; [contradiction|eauto..]. Qed.

(** C4. Order creation allows [changeFor] with cash only.  A request paying
    in cash without [changeFor] is created when its other fields are
    acceptable (its numeric fields being numbers, priced to a number); a
    request with another payment method (or none) that carries a [changeFor]
    value is answered 400 by the validator and nothing is stored; and every
    order stored through the route has no [changeFor] unless it is paid in
    cash. *)
Theorem changeFor_only_with_cash :
  (forall e now tid b w,
     body_paymentMethod b = Some "cash" ->
     body_changeFor b = VUndefined ->
     other_fields_pass b ->
     numbers_typed b ->
     priced_to_a_number b ->
     (forall its, body_items b = Some its -> products_ok e tid its) ->
     exists o w',
       routes.post_order e now tid b w
       = (Ret {| code := 201;
                 body := OrderCreated "Pedido criado com sucesso"
                           (orderNumber o) (status o) (total o) |}, w') /\
       orders w' = (orders w ++ [o])%list /\
       paymentMethod o = cash /\ changeFor o = VUndefined) /\
  (forall e now tid b w,
     body_paymentMethod b <> Some "cash" ->
     body_changeFor b <> VUndefined ->
     exists err,
       routes.post_order e now tid b w
       = (Ret {| code := 400; body := ErrorBody "Erro de validação" [err] |}, w)) /\
  (forall e now tid b w r w',
     routes.post_order e now tid b w = (Ret r, w') ->
     code r = 201%nat ->
     exists o,
       orders w' = (orders w ++ [o])%list /\
       (changeFor o <> VUndefined -> paymentMethod o = cash)).
Proof.
  repeat split.
  - intros e now tid b w Hpm Hcf Hother Hnum Hpriced Hprod.
    assert (Hv : validators.order b = None).
    { apply order_rule_pass; [exact Hother| |]; rewrite Hpm; [reflexivity|].
      rewrite Hcf. reflexivity. }
    destruct (post_order_created e now tid b w Hv Hnum Hpriced Hprod)
      as (o & w' & Hrun & Ho & Hsvc).
    exists o, w'. split; [exact Hrun|]. split; [exact Ho|].
    apply createOrder_ret_inv in Hsvc as (p & _ & Hval & _).
    apply validate_fields in Hval as (Hc & Hp & _).
    rewrite Hpm in Hp. injection Hp as Hp.
    split; [now apply (payment_name_inj _ cash)|].
    rewrite Hcf in Hc. cbn in Hc. now injection Hc.
  - intros e now tid b w Hpm Hcf.
    destruct (validators.order b) as [err|] eqn:Hv.
    + exists err. now apply post_order_invalid.
    + exfalso. apply order_rule_none in Hv as (_ & _ & Hrule).
      unfold validators.changeFor_rule in Hrule.
      destruct (forbidden_some "changeFor" _ Hcf) as (err & Herr).
      destruct (body_paymentMethod b) as [s|]; [|congruence].
      destruct (String.eqb s "cash") eqn:Heq; [|congruence].
      apply String.eqb_eq in Heq. subst s. now apply Hpm.
  - intros e now tid b w r w' Hrun Hcode.
    unfold routes.post_order, routes.validate in Hrun.
    destruct (validators.order b) as [err|] eqn:Hv.
    { injection Hrun as <- <-. discriminate. }
    destruct (controller_create_inv e now tid b w w' r Hrun Hcode)
      as (o & w1 & Hsvc & Ho).
    apply createOrder_ret_inv in Hsvc as (p & _ & Hval & ->).
    exists o. split; [exact Ho|]. intros Hcf.
    apply validate_fields in Hval as (Hc & Hp & _).
    apply order_rule_none in Hv as (_ & _ & Hrule).
    unfold validators.changeFor_rule in Hrule.
    assert (Hsent : body_changeFor b <> VUndefined).
    { intros Hun. rewrite Hun in Hc. cbn in Hc. injection Hc as Hc. auto. }
    destruct (forbidden_some "changeFor" _ Hsent) as (err & Herr).
    destruct (body_paymentMethod b) as [s|]; [|congruence].
    destruct (String.eqb s "cash") eqn:Heq; [|congruence].
    apply String.eqb_eq in Heq. subst s. injection Hp as Hp.
    now apply (payment_name_inj _ cash).
Qed.

(** Scenario C: cash without [changeFor] is created; pix with
    [changeFor: 10] fails validation and stores nothing. *)
Lemma changeFor_only_with_cash_witness :
  (exists o w',
     routes.post_order no_env (jan15 12 0) "t1" body_cash empty_world
     = (Ret {| code := 201;
               body := OrderCreated "Pedido criado com sucesso"
                         (orderNumber o) (status o) (total o) |}, w') /\
     orders w' = [o] /\ paymentMethod o = cash /\ changeFor o = VUndefined) /\
  (exists err,
     routes.post_order no_env (jan15 12 0) "t1" body_pix_change empty_world
     = (Ret {| code := 400; body := ErrorBody "Erro de validação" [err] |},
        empty_world)).
Proof.
  split.
  - apply (proj1 changeFor_only_with_cash no_env (jan15 12 0) "t1" body_cash
             empty_world); try reflexivity.
    + repeat split; reflexivity.
    + split; [|split; [right; right; exists 5%float; now split|now left]].
      intros its Hits. injection Hits as <-.
      repeat constructor; cbn; eexists; split; reflexivity.
    + intros its Hits. injection Hits as <-. repeat constructor.
  - apply (proj1 (proj2 changeFor_only_with_cash) no_env (jan15 12 0) "t1"
             body_pix_change empty_world); discriminate.
Defined.
(** ** Options whose price is falsy *)

Section FreeOptions.

Local Open Scope float_scope.

Lemma same_number_sym (x y : float) : same_number x y -> same_number y x.
Proof. intros [->|[Hx Hy]]; [now left|right; auto]. Qed.

Lemma same_number_zero (x : float) : same_number x 0 -> is_zero x = true.
Proof. intros [->|[Hx _]]; [reflexivity|exact Hx]. Qed.

(** The sum of the option prices is the same with the falsy prices left
    out. *)
Lemma options_total_free (opts : list item_option) (a a' : float) :
  same_number a a' ->
  same_number
    (fold_left (fun acc o => acc + amount_of (opt_price o)) opts a)
    (fold_left (fun acc o => acc + amount_of (opt_price o))
       (List.filter (fun o => JS.truthy (opt_price o)) opts) a').
Proof.
  revert a a'. induction opts as [|o opts IH]; intros a a' Ha; [exact Ha|].
  cbn [fold_left List.filter]. destruct (JS.truthy (opt_price o)) eqn:Ht.
  - cbn [fold_left]. apply IH. apply add_same; [exact Ha|apply same_number_refl].
  - apply IH. rewrite (falsy_amount_zero _ Ht).
    destruct (add_zero_same a) as [->|[H1 H2]]; [exact Ha|].
    right. split; [exact H1|].
    destruct Ha as [<-|[_ Ha']]; [exact H2|exact Ha'].
Qed.

Lemma item_total_free (it : order_item) :
  is_nan (spec_item_total it) = false ->
  same_number (spec_item_total it) (spec_item_total (without_free_options it)).
Proof.
  unfold spec_item_total, without_free_options, item_options. cbn.
  intros Hn. apply add_same; [apply same_number_refl|].
  destruct (options it) as [opts|]; [|apply same_number_refl].
  pose proof (options_total_free opts 0 0 (same_number_refl 0)) as Hs.
  fold (spec_options_total opts) in Hs.
  fold (spec_options_total (List.filter (fun o => JS.truthy (opt_price o)) opts))
    in Hs.
  destruct opts as [|o opts]; [apply same_number_refl|].
  destruct (List.filter _ (o :: opts)) as [|o' opts'] eqn:Hf.
  - right. split; [|reflexivity].
    apply zero_mul; [now apply same_number_zero|].
    destruct (is_nan (_ * _)) eqn:Hm; [|reflexivity].
    now rewrite (add_nan_r _ _ Hm) in Hn.
  - apply mul_same; [exact Hs|apply same_number_refl].
Qed.

Lemma subtotal_free (its : list order_item) (a a' : float) :
  same_number a a' ->
  is_nan (fold_left (fun acc it => acc + spec_item_total it) its a) = false ->
  same_number
    (fold_left (fun acc it => acc + spec_item_total it) its a)
    (fold_left (fun acc it => acc + spec_item_total it)
       (List.map without_free_options its) a').
Proof.
  revert a a'. induction its as [|it its IH]; intros a a' Ha Hn; [exact Ha|].
  cbn [fold_left List.map] in *. apply IH; [|exact Hn].
  apply add_same; [exact Ha|]. apply item_total_free.
  apply fold_add_nan in Hn as [Hn _].
  destruct (is_nan (spec_item_total it)) eqn:Hi; [|reflexivity].
  now rewrite (add_nan_r _ _ Hi) in Hn.
Qed.

Lemma without_free_options_numeric (it : order_item) :
  numeric_item it -> numeric_item (without_free_options it).
Proof.
  intros (Hq & Hu & Ho). split; [exact Hq|]. split; [exact Hu|].
  unfold item_options, without_free_options in *. cbn.
  destruct (options it) as [opts|]; [|constructor].
  apply Forall_forall. intros o Hin. rewrite Forall_forall in Ho.
  apply Ho. apply list_elem_of_In in Hin. apply list_elem_of_In.
  apply filter_In in Hin. tauto.
Qed.

(** The loop of the service on items of numbers. *)
Lemma running_subtotal_spec (its : list order_item) :
  Forall numeric_item its ->
  running_subtotal its = Some (VNum (spec_subtotal its)).
Proof.
  unfold running_subtotal, spec_subtotal. generalize 0. intros a H. revert a.
  induction H as [|it its Hit _ IH]; intros a; [reflexivity|].
  cbn [orderService.reduce fold_left]. rewrite (add_item_spec it a Hit).
  apply IH.
Qed.

End FreeOptions.

(** C10, as amended.  In [orderService.createOrder] an option whose price
    is absent, null or zero adds nothing to the subtotal, and neither the
    service nor the schema refuses the order on its account: the order is
    stored with the items as sent, and its subtotal is the number the loop
    of the service arrives at for the same items with such options left
    out (the same double, or a zero for a zero).  The validator of the POST
    route, however, requires a number as the price of every option: a
    request with an option whose price is absent or null is answered 400 and
    nothing is stored. *)
Theorem falsy_option_price :
  (forall e now tid b its w,
     body_items b = Some its ->
     its <> [] ->
     Forall item_acceptable its ->
     plain (body_deliveryFee b) ->
     products_ok e tid its ->
     orderService.customer_complete (body_customer b) = true ->
     payment_known b ->
     plain (body_changeFor b) ->
     priced_to_a_number b ->
     exists o x,
       orderService.createOrder e now tid b w
       = (Ret o, {| orders := orders w ++ [o]; events := events w |}) /\
       items o = its /\
       running_subtotal its = Some (VNum (subtotal o)) /\
       running_subtotal (List.map without_free_options its) = Some (VNum x) /\
       same_number (subtotal o) x) /\
  (forall e now tid b w its it o,
     body_items b = Some its ->
     In it its ->
     In o (item_options it) ->
     opt_price o = VUndefined \/ opt_price o = VNull ->
     exists err,
       routes.post_order e now tid b w
       = (Ret {| code := 400; body := ErrorBody "Erro de validação" [err] |}, w)).
Proof.
  split.
  - intros e now tid b its w Hits Hne Hacc Hfee Hprod Hcust Hpay Hcf Hpriced.
    destruct (createOrder_succeeds e now tid b its w Hits Hne Hacc Hfee Hprod
                Hcust Hpay Hcf Hpriced) as (o & Hrun & Hi & Hs & _).
    assert (Hnum : Forall numeric_item its)
      by (eapply Forall_impl; [exact Hacc|apply item_acceptable_numeric]).
    exists o, (spec_subtotal (List.map without_free_options its)).
    split; [exact Hrun|]. split; [exact Hi|]. rewrite Hs.
    split; [now apply running_subtotal_spec|]. split.
    + apply running_subtotal_spec. apply Forall_forall. intros it Hin.
      apply list_elem_of_In, in_map_iff in Hin as (it0 & <- & Hin0).
      apply without_free_options_numeric. rewrite Forall_forall in Hnum.
      apply Hnum. now apply list_elem_of_In.
    + apply subtotal_free; [apply same_number_refl|].
      unfold priced_to_a_number, spec_total in Hpriced. rewrite Hits in Hpriced.
      change (is_nan (spec_subtotal its) = false).
      destruct (is_nan (spec_subtotal its)) eqn:Hn; [|reflexivity].
      now rewrite (add_nan_l _ (spec_fee b) Hn) in Hpriced.
  - intros e now tid b w its it o Hits Hit Ho Hprice.
    destruct (validators.order b) as [err|] eqn:Hv.
    + exists err. now apply post_order_invalid.
    + exfalso. apply order_rule_none in Hv as ((_ & Hi & _) & _).
      unfold validators.items_rule in Hi. rewrite Hits in Hi.
      apply first_error_none in Hi.
      inversion Hi as [|? ? Hitems _]; subst; clear Hi.
      destruct (first_error_imap_none _ _ Hitems it Hit) as (i & Hrule).
      unfold validators.item_rule in Hrule. apply first_error_none in Hrule.
      do 5 (inversion Hrule as [|? ? _ H1]; subst; clear Hrule; rename H1 into Hrule).
      inversion Hrule as [|? ? Hopts _]; subst; clear Hrule.
      unfold item_options in Ho. destruct (options it) as [opts|]; [|contradiction].
      destruct (first_error_imap_none _ _ Hopts o Ho) as (j & Hj).
      unfold validators.option_rule in Hj. apply first_error_none in Hj.
      inversion Hj as [|? ? _ H1]; subst. inversion H1 as [|? ? H2 _]; subst.
      destruct Hprice as [Hp|Hp]; rewrite Hp in H2; discriminate.
Qed.

(** Scenario A without the price of the border: the service stores the
    order with subtotal 60, the route answers 400. *)
Lemma falsy_option_price_witness :
  (exists o,
     orderService.createOrder no_env (jan15 12 0) "t1" body_free_border empty_world
     = (Ret o, {| orders := [o]; events := [] |}) /\
     items o = [item_free_border] /\ subtotal o = 60%float /\
     running_subtotal [without_free_options item_free_border]
     = Some (VNum 60%float)) /\
  (exists err,
     routes.post_order no_env (jan15 12 0) "t1" body_free_border empty_world
     = (Ret {| code := 400; body := ErrorBody "Erro de validação" [err] |},
        empty_world)).
Proof.
  split.
  - destruct (proj1 falsy_option_price no_env (jan15 12 0) "t1" body_free_border
                [item_free_border] empty_world)
      as (o & x & Hrun & Hi & Hs & Hx & Hsame).
    + reflexivity.
    + discriminate.
    + constructor; [|constructor]. split; [|split].
      * exists 2%float. split; reflexivity.
      * exists 30%float. split; reflexivity.
      * constructor; [now left|constructor].
    + right. right. exists 5%float. split; reflexivity.
    + repeat constructor.
    + reflexivity.
    + eexists _, _. split; reflexivity.
    + now left.
    + reflexivity.
    + exists o. split; [exact Hrun|]. split; [exact Hi|].
      split; [|reflexivity].
      vm_compute in Hs. now injection Hs.
  - apply (proj2 falsy_option_price no_env (jan15 12 0) "t1" body_free_border
             empty_world [item_free_border] item_free_border
             {| opt_name := "Borda"; opt_price := VUndefined |});
      [reflexivity|now left|now left|now left].
Defined.

(** The request of scenario A is created, yet the same request with the
    price of its option left out fails validation and stores nothing. *)
Lemma absent_price_rejected_by_route :
  (exists w',
     routes.post_order no_env (jan15 12 0) "t1" body_a empty_world
     = (Ret {| code := 201;
               body := OrderCreated "Pedido criado com sucesso"
                         "ORD-20240115-001" pending 75 |}, w')) /\
  routes.post_order no_env (jan15 12 0) "t1" body_free_border empty_world
  = (Ret {| code := 400;
            body := ErrorBody "Erro de validação"
                      [validators.label "items[0].options[0].price"
                       ++ " is required"] |},
     empty_world).
Proof.
  split; [eexists|]; vm_compute; reflexivity.
Qed.

(** ** Finding an order by its number *)

Lemma find_index_spec (f : order -> bool) (os : list order) (k i : nat) (o : order) :
  Order.find_index f os k = Some (i, o) ->
  (k <= i)%nat /\ os !! (i - k)%nat = Some o /\ f o = true.
Proof.
  revert k. induction os as [|x os IH]; intros k H; [discriminate|].
  cbn in H. destruct (f x) eqn:Hf.
  - injection H as <- <-. rewrite Nat.sub_diag. auto.
  - apply IH in H as (Hle & Hl & Hfo). split; [lia|]. split; [|exact Hfo].
    replace (i - k)%nat with (S (i - S k)) by lia. exact Hl.
Qed.


Lemma findByNumber_run (tid num_ : string) (w : world) :
  Order.findByNumber tid num_ w
  = (Ret (Order.find_index (has_number tid num_) (orders w) 0), w).
Proof. reflexivity. Qed.

(** ** Rating *)

Section RatingValues.

Local Open Scope float_scope.

Lemma ltb_nan_l (x y : float) : is_nan x = true -> (x <? y) = false.
Proof.
  rewrite is_nan_spec, FloatAxioms.ltb_spec. intros ->. reflexivity.
Qed.

Lemma ltb_nan_r (x y : float) : is_nan y = true -> (x <? y) = false.
Proof.
  rewrite is_nan_spec, FloatAxioms.ltb_spec. intros ->.
  now destruct (Prim2SF x).
Qed.

Lemma scalar_to_number (v : jsval) :
  scalar v -> JS.to_number v = Some (JS.number_of v).
Proof. destruct v; cbn; try reflexivity; contradiction. Qed.

(** The range check on a scalar value. *)
Lemma rating_rejected_scalar (v : jsval) :
  scalar v ->
  orderController.rating_rejected v
  = Some (negb (JS.truthy v) || (JS.number_of v <? 1) || (5 <? JS.number_of v)).
Proof.
  intros Hs. unfold orderController.rating_rejected, JS.lt, JS.gt.
  rewrite (scalar_to_number v Hs).
  destruct (JS.truthy v); [|reflexivity]. cbn [negb orb].
  now destruct (JS.number_of v <? 1).
Qed.

(** A value that reads as a number from one upwards is truthy. *)
Lemma accepted_truthy (v : jsval) :
  scalar v -> (1 <=? JS.number_of v) = true -> JS.truthy v = true.
Proof.
  destruct v as [| |b|x|s| |]; cbn [scalar JS.number_of JS.truthy];
    try contradiction; intros _ H.
  - vm_compute in H. discriminate.
  - vm_compute in H. discriminate.
  - destruct b; [reflexivity|]. vm_compute in H. discriminate.
  - rewrite (one_leb_not_zero x H).
    now destruct (leb_not_nan _ _ H) as [_ ->].
  - destruct s; [|reflexivity]. vm_compute in H. discriminate.
Qed.

Lemma rating_accepted_passes (v : jsval) :
  rating_accepted v -> orderController.rating_rejected v = Some false.
Proof.
  intros (Hs & H1 & H5). rewrite (rating_rejected_scalar v Hs).
  now rewrite (accepted_truthy v Hs H1), (ltb_false_of_leb _ _ H1),
    (ltb_false_of_leb _ _ H5).
Qed.


Lemma rating_unreadable_passes (v : jsval) :
  rating_unreadable v -> orderController.rating_rejected v = Some false.
Proof.
  intros (Hs & Ht & Hn). rewrite (rating_rejected_scalar v Hs), Ht.
  now rewrite (ltb_nan_l _ 1 Hn), (ltb_nan_r 5 _ Hn).
Qed.




Lemma rating_cast_range (v : jsval) (q : float) :
  orderController.rating_cast v = Some (Some q) ->
  (1 <=? q) = true /\ (q <=? 5) = true.
Proof.
  unfold orderController.rating_cast.
  destruct (Order.cast v) as [[| | |x| | |]|]; try discriminate.
  destruct (1 <=? x) eqn:H1; [|discriminate].
  destruct (x <=? 5) eqn:H5; [|discriminate].
  intros H. injection H as <-. auto.
Qed.

End RatingValues.



(** What [rateOrder] does, step by step. *)
Lemma rateOrder_run (tid num_ : string) (v : jsval) (comment : option string)
    (w : world) :
  orderController.rateOrder tid num_ v comment w
  = match orderController.rating_rejected v with
    | None =>
        (Ret {| code := 500; body := ErrorBody "Erro ao registrar avaliação" [] |},
         {| orders := orders w;
            events := events w ++ [LogError "Erro ao avaliar pedido"] |})
    | Some true =>
        (Ret {| code := 400;
                body := ErrorBody "Avaliação deve ser um número entre 1 e 5" [] |},
         w)
    | Some false =>
        match Order.find_index (has_number tid num_) (orders w) 0 with
        | None =>
            (Ret {| code := 404; body := ErrorBody "Pedido não encontrado" [] |}, w)
        | Some (i, o) =>
            if bool_decide (status o = completed) then
              match orderController.rating_cast v with
              | None =>
                  (Ret {| code := 500;
                          body := ErrorBody "Erro ao registrar avaliação" [] |},
                   {| orders := orders w;
                      events := events w ++ [LogError "Erro ao avaliar pedido"] |})
              | Some r =>
                  (Ret {| code := 200;
                          body := OrderRated "Pedido avaliado com sucesso" r |},
                   {| orders := <[i := rated_as o r comment]> (orders w);
                      events := events w |})
              end
            else
              (Ret {| code := 400;
                      body := ErrorBody "Apenas pedidos entregues podem ser avaliados"
                                [] |}, w)
        end
    end.
Proof.
  unfold orderController.rateOrder.
  destruct (orderController.rating_rejected v) as [[|]|]; try reflexivity.
  unfold try_catch, bind at 1. unfold lift, evaluated.
  unfold bind at 1.
  change (Order.findByNumber tid num_ w)
    with (Ret (Order.find_index (has_number tid num_) (orders w) 0), w).
  destruct (Order.find_index (has_number tid num_) (orders w) 0) as [[i o]|];
    [|reflexivity].
  destruct (bool_decide (status o = completed)); [|reflexivity].
  cbn [negb]. destruct (orderController.rating_cast v) as [r|]; [|reflexivity].
  unfold rated_as. destruct comment as [[|c t]|]; reflexivity.
Qed.

Section Rating.

Variables (tid num_ : string) (w : world) (i : nat) (o : order).
Hypothesis Hfound :
  Order.find_index (has_number tid num_) (orders w) 0 = Some (i, o).





End Rating.

(** Whatever the value, a rating request changes the order it finds only
    when it answers 200, and the rating it stores then is a number from 1
    to 5 (or none at all) on a completed order. *)
Lemma rate_any_value (tid num_ : string) (w : world) (v : jsval)
    (comment : option string) :
  exists r w',
    orderController.rateOrder tid num_ v comment w = (Ret r, w') /\
    ((code r = 200%nat /\
      exists i o stored,
        Order.find_index (has_number tid num_) (orders w) 0 = Some (i, o) /\
        status o = completed /\
        orders w' = <[i := rated_as o stored comment]> (orders w) /\
        forall q, stored = Some q ->
                  (1 <=? q)%float = true /\ (q <=? 5)%float = true)
     \/ ((code r = 400%nat \/ code r = 404%nat \/ code r = 500%nat)
         /\ orders w' = orders w)).
Proof.
  rewrite rateOrder_run.
  destruct (orderController.rating_rejected v) as [[|]|];
    try (eexists _, _; split; [reflexivity|]; right; cbn; auto; fail).
  destruct (Order.find_index _ _ _) as [[i o]|] eqn:Hf;
    [|eexists _, _; split; [reflexivity|]; right; cbn; auto].
  destruct (bool_decide (status o = completed)) eqn:Hst;
    [|eexists _, _; split; [reflexivity|]; right; cbn; auto].
  apply bool_decide_eq_true_1 in Hst.
  destruct (orderController.rating_cast v) as [r|] eqn:Hc;
    [|eexists _, _; split; [reflexivity|]; right; cbn; auto].
  eexists _, _. split; [reflexivity|]. left. split; [reflexivity|].
  exists i, o, r.
  split; [reflexivity|]. split; [exact Hst|]. split; [reflexivity|].
  intros q ->. now apply (rating_cast_range v).
Qed.




(** ** Notes *)

Lemma string_app_assoc (a b c : string) : (a ++ b) ++ c = a ++ (b ++ c).
Proof.
  induction a as [|x a IH]; [reflexivity|].
  change (String x ((a ++ b) ++ c) = String x (a ++ (b ++ c))). now f_equal.
Qed.

Lemma append_line_base (o : order) (text : string) :
  orderController.append_line (notes o) text = Some (notes_base o ++ text).
Proof. unfold orderController.append_line, notes_base.
  destruct (notes o) as [[|c r]|]; try reflexivity.
  now rewrite string_app_assoc.
Qed.

Lemma append_line_nonempty (s text : string) :
  s <> "" ->
  orderController.append_line (Some s) text = Some (s ++ botService.newline ++ text).
Proof. destruct s; [contradiction|reflexivity]. Qed.



Section Notes.

Variables (tid : string) (id : nat) (w : world) (o : order).
Hypothesis Hstored : orders w !! id = Some o.
Hypothesis Hten : tenantId o = tid.


Lemma note_added (now : instant) (user text : string) :
  text <> "" ->
  orderController.addOrderNote now tid user id (Some text) w
  = (Ret {| code := 200;
            body := NoteAdded "Observação adicionada com sucesso"
                      (Some (notes_base o
                             ++ orderController.noteWithTimestamp now user text)) |},
     {| orders := <[id := set_notes o
                             (Some (notes_base o
                                    ++ orderController.noteWithTimestamp now user text))]>
                    (orders w);
        events := events w |}).
Proof using Hstored Hten.
  intros Hne. destruct text as [|c r]; [contradiction|].
  unfold orderController.addOrderNote. unfold try_catch, bind at 1.
  rewrite (findById_stored tid id w o Hstored Hten).
  rewrite append_line_base. reflexivity.
Qed.

End Notes.


(** ** Statistics *)

Section Statistics.


Lemma sum_totals_spec (os : list order) : orderService.sum_totals os = sum_of os.
Proof. reflexivity. Qed.








End Statistics.


(** ** The byte order of strings *)

Lemma ascii_compare_refl (a : ascii) : Ascii.compare a a = Eq.
Proof. apply N.compare_refl. Qed.

Lemma ascii_compare_lt_trans (a b c : ascii) :
  Ascii.compare a b = Lt -> Ascii.compare b c = Lt -> Ascii.compare a c = Lt.
Proof.
  unfold Ascii.compare. rewrite !N.compare_lt_iff. apply N.lt_trans.
Qed.

Lemma string_compare_refl (s : string) : String.compare s s = Eq.
Proof.
  induction s as [|a s IH]; [reflexivity|]. cbn.
  now rewrite ascii_compare_refl.
Qed.

Lemma string_compare_lt_trans (s1 s2 s3 : string) :
  String.compare s1 s2 = Lt -> String.compare s2 s3 = Lt ->
  String.compare s1 s3 = Lt.
Proof.
  revert s2 s3. induction s1 as [|a s1 IH]; intros [|b s2] [|c s3]; cbn;
    try discriminate; try reflexivity.
  destruct (Ascii.compare a b) eqn:Hab; try discriminate;
    destruct (Ascii.compare b c) eqn:Hbc; try discriminate; intros H12 H23.
  - apply Ascii.compare_eq_iff in Hab, Hbc. subst.
    rewrite ascii_compare_refl. eapply IH; eassumption.
  - apply Ascii.compare_eq_iff in Hab. subst. now rewrite Hbc.
  - apply Ascii.compare_eq_iff in Hbc. subst. now rewrite Hab.
  - now rewrite (ascii_compare_lt_trans a b c Hab Hbc).
Qed.

Lemma string_leb_cases (s1 s2 : string) :
  String.leb s1 s2 = true <-> s1 = s2 \/ String.compare s1 s2 = Lt.
Proof.
  unfold String.leb. split.
  - destruct (String.compare s1 s2) eqn:Hc; try discriminate; intros _.
    + left. now apply String.compare_eq_iff.
    + now right.
  - intros [-> | ->]; [now rewrite string_compare_refl|reflexivity].
Qed.

Lemma string_leb_refl (s : string) : String.leb s s = true.
Proof. apply string_leb_cases. now left. Qed.

Lemma string_leb_trans (s1 s2 s3 : string) :
  String.leb s1 s2 = true -> String.leb s2 s3 = true -> String.leb s1 s3 = true.
Proof.
  rewrite !string_leb_cases. intros [->|H12] [->|H23]; auto.
  right. eapply string_compare_lt_trans; eassumption.
Qed.

Lemma string_ltb_leb (s1 s2 : string) :
  String.ltb s1 s2 = true -> String.leb s1 s2 = true.
Proof.
  unfold String.ltb, String.leb. now destruct (String.compare s1 s2).
Qed.

Lemma string_not_ltb_leb (s1 s2 : string) :
  String.ltb s1 s2 = false -> String.leb s2 s1 = true.
Proof.
  unfold String.ltb, String.leb. rewrite (String.compare_antisym s2 s1).
  now destruct (String.compare s1 s2).
Qed.

(** ** The last order of the day *)

Section FindLast.

Variables (tid pre : string).

Lemma matches_day_spec (o : order) :
  Order.matches_day tid pre o = true <-> numbered_today tid pre o.
Proof.
  unfold Order.matches_day, numbered_today.
  rewrite andb_true_iff, String.eqb_eq. reflexivity.
Qed.

Lemma findLast_from (os : list order) (best : option order) :
  match fold_left (fun best o =>
                     if Order.matches_day tid pre o
                     then Order.keep_greater best o else best) os best with
  | None => best = None /\ forall m, In m os -> Order.matches_day tid pre m = false
  | Some o =>
      (best = Some o \/ (In o os /\ Order.matches_day tid pre o = true)) /\
      (forall b, best = Some b -> String.leb (orderNumber b) (orderNumber o) = true) /\
      (forall m, In m os -> Order.matches_day tid pre m = true ->
                 String.leb (orderNumber m) (orderNumber o) = true)
  end.
Proof.
  revert best. induction os as [|x os IH]; intros best; cbn [fold_left].
  - destruct best as [b|].
    + split; [now left|]. split.
      * intros b' [= <-]. apply string_leb_refl.
      * intros m [].
    + split; [reflexivity|]. intros m [].
  - specialize (IH (if Order.matches_day tid pre x
                    then Order.keep_greater best x else best)).
    destruct (fold_left _ os _) as [o|].
    + destruct IH as (Hsrc & Hbest & Hall).
      destruct (Order.matches_day tid pre x) eqn:Hx.
      * assert (Hxo : String.leb (orderNumber x) (orderNumber o) = true
                      /\ forall b, best = Some b ->
                                   String.leb (orderNumber b) (orderNumber o) = true).
        { unfold Order.keep_greater in Hbest. destruct best as [b|].
          - destruct (String.ltb (orderNumber b) (orderNumber x)) eqn:Hlt.
            + specialize (Hbest x eq_refl). split; [exact Hbest|].
              intros b' [= <-]. eapply string_leb_trans; [|exact Hbest].
              now apply string_ltb_leb.
            + specialize (Hbest b eq_refl). split.
              * eapply string_leb_trans; [|exact Hbest].
                now apply string_not_ltb_leb.
              * intros b' [= <-]. exact Hbest.
          - split; [now apply Hbest|]. discriminate. }
        destruct Hxo as [Hxo Hbo]. split; [|split].
        -- destruct Hsrc as [Hsrc|[Hin Hm]]; [|right; split; [now right|exact Hm]].
           unfold Order.keep_greater in Hsrc. destruct best as [b|].
           ++ destruct (String.ltb (orderNumber b) (orderNumber x));
                injection Hsrc as <-; [right; split; [now left|exact Hx]|now left].
           ++ injection Hsrc as <-. right. split; [now left|exact Hx].
        -- exact Hbo.
        -- intros m [<-|Hin] Hm; [exact Hxo|now apply Hall].
      * split; [|split].
        -- destruct Hsrc as [Hsrc|[Hin Hm]]; [now left|right; split; [now right|exact Hm]].
        -- exact Hbest.
        -- intros m [<-|Hin] Hm; [congruence|now apply Hall].
    + destruct IH as (Hnone & Hall).
      destruct (Order.matches_day tid pre x) eqn:Hx.
      * unfold Order.keep_greater in Hnone. destruct best as [b|];
          [destruct (String.ltb _ _)|]; discriminate.
      * split; [exact Hnone|]. intros m [<-|Hin]; [exact Hx|now apply Hall].
Qed.

(** Without an order of the day the query finds nothing. *)
Lemma findLast_none (os : list order) :
  (forall o, In o os -> ~ numbered_today tid pre o) ->
  Order.findLast tid pre os = None.
Proof.
  intros Hno. unfold Order.findLast.
  pose proof (findLast_from os None) as H.
  destruct (fold_left _ os None) as [o|]; [|reflexivity].
  destruct H as ([Hsrc|[Hin Hm]] & _); [discriminate|].
  exfalso. apply (Hno o Hin). now apply matches_day_spec.
Qed.

(** The query finds an order that bears the greatest number of the day. *)
Lemma findLast_greatest (os : list order) (n : string) :
  greatest_number tid pre os n ->
  exists o, Order.findLast tid pre os = Some o /\ orderNumber o = n.
Proof.
  intros ((o0 & Hin0 & Hday0 & Hn0) & Hmax). unfold Order.findLast.
  pose proof (findLast_from os None) as H.
  destruct (fold_left _ os None) as [o|].
  - exists o. split; [reflexivity|].
    destruct H as ([Hsrc|[Hin Hm]] & _ & Hall); [discriminate|].
    apply String.leb_antisym.
    + apply Hmax; [exact Hin|now apply matches_day_spec].
    + rewrite <- Hn0. apply Hall; [exact Hin0|now apply matches_day_spec].
  - destruct H as (_ & Hall). apply matches_day_spec in Hday0.
    rewrite (Hall o0 Hin0) in Hday0. discriminate.
Qed.

End FindLast.

(** ** Digits *)

Lemma digit_char_is_digit (d : nat) : (d < 10)%nat -> Str.is_digit (Str.digit_char d) = true.
Proof.
  intros Hd. unfold Str.is_digit, Str.digit_char.
  rewrite nat_ascii_embedding by lia.
  apply andb_true_iff. split; apply Nat.leb_le; lia.
Qed.

Lemma digits_go_all_digits (fuel n : nat) (acc : string) :
  all_digits acc = true -> all_digits (Str.digits_go fuel n acc) = true.
Proof.
  revert n acc. induction fuel as [|f IH]; intros n acc Hacc; [exact Hacc|].
  cbn [Str.digits_go].
  assert (Hd : all_digits (String (Str.digit_char (n mod 10)) acc) = true).
  { cbn [all_digits]. rewrite digit_char_is_digit, Hacc; [reflexivity|].
    apply Nat.mod_upper_bound. lia. }
  destruct (n / 10 =? 0)%nat; [exact Hd|now apply IH].
Qed.

Lemma of_nat_all_digits (n : nat) : all_digits (Str.of_nat n) = true.
Proof. now apply digits_go_all_digits. Qed.

Lemma all_digits_app (a b : string) :
  all_digits (a ++ b) = all_digits a && all_digits b.
Proof.
  induction a as [|c a IH]; [reflexivity|].
  change (all_digits (String c (a ++ b)) = all_digits (String c a) && all_digits b).
  cbn [all_digits]. now rewrite IH, andb_assoc.
Qed.

Lemma replicate_zero_digits (k : nat) : all_digits (Str.replicate_char k "0") = true.
Proof. induction k as [|k IH]; [reflexivity|exact IH]. Qed.

Lemma pad_all_digits (w n : nat) : all_digits (pad w n) = true.
Proof.
  unfold pad, Str.padStart.
  now rewrite all_digits_app, replicate_zero_digits, of_nat_all_digits.
Qed.

Lemma yyyymmdd_all_digits (t : instant) : all_digits (yyyymmdd t) = true.
Proof.
  unfold yyyymmdd. now rewrite !all_digits_app, !pad_all_digits.
Qed.

(** A digit is none of the other characters the code looks for. *)
Lemma digit_neq (c d : ascii) :
  Str.is_digit c = true -> Str.is_digit d = false -> Ascii.eqb c d = false.
Proof.
  intros Hc Hd. apply Ascii.eqb_neq. intros ->. congruence.
Qed.

(** ** Splitting and stripping *)

Lemma split_go_no_sep (c : ascii) (cur s : string) :
  (forall x, In x (list_ascii_of_string s) -> Ascii.eqb x c = false) ->
  Str.split_go c cur s = [cur ++ s].
Proof.
  revert cur. induction s as [|a s IH]; intros cur Hno.
  - cbn. f_equal. clear. induction cur as [|x cur IH]; [reflexivity|].
    change (String x cur = String x (cur ++ "")). now f_equal.
  - cbn [Str.split_go]. rewrite (Hno a) by (now left).
    rewrite IH by (intros x Hx; apply Hno; now right).
    now rewrite string_app_assoc.
Qed.

Lemma split_go_until (c : ascii) (cur d rest : string) :
  (forall x, In x (list_ascii_of_string d) -> Ascii.eqb x c = false) ->
  Str.split_go c cur (d ++ String c rest)
  = (cur ++ d) :: Str.split_go c "" rest.
Proof.
  revert cur. induction d as [|a d IH]; intros cur Hno.
  - change (Str.split_go c cur (String c rest) = (cur ++ "") :: Str.split_go c "" rest).
    cbn [Str.split_go]. rewrite Ascii.eqb_refl. f_equal.
    clear. induction cur as [|x cur IH]; [reflexivity|].
    change (String x cur = String x (cur ++ "")). now f_equal.
  - change (Str.split_go c cur (String a (d ++ String c rest))
            = (cur ++ String a d) :: Str.split_go c "" rest).
    cbn [Str.split_go]. rewrite (Hno a) by (now left).
    rewrite IH by (intros x Hx; apply Hno; now right).
    now rewrite string_app_assoc.
Qed.

Lemma digits_without (c : ascii) (s : string) :
  all_digits s = true -> Str.is_digit c = false ->
  forall x, In x (list_ascii_of_string s) -> Ascii.eqb x c = false.
Proof.
  induction s as [|a s IH]; intros Hs Hc x Hx; [contradiction|].
  cbn in Hs. apply andb_prop in Hs as [Ha Hs].
  destruct Hx as [<-|Hx]; [now apply digit_neq|now apply IH].
Qed.

Lemma remove_char_app (c : ascii) (a b : string) :
  Str.remove_char c (a ++ b) = Str.remove_char c a ++ Str.remove_char c b.
Proof.
  induction a as [|x a IH]; [reflexivity|].
  change (Str.remove_char c (String x (a ++ b))
          = Str.remove_char c (String x a) ++ Str.remove_char c b).
  cbn [Str.remove_char]. destruct (Ascii.eqb x c); [exact IH|].
  change (String x (Str.remove_char c (a ++ b))
          = String x (Str.remove_char c a ++ Str.remove_char c b)).
  now f_equal.
Qed.

Lemma remove_char_digits (c : ascii) (s : string) :
  all_digits s = true -> Str.is_digit c = false -> Str.remove_char c s = s.
Proof.
  induction s as [|a s IH]; intros Hs Hc; [reflexivity|].
  cbn in Hs. apply andb_prop in Hs as [Ha Hs]. cbn [Str.remove_char].
  rewrite (digit_neq a c Ha Hc). now rewrite IH.
Qed.

(** The date part of the order number is the date in eight digits. *)
Lemma list_ascii_app (s1 s2 : string) :
  list_ascii_of_string (s1 ++ s2)
  = (list_ascii_of_string s1 ++ list_ascii_of_string s2)%list.
Proof.
  induction s1 as [|a s1 IH]; [reflexivity|].
  change (a :: list_ascii_of_string (s1 ++ s2)
          = a :: (list_ascii_of_string s1 ++ list_ascii_of_string s2)%list).
  now f_equal.
Qed.

Lemma toISOString_parts (t : instant) :
  exists rest,
    toISOString t
    = (pad 4 (year t) ++ "-" ++ pad 2 (month t) ++ "-" ++ pad 2 (day t))
        ++ String "T" rest.
Proof.
  eexists. unfold toISOString. rewrite !string_app_assoc. reflexivity.
Qed.

Lemma dateStr_yyyymmdd (t : instant) : Order.dateStr t = yyyymmdd t.
Proof.
  unfold Order.dateStr, Str.split.
  destruct (toISOString_parts t) as (rest & ->).
  rewrite split_go_until.
  - cbn [nth].
    change ("" ++ (pad 4 (year t) ++ "-" ++ pad 2 (month t) ++ "-" ++ pad 2 (day t)))
      with (pad 4 (year t) ++ "-" ++ pad 2 (month t) ++ "-" ++ pad 2 (day t)).
    unfold yyyymmdd. rewrite !remove_char_app.
    rewrite (remove_char_digits "-" (pad 4 (year t))),
      (remove_char_digits "-" (pad 2 (month t))),
      (remove_char_digits "-" (pad 2 (day t)))
      by (apply pad_all_digits || reflexivity).
    reflexivity.
  - intros x Hx. rewrite !list_ascii_app, !in_app_iff in Hx.
    destruct Hx as [Hx|[Hx|[Hx|[Hx|Hx]]]];
      try (eapply digits_without; [apply pad_all_digits|reflexivity|exact Hx]);
      destruct Hx as [<-|[]]; reflexivity.
Qed.

(** ** Reading the sequence back *)

Lemma split_order_number (date digits : string) :
  all_digits date = true -> all_digits digits = true ->
  Str.split "-" (("ORD-" ++ date ++ "-") ++ digits) = ["ORD"; date; digits].
Proof.
  intros Hdate Hdigits.
  assert (Hshape : ("ORD-" ++ date ++ "-") ++ digits
                   = "ORD" ++ String "-" (date ++ String "-" digits)).
  { rewrite !string_app_assoc. reflexivity. }
  rewrite Hshape. unfold Str.split.
  rewrite split_go_until
    by (intros x [<-|[<-|[<-|[]]]]; reflexivity).
  rewrite split_go_until by (now apply digits_without).
  rewrite split_go_no_sep by (now apply digits_without).
  reflexivity.
Qed.

Lemma read_digits_from (s : string) (a : nat) :
  all_digits s = true ->
  Str.read_digits Str.dec_val 10 s (Some a) = Some (digits_value s a).
Proof.
  revert a. induction s as [|c r IH]; intros a Hs; [reflexivity|].
  cbn in Hs. apply andb_prop in Hs as [Hc Hr].
  cbn [Str.read_digits digits_value]. unfold Str.dec_val at 1. rewrite Hc.
  now apply IH.
Qed.

Lemma digit_not_space (c : ascii) : Str.is_digit c = true -> Str.is_space c = false.
Proof.
  unfold Str.is_digit, Str.is_space. intros H. apply andb_prop in H as [H1 H2].
  apply Nat.leb_le in H1, H2.
  apply orb_false_iff. split.
  - apply Nat.eqb_neq. lia.
  - apply andb_false_iff. right. apply Nat.leb_gt. lia.
Qed.

Lemma parseInt_digits (s : string) :
  all_digits s = true -> s <> "" ->
  Str.parseInt s = Some (Z.of_nat (digits_value s 0)).
Proof.
  intros Hs Hne. destruct s as [|c r]; [contradiction|].
  pose proof Hs as Hs'. cbn in Hs'. apply andb_prop in Hs' as [Hc Hr].
  unfold Str.parseInt. cbn [Str.skip_spaces]. rewrite (digit_not_space c Hc).
  rewrite (digit_neq c "-" Hc eq_refl), (digit_neq c "+" Hc eq_refl).
  assert (Hread : Str.read_digits Str.dec_val 10 (String c r) None
                  = Some (digits_value (String c r) 0)).
  { cbn [Str.read_digits digits_value]. unfold Str.dec_val at 1. rewrite Hc.
    now apply read_digits_from. }
  destruct r as [|c1 r'].
  - rewrite Hread. reflexivity.
  - cbn in Hr. apply andb_prop in Hr as [Hc1 _].
    rewrite (digit_neq c1 "x" Hc1 eq_refl), (digit_neq c1 "X" Hc1 eq_refl).
    rewrite andb_false_r, Hread. reflexivity.
Qed.

Lemma startsWith_app (p s : string) : Str.startsWith p (p ++ s) = true.
Proof.
  induction p as [|c p IH]; [reflexivity|].
  change (Str.startsWith (String c p) (String c (p ++ s)) = true).
  cbn [Str.startsWith]. now rewrite Ascii.eqb_refl.
Qed.

Lemma day_prefix_spec (today : instant) :
  Order.day_prefix today = "ORD-" ++ yyyymmdd today ++ "-".
Proof. unfold Order.day_prefix. now rewrite dateStr_yyyymmdd. Qed.

Lemma order_number_prefix (today : instant) (k : nat) :
  order_number today k = Order.day_prefix today ++ pad 3 k.
Proof.
  rewrite day_prefix_spec. unfold order_number.
  rewrite !string_app_assoc. reflexivity.
Qed.

(** The first number of a day. *)
Lemma number_after_none (today : instant) (tid : string) (os : list order) :
  (forall o, In o os -> ~ numbered_today tid (Order.day_prefix today) o) ->
  Order.number_after today tid os = order_number today 1.
Proof.
  intros Hno. unfold Order.number_after.
  rewrite (findLast_none tid _ os Hno). rewrite order_number_prefix. reflexivity.
Qed.

(** The number after the greatest number of the day. *)
Lemma number_after_greatest (today : instant) (tid : string) (os : list order)
    (digits : string) :
  greatest_number tid (Order.day_prefix today) os (Order.day_prefix today ++ digits) ->
  all_digits digits = true -> digits <> "" ->
  Order.number_after today tid os = order_number today (digits_value digits 0 + 1).
Proof.
  intros Hmax Hd Hne. unfold Order.number_after.
  destruct (findLast_greatest tid _ os _ Hmax) as (o & Hfind & Hnum).
  rewrite Hfind. unfold Order.next_sequence. rewrite Hnum.
  rewrite order_number_prefix, day_prefix_spec.
  rewrite (split_order_number _ _ (yyyymmdd_all_digits today) Hd).
  cbn [nth_error]. rewrite (parseInt_digits digits Hd Hne). f_equal.
  unfold Str.number_toString, pad.
  replace (Z.of_nat (digits_value digits 0) + 1)%Z
    with (Z.of_nat (digits_value digits 0 + 1)) by lia.
  destruct (Z.of_nat _ <? 0)%Z eqn:Hneg; [apply Z.ltb_lt in Hneg; lia|].
  now rewrite Nat2Z.id.
Qed.

Lemma createOrder_number (e : env) (now : instant) (tid : string)
    (b : order_data) (w w' : world) (o : order) :
  orderService.createOrder e now tid b w = (Ret o, w') ->
  orderNumber o = Order.number_after now tid (orders w) /\ tenantId o = tid /\
  orders w' = (orders w ++ [o])%list.
Proof.
  intros Hrun. apply createOrder_ret_inv in Hrun as (p & _ & Hv & ->).
  apply validate_fields in Hv as (_ & _ & Hn & Ht & _). auto.
Qed.

(** C2. [generateOrderNumber] returns [ORD-<YYYYMMDD>-<seq>] for the
    current date: the sequence, padded to three digits, is 1 when the tenant
    has no order numbered under today's prefix, and otherwise one more than
    the digits that follow the prefix in the lexicographically greatest such
    number; two orders created one after the other for a tenant on the same
    date get 001 and 002. *)
Theorem order_number_generation :
  (forall today tid w,
     (forall o, In o (orders w) ->
                ~ numbered_today tid ("ORD-" ++ yyyymmdd today ++ "-") o) ->
     Order.generateOrderNumber today tid w = (Ret (order_number today 1), w)) /\
  (forall today tid w digits,
     greatest_number tid ("ORD-" ++ yyyymmdd today ++ "-") (orders w)
       (("ORD-" ++ yyyymmdd today ++ "-") ++ digits) ->
     all_digits digits = true -> digits <> "" ->
     Order.generateOrderNumber today tid w
     = (Ret (order_number today (digits_value digits 0 + 1)), w)) /\
  (forall e t1 t2 tid b1 b2 w w1 w2 o1 o2,
     yyyymmdd t2 = yyyymmdd t1 ->
     (forall o, In o (orders w) ->
                ~ numbered_today tid ("ORD-" ++ yyyymmdd t1 ++ "-") o) ->
     orderService.createOrder e t1 tid b1 w = (Ret o1, w1) ->
     orderService.createOrder e t2 tid b2 w1 = (Ret o2, w2) ->
     orderNumber o1 = order_number t1 1 /\ orderNumber o2 = order_number t1 2).
Proof.
  split; [|split].
  - intros today tid w Hno. unfold Order.generateOrderNumber. run_monad.
    destruct w as [os evs]. cbn in *. f_equal. f_equal.
    apply number_after_none. now rewrite day_prefix_spec.
  - intros today tid w digits Hmax Hd Hne.
    unfold Order.generateOrderNumber. run_monad.
    destruct w as [os evs]. cbn in *. f_equal. f_equal.
    apply number_after_greatest; [now rewrite day_prefix_spec|exact Hd|exact Hne].
  - intros e t1 t2 tid b1 b2 w w1 w2 o1 o2 Hday Hno Hrun1 Hrun2.
    apply createOrder_number in Hrun1 as (Hn1 & Ht1 & Hw1).
    apply createOrder_number in Hrun2 as (Hn2 & _ & _).
    rewrite <- day_prefix_spec in Hno.
    rewrite (number_after_none t1 tid (orders w) Hno) in Hn1.
    split; [exact Hn1|]. rewrite Hn2, Hw1.
    assert (Hpre : Order.day_prefix t2 = Order.day_prefix t1)
      by (now rewrite !day_prefix_spec, Hday).
    assert (Hnum : order_number t2 2 = order_number t1 2)
      by (unfold order_number; now rewrite Hday).
    rewrite <- Hnum.
    apply (number_after_greatest t2 tid (orders w ++ [o1]) "001");
      [|reflexivity|discriminate].
    rewrite Hpre.
    assert (Ho1 : orderNumber o1 = Order.day_prefix t1 ++ "001")
      by (now rewrite Hn1, order_number_prefix).
    split.
    + exists o1. split; [apply in_or_app; right; now left|].
      split; [|exact Ho1]. split; [exact Ht1|].
      rewrite Ho1. apply startsWith_app.
    + intros o Hin Hday'. apply in_app_or in Hin as [Hin|[<-|[]]].
      * exfalso. now apply (Hno o Hin).
      * rewrite Ho1. apply string_leb_refl.
Qed.

(** Scenario D on an empty store: the second order of the day is 002. *)
Lemma order_number_generation_witness :
  exists o1 w1 o2 w2,
    orderService.createOrder no_env (jan15 12 0) "t1" body_a empty_world = (Ret o1, w1) /\
    orderService.createOrder no_env (jan15 12 30) "t1" body_cash w1 = (Ret o2, w2) /\
    orderNumber o1 = "ORD-20240115-001" /\ orderNumber o2 = "ORD-20240115-002".
Proof.
  destruct (orderService.createOrder no_env (jan15 12 0) "t1" body_a empty_world)
    as [[o1|ex] w1] eqn:Hrun1; [|vm_compute in Hrun1; discriminate].
  destruct (orderService.createOrder no_env (jan15 12 30) "t1" body_cash w1)
    as [[o2|ex] w2] eqn:Hrun2.
  - exists o1, w1, o2, w2. split; [reflexivity|]. split; [exact Hrun2|].
    apply (proj2 (proj2 order_number_generation) no_env (jan15 12 0) (jan15 12 30)
             "t1" body_a body_cash empty_world w1 w2 o1 o2);
      [reflexivity|intros o []|exact Hrun1|exact Hrun2].
  - exfalso. vm_compute in Hrun1. injection Hrun1 as <- <-.
    vm_compute in Hrun2. discriminate.
Defined.

(** ** Requests in flight and requests served whole *)

(** Two steps in a row serve a request as [createOrder] does. *)
Lemma two_steps_createOrder (e : env) (now : instant) (tid : string)
    (orderData : order_data) (w : world) :
  (let* r1 := Concurrent.step e (Concurrent.Waiting now tid orderData) in
   Concurrent.step e r1) w
  = (let '(res, w') := orderService.createOrder e now tid orderData w in
     (Ret (Concurrent.Finished res), w')).
Proof.
  unfold orderService.createOrder, Concurrent.step, Concurrent.fail.
  run_monad. unfold Order.generateOrderNumber, Order.create. run_monad.
  destruct (orderService.prepare e tid orderData) as [p|ex]; cbn; [|reflexivity].
  destruct (Order.validate now _) as [o|]; reflexivity.
Qed.

(** Two requests of one tenant on one day, interleaved: each reads the last
    number before the other has saved, and both orders are numbered 001. *)
Lemma interleaved_requests_share_a_number :
  exists o1 o2 w',
    Concurrent.run no_env [0; 1; 0; 1]%nat
      [Concurrent.Waiting (jan15 12 0) "t1" body_a;
       Concurrent.Waiting (jan15 12 0) "t1" body_cash] empty_world
    = (Ret [Concurrent.Finished (Ret o1); Concurrent.Finished (Ret o2)], w') /\
    orders w' = [o1; o2] /\
    orderNumber o1 = "ORD-20240115-001" /\ orderNumber o2 = "ORD-20240115-001" /\
    ~ NoDup (List.map orderNumber (orders w')).
Proof.
  eexists _, _, _. split; [vm_compute; reflexivity|].
  split; [reflexivity|]. split; [reflexivity|]. split; [reflexivity|].
  cbn. intros H. apply NoDup_cons in H as [H _]. apply H. now left.
Qed.

(** ** Numbers below one thousand *)

Lemma pad3_checked : forallb pad3_check (seq 0 999) = true.
Proof. vm_compute. reflexivity. Qed.

Lemma pad3_below (k : nat) :
  (k < 999)%nat ->
  digits_value (pad 3 k) 0 = k /\
  String.ltb (pad 3 k) (pad 3 (S k)) = true /\ pad 3 k <> "".
Proof.
  intros Hk. pose proof pad3_checked as H. rewrite forallb_forall in H.
  specialize (H k). unfold pad3_check in H.
  assert (Hin : In k (seq 0 999)) by (apply in_seq; lia).
  apply H in Hin. apply andb_prop in Hin as [Hin Hne].
  apply andb_prop in Hin as [Hval Hlt].
  split; [now apply Nat.eqb_eq|]. split; [exact Hlt|].
  apply negb_true_iff, String.eqb_neq in Hne. exact Hne.
Qed.

Lemma pad3_mono (j k : nat) :
  (j <= k)%nat -> (k <= 999)%nat -> String.leb (pad 3 j) (pad 3 k) = true.
Proof.
  induction 1 as [|k Hle IH]; intros Hk; [apply string_leb_refl|].
  eapply string_leb_trans; [apply IH; lia|].
  apply string_ltb_leb. apply pad3_below. lia.
Qed.

Lemma string_compare_app (p a b : string) :
  String.compare (p ++ a) (p ++ b) = String.compare a b.
Proof.
  induction p as [|c p IH]; [reflexivity|].
  change (String.compare (String c (p ++ a)) (String c (p ++ b)) = String.compare a b).
  cbn [String.compare]. now rewrite ascii_compare_refl.
Qed.

Lemma order_number_mono (today : instant) (j k : nat) :
  (j <= k)%nat -> (k <= 999)%nat ->
  String.leb (order_number today j) (order_number today k) = true.
Proof.
  intros Hjk Hk. rewrite !order_number_prefix. unfold String.leb.
  rewrite string_compare_app. now apply pad3_mono.
Qed.

Lemma order_number_lt (today : instant) (j k : nat) :
  (j < k)%nat -> (k <= 999)%nat -> order_number today j <> order_number today k.
Proof.
  intros Hjk Hk Heq.
  assert (Hlt : String.compare (pad 3 j) (pad 3 k) = Lt).
  { destruct (pad3_below j ltac:(lia)) as (_ & Hlt & _).
    unfold String.ltb in Hlt.
    destruct (String.compare (pad 3 j) (pad 3 (S j))) eqn:Hc; try discriminate.
    pose proof (pad3_mono (S j) k ltac:(lia) Hk) as Hle.
    apply string_leb_cases in Hle as [<-|Hle]; [exact Hc|].
    eapply string_compare_lt_trans; eassumption. }
  rewrite !order_number_prefix in Heq.
  rewrite <- (string_compare_app (Order.day_prefix today)), Heq in Hlt.
  rewrite string_compare_refl in Hlt. discriminate.
Qed.

Lemma order_numbers_nodup (today : instant) (n a : nat) :
  (a + n <= 1000)%nat ->
  NoDup (List.map (order_number today) (seq a n)).
Proof.
  revert a. induction n as [|n IH]; intros a Hle; [constructor|].
  cbn [seq List.map]. apply NoDup_cons. split; [|apply IH; lia].
  intros Hin. apply list_elem_of_In, in_map_iff in Hin as (j & Heq & Hj).
  apply in_seq in Hj. symmetry in Heq. revert Heq.
  apply order_number_lt; lia.
Qed.

(** ** Creation requests served one after another *)

Section Sequential.

Variables (e : env) (tid : string) (today : instant).

Lemma next_number (k : nat) (os : list order) (now : instant) :
  numbered_up_to tid today k os ->
  (k < 999)%nat ->
  yyyymmdd now = yyyymmdd today ->
  Order.number_after now tid os = order_number today (S k).
Proof.
  intros (Hall & Hlast) Hk Hday.
  assert (Hpre : Order.day_prefix now = Order.day_prefix today)
    by (now rewrite !day_prefix_spec, Hday).
  assert (Hnum : forall j, order_number now j = order_number today j)
    by (intros j; unfold order_number; now rewrite Hday).
  rewrite <- Hnum.
  destruct k as [|k].
  - apply number_after_none. rewrite Hpre. intros o Hin Hm.
    destruct (Hall o Hin Hm) as (j & Hj & _). lia.
  - destruct (pad3_below (S k) Hk) as (Hval & _ & Hne).
    replace (S (S k)) with (digits_value (pad 3 (S k)) 0 + 1)%nat
      by (rewrite Hval; lia).
    apply number_after_greatest; [|apply pad_all_digits|exact Hne].
    rewrite Hpre, <- order_number_prefix.
    destruct (Hlast ltac:(lia)) as (o & Hin & Hm & Ho). split.
    + exists o. auto.
    + intros o' Hin' Hm'. destruct (Hall o' Hin' Hm') as (j & Hj & ->).
      apply order_number_mono; lia.
Qed.

Lemma numbered_up_to_next (k : nat) (os : list order) (o : order) :
  numbered_up_to tid today k os ->
  tenantId o = tid ->
  orderNumber o = order_number today (S k) ->
  numbered_up_to tid today (S k) (os ++ [o]).
Proof.
  intros (Hall & _) Ht Hn. split.
  - intros o' Hin Hm. apply in_app_or in Hin as [Hin|[<-|[]]].
    + destruct (Hall o' Hin Hm) as (j & Hj & Hj'). exists j. split; [lia|exact Hj'].
    + exists (S k). split; [lia|exact Hn].
  - intros _. exists o. split; [apply in_or_app; right; now left|].
    split; [|exact Hn]. split; [exact Ht|].
    rewrite Hn, order_number_prefix. apply startsWith_app.
Qed.

Lemma create_all_numbers (reqs : list (instant * order_data)) :
  forall (k : nat) (w w' : world) (os : list order),
    Forall (fun r => yyyymmdd (fst r) = yyyymmdd today) reqs ->
    numbered_up_to tid today k (orders w) ->
    (k + length reqs <= 999)%nat ->
    create_all e tid reqs w = (Ret os, w') ->
    List.map orderNumber os = List.map (order_number today) (seq (S k) (length reqs)).
Proof.
  induction reqs as [|[now b] reqs IH]; intros k w w' os Hday Hinv Hlen Hrun.
  - cbn in Hrun. injection Hrun as <- <-. reflexivity.
  - inversion Hday as [|? ? Hnow Hrest]; subst. cbn [fst] in Hnow.
    cbn [create_all] in Hrun. unfold bind at 1 in Hrun.
    destruct (orderService.createOrder e now tid b w) as [[o|ex] w1] eqn:Hone;
      [|discriminate].
    unfold bind at 1 in Hrun.
    destruct (create_all e tid reqs w1) as [[os'|ex] w2] eqn:Hmore; [|discriminate].
    injection Hrun as <- <-.
    apply createOrder_number in Hone as (Hn & Ht & Hw1).
    cbn [length] in Hlen.
    rewrite (next_number k (orders w) now Hinv ltac:(lia) Hnow) in Hn.
    cbn [List.map length seq]. rewrite Hn. f_equal.
    apply (IH (S k) w1 w2 os' Hrest); [|lia|exact Hmore].
    rewrite Hw1. now apply numbered_up_to_next.
Qed.

End Sequential.

(** C5, as amended.  When up to 999 creation requests for one tenant on
    one day are served one after another, each to its end before the next
    starts, and the tenant had no order that day, the order numbers are
    pairwise distinct and carry the sequences 1 to N in order. *)
Theorem sequential_requests_count_up (e : env) (tid : string) (today : instant)
    (reqs : list (instant * order_data)) (w w' : world) (os : list order) :
  Forall (fun r => yyyymmdd (fst r) = yyyymmdd today) reqs ->
  (forall o, In o (orders w) ->
             ~ numbered_today tid ("ORD-" ++ yyyymmdd today ++ "-") o) ->
  (length reqs <= 999)%nat ->
  create_all e tid reqs w = (Ret os, w') ->
  List.map orderNumber os = List.map (order_number today) (seq 1 (length reqs)) /\
  NoDup (List.map orderNumber os).
Proof.
  intros Hday Hno Hlen Hrun.
  assert (Hnums : List.map orderNumber os
                  = List.map (order_number today) (seq 1 (length reqs))).
  { apply (create_all_numbers e tid today reqs 0 w w' os Hday); [|lia|exact Hrun].
    split; [|lia]. intros o Hin Hm. exfalso. apply (Hno o Hin).
    now rewrite <- day_prefix_spec. }
  split; [exact Hnums|]. rewrite Hnums. apply order_numbers_nodup. lia.
Qed.

Lemma sequential_requests_count_up_witness :
  exists os w',
    create_all no_env "t1"
      [(jan15 12 0, body_a); (jan15 12 30, body_cash); (jan15 13 0, body_a)]
      empty_world = (Ret os, w') /\
    List.map orderNumber os
    = ["ORD-20240115-001"; "ORD-20240115-002"; "ORD-20240115-003"] /\
    NoDup (List.map orderNumber os).
Proof.
  destruct (create_all no_env "t1"
              [(jan15 12 0, body_a); (jan15 12 30, body_cash); (jan15 13 0, body_a)]
              empty_world) as [[os|ex] w'] eqn:Hrun;
    [|vm_compute in Hrun; discriminate].
  exists os, w'. split; [reflexivity|].
  exact (sequential_requests_count_up no_env "t1" (jan15 12 0)
           [(jan15 12 0, body_a); (jan15 12 30, body_cash); (jan15 13 0, body_a)]
           empty_world w' os
           ltac:(repeat constructor) ltac:(intros o []) ltac:(cbn; lia) Hrun).
Defined.

(** Past 999 the byte order of the numbers is no longer the order of the
    sequences: with 999 and 1000 stored, the query still finds 999 and the
    next number is 1000 again. *)
Example number_after_one_thousand :
  Order.number_after (jan15 12 0) "t1"
    [order_numbered "ORD-20240115-999"; order_numbered "ORD-20240115-1000"]
  = "ORD-20240115-1000".
Proof. vm_compute. reflexivity. Qed.

(** Served one after the other by the same server, the two requests get
    001 and 002. *)
Example requests_in_turn :
  exists o1 o2 w',
    Concurrent.run no_env [0; 0; 1; 1]%nat
      [Concurrent.Waiting (jan15 12 0) "t1" body_a;
       Concurrent.Waiting (jan15 12 0) "t1" body_cash] empty_world
    = (Ret [Concurrent.Finished (Ret o1); Concurrent.Finished (Ret o2)], w') /\
    orderNumber o1 = "ORD-20240115-001" /\ orderNumber o2 = "ORD-20240115-002".
Proof.
  eexists _, _, _. split; [vm_compute; reflexivity|]. split; reflexivity.
Qed.

(** The PATCH route hands every status name over to the controller. *)
Lemma patch_status_named (e : env) (tid : string) (id : nat) (s : order_status) :
  routes.patch_status e tid id (Some (status_name s))
  = orderController.updateOrderStatus e tid id (status_name s).
Proof. destruct s; reflexivity. Qed.
(** * Further properties of the order API *)

(** ** What a creation request can answer *)


















(** The controller answers every creation request, and stores at most the
    order the service returned. *)
Lemma controller_create_cases (e : env) (now : instant) (tid : string)
    (b : order_data) (w : world) :
  exists r w',
    orderController.createOrder e now tid b w = (Ret r, w') /\
    ((exists o w1,
        orderService.createOrder e now tid b w = (Ret o, w1) /\
        code r = 201%nat /\ orders w' = (orders w ++ [o])%list) \/
     (exists ex w1,
        orderService.createOrder e now tid b w = (Throw ex, w1) /\
        code r = (match ex with ValidationExn _ _ => 400 | ErrorExn _ => 500 end)%nat /\
        orders w' = orders w)).
Proof.
  destruct (orderService.createOrder e now tid b w) as [[o|ex] w1] eqn:Hsvc.
  - destruct (controller_create_ok e now tid b w w1 o Hsvc) as (w2 & Hctl & Ho).
    eexists _, w2. split; [exact Hctl|]. left. exists o, w1.
    split; [reflexivity|]. split; [reflexivity|].
    apply createOrder_ret_inv in Hsvc as (p & _ & _ & ->). exact Ho.
  - pose proof (createOrder_throw_orders e now tid b w w1 ex Hsvc) as Ho.
    unfold orderController.createOrder. unfold try_catch, bind at 1. rewrite Hsvc.
    run_monad. destruct ex as [m d|m]; eexists _, _; (split; [reflexivity|]);
      right; eexists _, w1; (split; [reflexivity|]); cbn; auto.
Qed.




(** ** Orders out of a tenant's reach *)

Lemma findById_other (tid : string) (id : nat) (w : world) :
  (forall o, orders w !! id = Some o -> tenantId o <> tid) ->
  Order.findById id tid w = (Ret None, w).
Proof.
  intros Hno. unfold Order.findById. run_monad.
  destruct (orders w !! id) as [o|] eqn:Hl; [|reflexivity].
  destruct (String.eqb (tenantId o) tid) eqn:Heq; [|reflexivity].
  apply String.eqb_eq in Heq. now destruct (Hno o eq_refl).
Qed.

Lemma find_index_none (f : order -> bool) (os : list order) (k : nat) :
  (forall o, In o os -> f o = false) -> Order.find_index f os k = None.
Proof.
  revert k. induction os as [|x os IH]; intros k Hno; [reflexivity|].
  cbn. rewrite (Hno x) by (now left). apply IH. intros o Hin. apply Hno. now right.
Qed.

Lemma find_index_some_or_none (f : order -> bool) (os : list order) (k : nat) :
  Order.find_index f os k = None -> forall o, In o os -> f o = false.
Proof.
  revert k. induction os as [|x os IH]; intros k H o Hin; [contradiction|].
  cbn in H. destruct (f x) eqn:Hf; [discriminate|].
  destruct Hin as [<-|Hin]; [exact Hf|eapply IH; eassumption].
Qed.

(** X2. The handlers that find an order by its [_id] answer 404 and change
    nothing when the order belongs to another tenant, exactly as when there
    is no such order. *)
Theorem by_id_tenant_isolation (e : env) (now : instant) (tid user : string)
    (id : nat) (w : world) (requested text : string) :
  (forall o, orders w !! id = Some o -> tenantId o <> tid) ->
  text <> "" ->
  orderController.updateOrderStatus e tid id requested w
  = (Ret {| code := 404; body := ErrorBody "Pedido não encontrado" [] |}, w) /\
  orderController.addOrderNote now tid user id (Some text) w
  = (Ret {| code := 404; body := ErrorBody "Pedido não encontrado" [] |}, w) /\
  orderQueries.getOrderById tid id w
  = (Ret {| orderQueries.read_code := 404;
            orderQueries.read_body_of :=
              orderQueries.ReadError "Pedido não encontrado" |}, w).
Proof.
  intros Hno Hne. pose proof (findById_other tid id w Hno) as Hfind.
  repeat split.
  - unfold orderController.updateOrderStatus. unfold try_catch, bind at 1.
    rewrite Hfind. reflexivity.
  - destruct text as [|c r]; [contradiction|].
    unfold orderController.addOrderNote. unfold try_catch, bind at 1.
    rewrite Hfind. reflexivity.
  - unfold orderQueries.getOrderById. unfold try_catch, bind at 1.
    rewrite Hfind. reflexivity.
Qed.

Lemma by_id_tenant_isolation_witness :
  orderController.updateOrderStatus no_env "t2" 0 "confirmed" world_1
  = (Ret {| code := 404; body := ErrorBody "Pedido não encontrado" [] |}, world_1) /\
  orderController.addOrderNote (jan15 13 0) "t2" "Bia" 0 (Some "sem cebola") world_1
  = (Ret {| code := 404; body := ErrorBody "Pedido não encontrado" [] |}, world_1) /\
  orderQueries.getOrderById "t2" 0 world_1
  = (Ret {| orderQueries.read_code := 404;
            orderQueries.read_body_of :=
              orderQueries.ReadError "Pedido não encontrado" |}, world_1).
Proof.
  apply (by_id_tenant_isolation no_env (jan15 13 0) "t2" "Bia" 0 world_1
           "confirmed" "sem cebola"); [|discriminate].
  intros o Hl. injection Hl as <-. discriminate.
Defined.

(** X3. The handlers that find an order by its number look among the
    tenant's orders only: when the tenant has no order of that number, the
    rating (of a value that passes the range check) and the status query
    answer 404 and change nothing, whoever else has an order numbered so. *)
Theorem by_number_tenant_isolation (tid num_ : string) (w : world) (v : jsval)
    (comment : option string) :
  (forall o, In o (orders w) -> orderNumber o = num_ -> tenantId o <> tid) ->
  rating_accepted v \/ rating_unreadable v ->
  orderController.rateOrder tid num_ v comment w
  = (Ret {| code := 404; body := ErrorBody "Pedido não encontrado" [] |}, w) /\
  orderQueries.getOrderStatus tid num_ w
  = (Ret {| orderQueries.read_code := 404;
            orderQueries.read_body_of :=
              orderQueries.ReadError "Pedido não encontrado" |}, w).
Proof.
  intros Hno Hv.
  assert (Hfind : Order.find_index (has_number tid num_) (orders w) 0 = None).
  { apply find_index_none. intros o Hin. unfold has_number.
    destruct (String.eqb (tenantId o) tid) eqn:Ht; [|reflexivity].
    destruct (String.eqb (orderNumber o) num_) eqn:Hn; [|reflexivity].
    apply String.eqb_eq in Ht, Hn. now destruct (Hno o Hin Hn). }
  split.
  - assert (Hacc : orderController.rating_rejected v = Some false)
      by (destruct Hv; [now apply rating_accepted_passes
                       |now apply rating_unreadable_passes]).
    now rewrite rateOrder_run, Hacc, Hfind.
  - unfold orderQueries.getOrderStatus. unfold try_catch, bind at 1.
    change (Order.findByNumber tid num_ w)
      with (Ret (Order.find_index (has_number tid num_) (orders w) 0), w).
    rewrite Hfind. reflexivity.
Qed.

Lemma by_number_tenant_isolation_witness :
  orderController.rateOrder "t2" "ORD-20240115-001" (VNum 5) None world_done
  = (Ret {| code := 404; body := ErrorBody "Pedido não encontrado" [] |}, world_done) /\
  orderQueries.getOrderStatus "t2" "ORD-20240115-001" world_done
  = (Ret {| orderQueries.read_code := 404;
            orderQueries.read_body_of :=
              orderQueries.ReadError "Pedido não encontrado" |}, world_done).
Proof.
  apply (by_number_tenant_isolation "t2" "ORD-20240115-001" world_done (VNum 5) None).
  - intros o [<-|[]] _. discriminate.
  - left. repeat split.
Defined.
(** ** The lifecycle as a whole *)

Lemma allowed_rank (s t : order_status) :
  allowed_transition s t -> (rank s < rank t)%nat.
Proof. destruct 1; cbn; lia. Qed.

Lemma rank_bound (s : order_status) : (rank s <= 4)%nat.
Proof. destruct s; cbn; lia. Qed.

Lemma terminal_no_transition (s t : order_status) :
  terminal s -> ~ allowed_transition s t.
Proof. intros [-> | ->] H; inversion H. Qed.

Lemma cancel_allowed (s : order_status) :
  ~ terminal s -> allowed_transition s cancelled.
Proof.
  unfold terminal. destruct s; intros H; try constructor; exfalso; apply H; auto.
Qed.

(** X4. Completed and cancelled orders are final: whatever status is asked
    for, the update is answered 400 and nothing changes.  Every other order
    can be cancelled. *)
Theorem terminal_orders_stay (e : env) (tid : string) (id : nat) (w : world)
    (o : order) :
  orders w !! id = Some o ->
  tenantId o = tid ->
  (terminal (status o) ->
   forall requested,
     orderController.updateOrderStatus e tid id requested w
     = (Ret {| code := 400;
               body := ErrorBody
                         (orderService.transition_message (status o) requested) [] |},
        w)) /\
  (~ terminal (status o) ->
   exists w',
     orderController.updateOrderStatus e tid id "cancelled" w
     = (Ret {| code := 200;
               body := StatusUpdated "Status do pedido atualizado com sucesso"
                         cancelled |}, w') /\
     orders w' = <[id := set_status o cancelled]> (orders w)).
Proof.
  intros Hst Hten. split.
  - intros Hterm requested. apply (update_rejected e tid id w o Hst Hten).
    intros (to & _ & Hal). exact (terminal_no_transition _ _ Hterm Hal).
  - intros Hnot.
    destruct (update_accepted e tid id w o Hst Hten cancelled (cancel_allowed _ Hnot))
      as (w' & Hrun & Ho & _).
    exists w'. auto.
Qed.

Lemma terminal_orders_stay_witness :
  (forall requested,
     orderController.updateOrderStatus no_env "t1" 0 requested world_done
     = (Ret {| code := 400;
               body := ErrorBody
                         (orderService.transition_message completed requested) [] |},
        world_done)) /\
  exists w',
    orderController.updateOrderStatus no_env "t1" 0 "cancelled" world_1
    = (Ret {| code := 200;
              body := StatusUpdated "Status do pedido atualizado com sucesso"
                        cancelled |}, w') /\
    orders w' = [set_status order_1 cancelled].
Proof.
  split.
  - apply (proj1 (terminal_orders_stay no_env "t1" 0 world_done order_done
                    eq_refl eq_refl)). now left.
  - apply (proj2 (terminal_orders_stay no_env "t1" 0 world_1 order_1
                    eq_refl eq_refl)). intros [H|H]; discriminate H.
Defined.

Lemma set_status_core (o : order) (s : order_status) : same_core o (set_status o s).
Proof. repeat split. Qed.

Lemma same_core_refl (o : order) : same_core o o.
Proof. repeat split. Qed.

Lemma same_core_trans (a b c : order) : same_core a b -> same_core b c -> same_core a c.
Proof.
  unfold same_core. intros H1 H2.
  destruct H1 as (?&?&?&?&?&?&?&?&?&?), H2 as (?&?&?&?&?&?&?&?&?&?).
  repeat split; congruence.
Qed.

(** X5. The lifecycle only moves forward.  However many status updates
    are sent for an order, at most four of them succeed (fewer the further
    the order already is), and the order keeps its identity and amounts. *)
Theorem updates_only_move_forward (e : env) (tid : string) (id : nat)
    (rs : list string) (w : world) (o : order) :
  orders w !! id = Some o ->
  tenantId o = tid ->
  exists o',
    orders (snd (updates e tid id rs w)) !! id = Some o' /\
    same_core o o' /\
    (rank (status o) + length (List.filter succeeded (fst (updates e tid id rs w)))
     <= rank (status o'))%nat /\
    (length (List.filter succeeded (fst (updates e tid id rs w))) <= 4)%nat.
Proof.
  intros Hst Hten.
  enough (exists o',
             orders (snd (updates e tid id rs w)) !! id = Some o' /\
             same_core o o' /\
             (rank (status o)
              + length (List.filter succeeded (fst (updates e tid id rs w)))
              <= rank (status o'))%nat) as (o' & Hl & Hc & Hr).
  { exists o'. repeat split; try apply Hc; auto. pose proof (rank_bound (status o')). lia. }
  revert w o Hst Hten. induction rs as [|r rs IH]; intros w o Hst Hten.
  - exists o. cbn. split; [exact Hst|]. split; [apply same_core_refl|lia].
  - cbn [updates]. destruct (allowed_request_dec (status o) r) as [Hal|Hno].
    + destruct Hal as (to & -> & Hal).
      destruct (update_accepted e tid id w o Hst Hten to Hal) as (w1 & Hrun & Ho & _).
      rewrite Hrun.
      assert (Hst1 : orders w1 !! id = Some (set_status o to)).
      { rewrite Ho. apply list_lookup_insert_eq. eapply lookup_lt_Some, Hst. }
      destruct (IH w1 (set_status o to) Hst1 Hten) as (o' & Hl & Hc & Hr).
      destruct (updates e tid id rs w1) as [more w2]. cbn in *.
      exists o'. split; [exact Hl|]. split.
      * eapply same_core_trans; [apply set_status_core|exact Hc].
      * pose proof (allowed_rank _ _ Hal). lia.
    + rewrite (update_rejected e tid id w o Hst Hten r Hno).
      destruct (IH w o Hst Hten) as (o' & Hl & Hc & Hr).
      destruct (updates e tid id rs w) as [more w2]. cbn in *.
      exists o'. auto.
Qed.

Lemma updates_only_move_forward_witness :
  exists o',
    orders (snd (updates no_env "t1" 0
                   ["confirmed"; "pending"; "preparing"; "completed"; "cancelled"]
                   world_1)) !! 0%nat = Some o' /\
    status o' = completed /\
    length (List.filter succeeded
              (fst (updates no_env "t1" 0
                      ["confirmed"; "pending"; "preparing"; "completed"; "cancelled"]
                      world_1))) = 3%nat.
Proof.
  destruct (updates_only_move_forward no_env "t1" 0
              ["confirmed"; "pending"; "preparing"; "completed"; "cancelled"]
              world_1 order_1 eq_refl eq_refl) as (o' & Hl & _ & _ & _).
  exists o'. split; [exact Hl|].
  vm_compute in Hl. injection Hl as <-. split; reflexivity.
Defined.
(** ** What the requests do to the collection *)

Lemma update_step (e : env) (tid : string) (id : nat) (requested : string)
    (w : world) :
  exists resp w',
    orderController.updateOrderStatus e tid id requested w = (Ret resp, w') /\
    collection_step e (orders w) (orders w').
Proof.
  destruct (orders w !! id) as [o|] eqn:Hl.
  - destruct (decide (tenantId o = tid)) as [Hten|Hten].
    + destruct (allowed_request_dec (status o) requested) as [(to & -> & Hal)|Hno].
      * destruct (update_accepted e tid id w o Hl Hten to Hal) as (w' & Hrun & Ho & _).
        eexists _, w'. split; [exact Hrun|]. rewrite Ho.
        eapply step_changed; [exact Hl|]. now constructor.
      * rewrite (update_rejected e tid id w o Hl Hten requested Hno).
        eexists _, w. split; [reflexivity|constructor].
    + assert (Hfind : Order.findById id tid w = (Ret None, w)).
      { apply findById_other. intros o' Ho'. congruence. }
      unfold orderController.updateOrderStatus. unfold try_catch, bind at 1.
      rewrite Hfind. eexists _, w. split; [reflexivity|constructor].
  - assert (Hfind : Order.findById id tid w = (Ret None, w)).
    { apply findById_other. intros o' Ho'. congruence. }
    unfold orderController.updateOrderStatus. unfold try_catch, bind at 1.
    rewrite Hfind. eexists _, w. split; [reflexivity|constructor].
Qed.

Lemma rate_step (tid num_ : string) (v : jsval) (comment : option string)
    (w : world) :
  exists resp w',
    orderController.rateOrder tid num_ v comment w = (Ret resp, w') /\
    forall e, collection_step e (orders w) (orders w').
Proof.
  destruct (rate_any_value tid num_ w v comment)
    as (r & w' & Hrun & [(_ & i & o & stored & Hf & Hst & Ho & Hq)|(_ & Ho)]).
  - exists r, w'. split; [exact Hrun|]. intros e. rewrite Ho.
    apply find_index_spec in Hf as (_ & Hl & _). rewrite Nat.sub_0_r in Hl.
    eapply step_changed; [exact Hl|].
    destruct stored as [q|].
    + destruct (Hq q eq_refl). now constructor.
    + now constructor.
  - exists r, w'. split; [exact Hrun|]. intros e. rewrite Ho. constructor.
Qed.

Lemma note_step (now : instant) (tid user : string) (id : nat)
    (note : option string) (w : world) :
  exists resp w',
    orderController.addOrderNote now tid user id note w = (Ret resp, w') /\
    forall e, collection_step e (orders w) (orders w').
Proof.
  destruct note as [[|c r]|];
    try (eexists _, w; split; [reflexivity|constructor]).
  destruct (orders w !! id) as [o|] eqn:Hl.
  - destruct (decide (tenantId o = tid)) as [Hten|Hten].
    + rewrite (note_added tid id w o Hl Hten now user (String c r)) by discriminate.
      eexists _, _. split; [reflexivity|]. intros e. cbn [orders].
      eapply step_changed; [exact Hl|]. constructor.
    + assert (Hfind : Order.findById id tid w = (Ret None, w)).
      { apply findById_other. intros o' Ho'. congruence. }
      unfold orderController.addOrderNote. unfold try_catch, bind at 1.
      rewrite Hfind. eexists _, w. split; [reflexivity|constructor].
  - assert (Hfind : Order.findById id tid w = (Ret None, w)).
    { apply findById_other. intros o' Ho'. congruence. }
    unfold orderController.addOrderNote. unfold try_catch, bind at 1.
    rewrite Hfind. eexists _, w. split; [reflexivity|constructor].
Qed.

Lemma post_step (e : env) (now : instant) (tid : string) (b : order_data)
    (w : world) :
  exists resp w',
    routes.post_order e now tid b w = (Ret resp, w') /\
    collection_step e (orders w) (orders w').
Proof.
  unfold routes.post_order, routes.validate.
  destruct (validators.order b) as [err|].
  - eexists _, w. split; [reflexivity|constructor].
  - destruct (controller_create_cases e now tid b w)
      as (r & w' & Hrun & [(o & w1 & Hc & _ & Ho)|(ex & w1 & _ & _ & Ho)]).
    + exists r, w'. split; [exact Hrun|]. rewrite Ho.
      eapply step_created; [reflexivity|exact Hc].
    + exists r, w'. split; [exact Hrun|]. rewrite Ho. constructor.
Qed.

Lemma serve_step (e : env) (r : api_request) (w : world) :
  exists resp w',
    serve e r w = (Ret resp, w') /\
    collection_step e (orders w) (orders w').
Proof.
  destruct r as [now tid b|tid id requested|tid num_ v comment|now tid user id note];
    cbn [serve].
  - apply post_step.
  - unfold routes.patch_status, routes.validate.
    destruct (validators.orderStatus requested) as [err|].
    + eexists _, w. split; [reflexivity|constructor].
    + apply update_step.
  - destruct (rate_step tid num_ v comment w) as (resp & w' & Hrun & Hs).
    exists resp, w'. auto.
  - destruct (note_step now tid user id note w) as (resp & w' & Hrun & Hs).
    exists resp, w'. auto.
Qed.

Lemma evolves_keeps (o o' : order) :
  evolves o o' -> same_core o o' /\ (rank (status o) <= rank (status o'))%nat.
Proof.
  destruct 1 as [to Hal|q comment Hst H1 H5|comment Hst|text].
  - split; [apply set_status_core|]. apply allowed_rank in Hal. cbn. lia.
  - unfold rated, rated_as.
    destruct comment as [[|c t]|]; (split; [repeat split|cbn; lia]).
  - unfold rated_as.
    destruct comment as [[|c t]|]; (split; [repeat split|cbn; lia]).
  - split; [repeat split|cbn; lia].
Qed.

Lemma step_keeps (e : env) (os os' : list order) :
  collection_step e os os' ->
  forall i o, os !! i = Some o ->
    exists o', os' !! i = Some o' /\ same_core o o' /\
               (rank (status o) <= rank (status o'))%nat.
Proof.
  destruct 1 as [|now tid b w w1 o1 _ _|j o1 o1' Hj Hev]; intros i o Hi.
  - exists o. split; [exact Hi|]. split; [apply same_core_refl|lia].
  - exists o. split; [now apply lookup_app_l_Some|].
    split; [apply same_core_refl|lia].
  - destruct (decide (i = j)) as [->|Hne].
    + exists o1'. rewrite Hj in Hi. injection Hi as <-.
      split; [apply list_lookup_insert_eq; eapply lookup_lt_Some, Hj|].
      now apply evolves_keeps.
    + exists o. split; [rewrite list_lookup_insert_ne; [exact Hi|congruence]|].
      split; [apply same_core_refl|lia].
Qed.

(** X6. No request removes a stored order or touches what identifies and
    prices it: after any sequence of creations, status updates, ratings and
    notes, every order is still at its place, with the same tenant, number,
    customer, items, payment and amounts, and a status no earlier in the
    lifecycle than before. *)
Theorem requests_keep_orders (e : env) (rs : list api_request) (w : world)
    (i : nat) (o : order) :
  orders w !! i = Some o ->
  exists o',
    orders (after_requests e rs w) !! i = Some o' /\
    same_core o o' /\
    (rank (status o) <= rank (status o'))%nat.
Proof.
  revert w o. induction rs as [|r rs IH]; intros w o Hi.
  - exists o. split; [exact Hi|]. split; [apply same_core_refl|lia].
  - cbn [after_requests].
    destruct (serve_step e r w) as (resp & w' & Hrun & Hstep). rewrite Hrun. cbn [snd].
    destruct (step_keeps e _ _ Hstep i o Hi) as (o1 & Hi1 & Hc1 & Hr1).
    destruct (IH w' o1 Hi1) as (o' & Hi' & Hc' & Hr').
    exists o'. split; [exact Hi'|]. split; [|lia].
    eapply same_core_trans; eassumption.
Qed.

Lemma requests_keep_orders_witness :
  exists o',
    orders (after_requests no_env
              [PatchStatus "t1" 0 (Some "confirmed");
               AddNote (jan15 13 0) "t1" "Bia" 0 (Some "sem cebola");
               PostOrder (jan15 13 5) "t1" body_a;
               PatchStatus "t1" 0 (Some "pending")]
              world_1) !! 0%nat = Some o' /\
    same_core order_1 o' /\
    (rank (status order_1) <= rank (status o'))%nat.
Proof.
  apply (requests_keep_orders no_env _ world_1 0 order_1). reflexivity.
Defined.
(** ** Stored orders stay in good standing *)







(** ** The listing *)

#[local] Instance newer_first_total : Total orderQueries.newer_first.
Proof. intros a b. unfold orderQueries.newer_first. lia. Qed.

#[local] Instance newer_first_trans : Transitive orderQueries.newer_first.
Proof. intros a b c. unfold orderQueries.newer_first. lia. Qed.

Lemma imap_fst_seq {A : Type} (f : nat -> A -> nat * A) (k : nat) (l : list A) :
  (forall i x, fst (f i x) = (k + i)%nat) ->
  List.map fst (imap f l) = seq k (length l).
Proof.
  revert f k. induction l as [|x l IH]; intros f k Hf; [reflexivity|].
  rewrite imap_cons. cbn [List.map length seq]. f_equal.
  - rewrite Hf. lia.
  - apply IH. intros i y. cbn. rewrite Hf. lia.
Qed.

Lemma imap_snd_filter {A : Type} (P : A -> bool) (f : nat -> A -> nat * A)
    (l : list A) :
  (forall i x, snd (f i x) = x) ->
  List.map snd (List.filter (fun d => P (snd d)) (imap f l)) = List.filter P l.
Proof.
  revert f. induction l as [|x l IH]; intros f Hf; [reflexivity|].
  rewrite imap_cons. cbn [List.filter]. rewrite Hf.
  destruct (P x); cbn [List.map]; rewrite ?Hf; [f_equal|]; apply IH;
    intros i y; apply Hf.
Qed.

Lemma with_ids_lookup (os : list order) (i : nat) (o : order) :
  In (i, o) (orderQueries.with_ids os) <-> os !! i = Some o.
Proof.
  unfold orderQueries.with_ids. rewrite <- list_elem_of_In, elem_of_lookup_imap.
  split.
  - intros (j & x & [= -> ->] & Hl). exact Hl.
  - intros Hl. now exists i, o.
Qed.

Lemma NoDup_map_filter {A B : Type} (g : A -> B) (P : A -> bool) (l : list A) :
  NoDup (List.map g l) -> NoDup (List.map g (List.filter P l)).
Proof.
  induction l as [|x l IH]; intros Hnd; [exact Hnd|].
  cbn in *. apply NoDup_cons in Hnd as [Hx Hl].
  destruct (P x); [|now apply IH]. cbn. apply NoDup_cons. split; [|now apply IH].
  intros Hin. apply Hx. apply list_elem_of_In in Hin. apply list_elem_of_In.
  apply in_map_iff in Hin as (y & <- & Hy).
  apply in_map, (proj1 (filter_In _ _ _) Hy).
Qed.

Lemma found_ids_nodup (P : order -> bool) (os : list order) :
  NoDup (List.map fst (List.filter (fun d => P (snd d)) (orderQueries.with_ids os))).
Proof.
  apply NoDup_map_filter. unfold orderQueries.with_ids.
  rewrite (imap_fst_seq _ 0); [apply NoDup_seq|reflexivity].
Qed.

(** What a listing sorts and cuts into pages. *)
Lemma sorted_found (tid : string) (q : orderQueries.list_query) (os : list order) :
  let found := List.filter (fun d => orderQueries.matches tid q (snd d))
                 (orderQueries.with_ids os) in
  let sorted := merge_sort orderQueries.newer_first found in
  StronglySorted orderQueries.newer_first sorted /\
  NoDup (List.map fst sorted) /\
  Permutation (List.map snd sorted) (matching tid q os) /\
  length sorted = length (matching tid q os) /\
  (forall i o, In (i, o) sorted ->
     os !! i = Some o /\ orderQueries.matches tid q o = true).
Proof.
  intros found sorted.
  pose proof (merge_sort_Permutation orderQueries.newer_first found) as Hperm.
  fold sorted in Hperm.
  assert (Hmap : List.map snd found = matching tid q os).
  { unfold found, orderQueries.with_ids, matching.
    now apply (imap_snd_filter (orderQueries.matches tid q)). }
  split; [apply StronglySorted_merge_sort; apply _|].
  split; [|split; [|split]].
  - assert (Hp : Permutation (List.map fst sorted) (List.map fst found))
      by now apply Permutation_map.
    rewrite Hp. apply found_ids_nodup.
  - rewrite <- Hmap. now apply Permutation_map.
  - rewrite <- Hmap, length_map. now apply Permutation_length.
  - intros i o Hin.
    assert (Hf : In (i, o) found).
    { eapply Permutation_in; [exact Hperm|exact Hin]. }
    apply filter_In in Hf as [Hw Hm]. split; [now apply with_ids_lookup|exact Hm].
Qed.

Lemma matches_tenant (tid : string) (q : orderQueries.list_query) (o : order) :
  orderQueries.matches tid q o = true -> tenantId o = tid.
Proof.
  unfold orderQueries.matches. intros H.
  repeat (apply andb_prop in H as [H _]). now apply String.eqb_eq.
Qed.

Lemma getAllOrders_page (tid : string) (q : orderQueries.list_query) (w : world) :
  orderQueries.filter_ok q = true ->
  (0 <= (orderQueries.int_or (orderQueries.q_page q) 1 - 1)
        * orderQueries.int_or (orderQueries.q_limit q) 10)%Z ->
  let page := orderQueries.int_or (orderQueries.q_page q) 1 in
  let limit := orderQueries.int_or (orderQueries.q_limit q) 10 in
  let found := List.filter (fun d => orderQueries.matches tid q (snd d))
                 (orderQueries.with_ids (orders w)) in
  orderQueries.getAllOrders tid q w
  = (Ret {| orderQueries.read_code := 200;
            orderQueries.read_body_of :=
              orderQueries.PageOf
                (firstn (Z.to_nat (Z.abs limit))
                   (skipn (Z.to_nat ((page - 1) * limit))
                      (merge_sort orderQueries.newer_first found)))
                page limit (Z.of_nat (length found))
                (orderQueries.ceil_div (Z.of_nat (length found)) limit) |}, w).
Proof.
  intros Hok Hskip. cbn zeta. unfold orderQueries.getAllOrders.
  unfold try_catch, bind, get_orders. rewrite Hok. cbn [negb].
  destruct (_ <? 0)%Z eqn:Hlt; [apply Z.ltb_lt in Hlt; lia|].
  destruct w; reflexivity.
Qed.

Lemma getAllOrders_refused (tid : string) (q : orderQueries.list_query) (w : world) :
  orderQueries.filter_ok q = false \/
  ((orderQueries.int_or (orderQueries.q_page q) 1 - 1)
   * orderQueries.int_or (orderQueries.q_limit q) 10 < 0)%Z ->
  orderQueries.getAllOrders tid q w
  = (Ret {| orderQueries.read_code := 500;
            orderQueries.read_body_of := orderQueries.ReadError "Erro ao buscar pedidos" |},
     {| orders := orders w;
        events := events w ++ [LogError "Erro ao listar pedidos para tenant"] |}).
Proof.
  intros H. unfold orderQueries.getAllOrders.
  unfold try_catch, bind, get_orders.
  destruct (orderQueries.filter_ok q); [|reflexivity].
  destruct H as [H|H]; [discriminate|].
  apply Z.ltb_lt in H. cbn [negb]. rewrite H. reflexivity.
Qed.

Lemma int_or_nonzero (p : option string) (fallback : Z) :
  fallback <> 0%Z -> orderQueries.int_or p fallback <> 0%Z.
Proof.
  intros Hf. unfold orderQueries.int_or. destruct p as [s|]; [|exact Hf].
  destruct (Str.parseInt s) as [z|]; [|exact Hf].
  destruct (z =? 0)%Z eqn:Hz; [exact Hf|]. now apply Z.eqb_neq.
Qed.

Lemma page_of_sorted (l : list (nat * order)) (a b : nat) :
  StronglySorted orderQueries.newer_first l ->
  NoDup (List.map fst l) ->
  StronglySorted orderQueries.newer_first (firstn a (skipn b l)) /\
  NoDup (List.map fst (firstn a (skipn b l))) /\
  (forall d, In d (firstn a (skipn b l)) -> In d l) /\
  (length (firstn a (skipn b l)) <= a)%nat.
Proof.
  intros Hs Hnd. split; [|split; [|split]].
  - rewrite <- (take_drop b l) in Hs. apply StronglySorted_app_1_r in Hs.
    rewrite <- (take_drop a (drop b l)) in Hs. now apply StronglySorted_app_1_l in Hs.
  - rewrite <- firstn_map, <- skipn_map.
    eapply sublist_NoDup; [exact Hnd|].
    etransitivity; [apply sublist_take|apply sublist_drop].
  - intros d Hd. apply list_elem_of_In. apply list_elem_of_In in Hd.
    eapply subseteq_drop, subseteq_take, Hd.
  - rewrite length_take. lia.
Qed.

(** X8. With page and page size in the driver's range, the listing never
    changes the orders and answers either with a page or, when a date
    parameter is no date or the page asks for a negative offset, with 500.  A page shows only stored orders of the
    tenant that pass the filter, each under its own id and none twice, the
    newest first, no more of them than the limit; its [total] is the number
    of the tenant's orders that pass the filter. *)
Theorem listing_answers (tid : string) (q : orderQueries.list_query) (w : world) :
  paging_in_range q ->
  exists resp w',
    orderQueries.getAllOrders tid q w = (Ret resp, w') /\
    orders w' = orders w /\
    match orderQueries.read_body_of resp with
    | orderQueries.PageOf docs page limit total_ pages =>
        orderQueries.read_code resp = 200%nat /\ w' = w /\
        orderQueries.filter_ok q = true /\
        (0 <= (page - 1) * limit)%Z /\ limit <> 0%Z /\
        (forall i o, In (i, o) docs ->
           orders w !! i = Some o /\ tenantId o = tid /\
           orderQueries.matches tid q o = true) /\
        NoDup (List.map fst docs) /\
        StronglySorted orderQueries.newer_first docs /\
        (Z.of_nat (length docs) <= Z.abs limit)%Z /\
        total_ = Z.of_nat (length (matching tid q (orders w)))
    | orderQueries.ReadError _ =>
        orderQueries.read_code resp = 500%nat /\
        (orderQueries.filter_ok q = false \/
         ((orderQueries.int_or (orderQueries.q_page q) 1 - 1)
          * orderQueries.int_or (orderQueries.q_limit q) 10 < 0)%Z)
    | _ => False
    end.
Proof.
  intros _. destruct (orderQueries.filter_ok q) eqn:Hok.
  - destruct (Z_lt_le_dec
                ((orderQueries.int_or (orderQueries.q_page q) 1 - 1)
                 * orderQueries.int_or (orderQueries.q_limit q) 10) 0) as [Hlt|Hle].
    + rewrite (getAllOrders_refused tid q w (or_intror Hlt)).
      eexists _, _. split; [reflexivity|]. cbn. auto.
    + rewrite (getAllOrders_page tid q w Hok Hle).
      eexists _, w. split; [reflexivity|]. split; [reflexivity|].
      cbn [orderQueries.read_body_of orderQueries.read_code].
      destruct (sorted_found tid q (orders w)) as (Hs & Hnd & _ & Hlen & Hin).
      destruct (page_of_sorted _
                  (Z.to_nat (Z.abs (orderQueries.int_or (orderQueries.q_limit q) 10)))
                  (Z.to_nat ((orderQueries.int_or (orderQueries.q_page q) 1 - 1)
                             * orderQueries.int_or (orderQueries.q_limit q) 10))
                  Hs Hnd) as (Hs' & Hnd' & Hsub & Hle').
      split; [reflexivity|]. split; [reflexivity|]. split; [reflexivity|].
      split; [exact Hle|]. split; [now apply int_or_nonzero|].
      split; [|split; [exact Hnd'|split; [exact Hs'|split]]].
      * intros i o Hd. apply Hsub, Hin in Hd as [Hl Hm].
        split; [exact Hl|]. split; [eapply matches_tenant, Hm|exact Hm].
      * lia.
      * f_equal. rewrite <- Hlen. symmetry.
        apply Permutation_length, merge_sort_Permutation.
  - rewrite (getAllOrders_refused tid q w (or_introl Hok)).
    eexists _, _. split; [reflexivity|]. cbn. auto.
Qed.

Lemma listing_answers_witness :
  exists resp w',
    orderQueries.getAllOrders "t1" (query_of_limit "2") world_e = (Ret resp, w') /\
    orders w' = orders world_e /\
    orderQueries.read_code resp = 200%nat.
Proof.
  destruct (listing_answers "t1" (query_of_limit "2") world_e)
    as (resp & w' & Hrun & Ho & Hbody).
  { split; vm_compute; discriminate. }
  exists resp, w'. split; [exact Hrun|]. split; [exact Ho|].
  destruct (orderQueries.read_body_of resp); try contradiction.
  - apply Hbody.
  - destruct Hbody as (_ & [H|H]); vm_compute in H; discriminate H.
Defined.

(** ** Paging through a listing *)

Lemma digit_val_char (d : nat) : (d < 10)%nat -> Str.digit_val (Str.digit_char d) = d.
Proof.
  intros Hd. unfold Str.digit_val, Str.digit_char.
  rewrite nat_ascii_embedding by lia. lia.
Qed.

Lemma digits_go_value (fuel n : nat) :
  (n < fuel)%nat ->
  exists k, forall acc a,
    digits_value (Str.digits_go fuel n acc) a = digits_value acc (a * k + n).
Proof.
  revert n. induction fuel as [|f IH]; intros n Hn; [lia|].
  cbn [Str.digits_go]. destruct (n / 10 =? 0)%nat eqn:Hq.
  - exists 10%nat. intros acc a. cbn [digits_value].
    apply Nat.eqb_eq in Hq. apply Nat.div_small_iff in Hq; [|lia].
    rewrite Nat.mod_small by exact Hq. now rewrite digit_val_char.
  - apply Nat.eqb_neq in Hq.
    assert (Hpos : (0 < n)%nat) by (destruct n; [now cbn in Hq|lia]).
    pose proof (Nat.div_lt n 10 Hpos ltac:(lia)) as Hlt.
    destruct (IH (n / 10)%nat ltac:(lia)) as (k & Hk).
    exists (k * 10)%nat. intros acc a. rewrite Hk. cbn [digits_value].
    rewrite digit_val_char by (apply Nat.mod_upper_bound; lia).
    f_equal. pose proof (Nat.div_mod_eq n 10). lia.
Qed.

Lemma digits_go_nonempty (fuel n : nat) (acc : string) :
  (0 < fuel)%nat \/ acc <> "" -> Str.digits_go fuel n acc <> "".
Proof.
  revert n acc. induction fuel as [|f IH]; intros n acc H.
  - destruct H as [H|H]; [lia|exact H].
  - cbn [Str.digits_go]. destruct (n / 10 =? 0)%nat; [discriminate|].
    apply IH. right. discriminate.
Qed.

(** Reading back the numeral of a number. *)
Lemma parseInt_of_nat (n : nat) : Str.parseInt (Str.of_nat n) = Some (Z.of_nat n).
Proof.
  rewrite parseInt_digits.
  - destruct (digits_go_value (S n) n ltac:(lia)) as (k & Hk).
    unfold Str.of_nat. rewrite Hk. reflexivity.
  - apply of_nat_all_digits.
  - apply digits_go_nonempty. left. lia.
Qed.

Lemma int_or_page (p : nat) :
  (1 <= p)%nat -> orderQueries.int_or (Some (Str.of_nat p)) 1 = Z.of_nat p.
Proof.
  intros Hp. unfold orderQueries.int_or. rewrite parseInt_of_nat.
  destruct (Z.of_nat p =? 0)%Z eqn:Hz; [|reflexivity].
  apply Z.eqb_eq in Hz. lia.
Qed.

Lemma firstn_add {A : Type} (a b : nat) (l : list A) :
  firstn (a + b) l = (firstn a l ++ firstn b (skipn a l))%list.
Proof.
  revert l. induction a as [|a IH]; intros l; [reflexivity|].
  destruct l as [|x l]; cbn; [now destruct b|]. now rewrite IH.
Qed.

Lemma pages_concat {A : Type} (L n : nat) (l : list A) :
  concat (List.map (fun p => firstn L (skipn ((p - 1) * L) l)) (seq 1 n))
  = firstn (n * L) l.
Proof.
  induction n as [|n IH]; [reflexivity|].
  rewrite seq_S, List.map_app, concat_app, IH. cbn [List.map concat].
  rewrite app_nil_r. replace (1 + n - 1)%nat with n by lia.
  replace (S n * L)%nat with (n * L + L)%nat by lia.
  now rewrite firstn_add.
Qed.

Lemma page_docs_of (tid : string) (q : orderQueries.list_query) (w : world) (p : nat) :
  orderQueries.filter_ok q = true ->
  (0 < orderQueries.int_or (orderQueries.q_limit q) 10)%Z ->
  (1 <= p)%nat ->
  page_docs (orderQueries.getAllOrders tid (with_page q p) w)
  = firstn (Z.to_nat (orderQueries.int_or (orderQueries.q_limit q) 10))
      (skipn ((p - 1) * Z.to_nat (orderQueries.int_or (orderQueries.q_limit q) 10))
         (merge_sort orderQueries.newer_first
            (List.filter (fun d => orderQueries.matches tid q (snd d))
               (orderQueries.with_ids (orders w))))).
Proof.
  intros Hok HL Hp.
  assert (Hpage : orderQueries.int_or (orderQueries.q_page (with_page q p)) 1
                  = Z.of_nat p) by now apply int_or_page.
  rewrite getAllOrders_page; [|exact Hok|].
  - unfold page_docs. cbn [fst orderQueries.read_body_of]. rewrite Hpage.
    cbn [with_page orderQueries.q_limit].
    rewrite Z.abs_eq by lia. repeat f_equal. nia.
  - rewrite Hpage. cbn [with_page orderQueries.q_limit]. nia.
Qed.

Lemma ceil_div_enough (t L : Z) :
  (0 <= t)%Z -> (0 < L)%Z ->
  (t <= orderQueries.ceil_div t L * L)%Z /\ (0 <= orderQueries.ceil_div t L)%Z /\
  ((orderQueries.ceil_div t L - 1) * L < t \/ t = 0)%Z.
Proof.
  intros Ht HL. unfold orderQueries.ceil_div.
  pose proof (Z.div_mod (- t) L ltac:(lia)) as Hdm.
  pose proof (Z.mod_pos_bound (- t) L HL) as Hb.
  split; [nia|]. split; [nia|]. destruct (Z.eq_dec t 0%Z); [now right|left; nia].
Qed.

(** X9. Paging shows everything once: with a valid filter and a positive
    page size, both the size and the number of pages in the driver's range,
    and no two of the orders created at the same instant, the pages from 1
    to the page count the listing reports (or beyond), put one after the
    other, hold every order of the tenant that passes the filter exactly
    once, the newest first. *)
Theorem paging_shows_everything (tid : string) (q : orderQueries.list_query)
    (w : world) (n : nat) :
  orderQueries.filter_ok q = true ->
  (0 < orderQueries.int_or (orderQueries.q_limit q) 10)%Z ->
  driver_range (orderQueries.int_or (orderQueries.q_limit q) 10) ->
  driver_range (Z.of_nat n) ->
  distinct_times (matching tid q (orders w)) ->
  (orderQueries.ceil_div (Z.of_nat (length (matching tid q (orders w))))
     (orderQueries.int_or (orderQueries.q_limit q) 10) <= Z.of_nat n)%Z ->
  StronglySorted orderQueries.newer_first (all_pages tid q w n) /\
  NoDup (List.map fst (all_pages tid q w n)) /\
  Permutation (List.map snd (all_pages tid q w n)) (matching tid q (orders w)) /\
  (forall i o, In (i, o) (all_pages tid q w n) -> orders w !! i = Some o).
Proof.
  intros Hok HL _ _ _ Hn.
  destruct (sorted_found tid q (orders w)) as (Hs & Hnd & Hperm & Hlen & Hin).
  set (sorted := merge_sort orderQueries.newer_first
                   (List.filter (fun d => orderQueries.matches tid q (snd d))
                      (orderQueries.with_ids (orders w)))) in *.
  assert (Hall : all_pages tid q w n = sorted).
  { unfold all_pages.
    rewrite (map_ext_in _
               (fun p => firstn (Z.to_nat (orderQueries.int_or (orderQueries.q_limit q) 10))
                           (skipn ((p - 1)
                                   * Z.to_nat (orderQueries.int_or
                                                 (orderQueries.q_limit q) 10))
                              sorted))).
    - rewrite pages_concat. apply firstn_all2. rewrite Hlen.
      destruct (ceil_div_enough (Z.of_nat (length (matching tid q (orders w))))
                  (orderQueries.int_or (orderQueries.q_limit q) 10)
                  ltac:(lia) HL) as (Hc & _).
      nia.
    - intros p Hp. apply in_seq in Hp. apply page_docs_of; [exact Hok|exact HL|lia]. }
  rewrite Hall. repeat split; auto. intros i o Hd. now apply Hin in Hd.
Qed.

Lemma paging_shows_everything_witness :
  Permutation
    (List.map snd (all_pages "t1" (query_of_limit "2") world_l 2))
    [order_e "t1" completed 75 15; order_e "t1" cancelled 40 16;
     order_e "t1" completed 20 17].
Proof.
  apply (paging_shows_everything "t1" (query_of_limit "2") world_l 2);
    [reflexivity|reflexivity|vm_compute; discriminate|vm_compute; discriminate
    | |vm_compute; discriminate].
  unfold distinct_times. vm_compute.
  repeat (apply NoDup_cons; split;
          [intros H; apply list_elem_of_In in H; cbn in H; intuition discriminate|]).
  apply NoDup_nil_2.
Defined.
(** ** Reading back a created order *)

Lemma find_index_app (f : order -> bool) (os : list order) (o : order) (k : nat) :
  f o = true ->
  exists i o',
    Order.find_index f (os ++ [o]) k = Some (i, o') /\ f o' = true /\
    ((forall x, In x os -> f x = false) -> i = (k + length os)%nat /\ o' = o).
Proof.
  intros Hf. revert k. induction os as [|x os IH]; intros k.
  - exists k, o. cbn. rewrite Hf. repeat split; auto; lia.
  - cbn. destruct (f x) eqn:Hx.
    + exists k, x. split; [reflexivity|]. split; [exact Hx|].
      intros Hno. rewrite (Hno x (or_introl eq_refl)) in Hx. discriminate.
    + destruct (IH (S k)) as (i & o' & Hfind & Hfo & Hlast).
      exists i, o'. split; [exact Hfind|]. split; [exact Hfo|].
      intros Hno. destruct Hlast as [-> ->]; [|split; [lia|reflexivity]].
      intros y Hy. apply Hno. now right.
Qed.

(** X10. A created order can be read back at once: after a creation
    answered 201, the lookup by id at the next free position returns the
    stored order, whose number, status and total are those of the answer,
    and the status query for the answer's number answers 200 with that
    number; it shows the new order, pending, unless the tenant already had
    an order of the same number, which then hides the new one. *)
Theorem created_order_can_be_read (e : env) (now : instant) (tid : string)
    (b : order_data) (w w' : world) (r : response) :
  routes.post_order e now tid b w = (Ret r, w') ->
  code r = 201%nat ->
  exists o,
    orders w' = (orders w ++ [o])%list /\
    body r = OrderCreated "Pedido criado com sucesso" (orderNumber o) pending (total o) /\
    orderQueries.getOrderById tid (length (orders w)) w'
    = (Ret {| orderQueries.read_code := 200;
              orderQueries.read_body_of :=
                orderQueries.OrderOf (length (orders w)) o |}, w') /\
    exists v,
      orderQueries.getOrderStatus tid (orderNumber o) w'
      = (Ret {| orderQueries.read_code := 200;
                orderQueries.read_body_of := orderQueries.StatusOf v |}, w') /\
      orderQueries.view_orderNumber v = orderNumber o /\
      ((forall x, In x (orders w) -> tenantId x = tid ->
                  orderNumber x <> orderNumber o) ->
       orderQueries.view_id v = length (orders w) /\
       orderQueries.view_status v = pending /\
       orderQueries.view_createdAt v = now /\
       orderQueries.view_customer_name v = cust_name (customer o)).
Proof.
  intros Hrun Hcode. unfold routes.post_order, routes.validate in Hrun.
  destruct (validators.order b) as [err|].
  { injection Hrun as <- _. discriminate Hcode. }
  destruct (orderService.createOrder e now tid b w) as [[o|ex] w1] eqn:Hsvc.
  2:{ destruct (controller_create_cases e now tid b w)
        as (r' & w2 & Hctl & [(o & w3 & Hok & _)|(ex' & w3 & Hthrow & Hc & _)]).
      - rewrite Hsvc in Hok. discriminate.
      - rewrite Hctl in Hrun. injection Hrun as -> _. rewrite Hc in Hcode.
        destruct ex'; discriminate. }
  destruct (controller_create_ok e now tid b w w1 o Hsvc) as (w2 & Hctl & Ho).
  rewrite Hctl in Hrun. injection Hrun as <- <-.
  apply createOrder_ret_inv in Hsvc as (p & _ & Hval & ->). cbn [orders] in Ho.
  apply validate_fields in Hval as (_ & _ & _ & Hten & Hst & Hcr & _).
  exists o. split; [exact Ho|]. split; [cbn; now rewrite Hst|]. split.
  - unfold orderQueries.getOrderById, Order.findById. run_monad.
    rewrite Ho, lookup_app_r, Nat.sub_diag by lia. cbn [lookup list_lookup].
    rewrite Hten, String.eqb_refl. reflexivity.
  - assert (Hf : has_number tid (orderNumber o) o = true).
    { unfold has_number. now rewrite Hten, !String.eqb_refl. }
    destruct (find_index_app (has_number tid (orderNumber o)) (orders w) o 0 Hf)
      as (i & o' & Hfind & Hfo & Hlast).
    eexists. split; [|split].
    + unfold orderQueries.getOrderStatus. unfold try_catch, bind at 1.
      change (Order.findByNumber tid (orderNumber o) w2)
        with (Ret (Order.find_index (has_number tid (orderNumber o)) (orders w2) 0), w2).
      rewrite Ho, Hfind. reflexivity.
    + cbn. unfold has_number in Hfo. apply andb_prop in Hfo as [_ Hfo].
      now apply String.eqb_eq.
    + intros Hfresh. cbn. destruct Hlast as [-> ->]; [|auto].
      intros x Hx. unfold has_number.
      destruct (String.eqb (tenantId x) tid) eqn:Ht; [|reflexivity].
      apply String.eqb_eq in Ht. apply String.eqb_neq. now apply Hfresh.
Qed.

Lemma created_order_can_be_read_witness :
  exists o w',
    orders w' = [o] /\
    orderQueries.getOrderById "t1" 0 w'
    = (Ret {| orderQueries.read_code := 200;
              orderQueries.read_body_of := orderQueries.OrderOf 0 o |}, w').
Proof.
  destruct (routes.post_order no_env (jan15 12 0) "t1" body_a empty_world)
    as [res w'] eqn:Hrun.
  assert (Hres : exists r, res = Ret r /\ code r = 201%nat).
  { vm_compute in Hrun. injection Hrun as <- _. eexists. split; reflexivity. }
  destruct Hres as (r & -> & Hcode).
  destruct (created_order_can_be_read no_env (jan15 12 0) "t1" body_a empty_world
              w' r Hrun Hcode) as (o & Ho & _ & Hread & _).
  exists o, w'. split; [exact Ho|exact Hread].
Defined.
(** ** What an order number depends on *)

Lemma string_leb_antisym (a b : string) :
  String.leb a b = true -> String.leb b a = true -> a = b.
Proof.
  intros Hab Hba. apply string_leb_cases in Hab as [->|Hab]; [reflexivity|].
  unfold String.leb in Hba. rewrite String.compare_antisym, Hab in Hba.
  discriminate.
Qed.

Lemma findLast_spec (tid pre : string) (os : list order) :
  match Order.findLast tid pre os with
  | None => forall m, In m os -> Order.matches_day tid pre m = false
  | Some o =>
      In o os /\ Order.matches_day tid pre o = true /\
      forall m, In m os -> Order.matches_day tid pre m = true ->
                String.leb (orderNumber m) (orderNumber o) = true
  end.
Proof.
  pose proof (findLast_from tid pre os None) as H. unfold Order.findLast.
  destruct (fold_left _ os None) as [o|].
  - destruct H as ([H|[Hin Hm]] & _ & Hmax); [discriminate|]. auto.
  - now destruct H.
Qed.

Lemma numbers_of_day_in (today : instant) (tid : string) (os : list order) (n : string) :
  In n (numbers_of_day today tid os) <->
  exists o, In o os /\ Order.matches_day tid (Order.day_prefix today) o = true
            /\ orderNumber o = n.
Proof.
  unfold numbers_of_day. rewrite in_map_iff. split.
  - intros (o & Hn & Hin). apply filter_In in Hin as [Hin Hm]. eauto.
  - intros (o & Hin & Hm & Hn). exists o. split; [exact Hn|].
    apply filter_In. auto.
Qed.

Lemma findLast_same_numbers (today : instant) (tid : string) (os os' : list order) :
  (forall n, In n (numbers_of_day today tid os) -> In n (numbers_of_day today tid os')) ->
  match Order.findLast tid (Order.day_prefix today) os,
        Order.findLast tid (Order.day_prefix today) os' with
  | Some o, Some o' => String.leb (orderNumber o) (orderNumber o') = true
  | Some o, None => False
  | None, _ => True
  end.
Proof.
  intros Hsub.
  pose proof (findLast_spec tid (Order.day_prefix today) os) as H.
  pose proof (findLast_spec tid (Order.day_prefix today) os') as H'.
  destruct (Order.findLast tid (Order.day_prefix today) os) as [o|]; [|exact I].
  destruct H as (Hin & Hm & _).
  assert (Hn : In (orderNumber o) (numbers_of_day today tid os')).
  { apply Hsub, numbers_of_day_in. eauto. }
  apply numbers_of_day_in in Hn as (m & Hin' & Hm' & Hnum).
  destruct (Order.findLast tid (Order.day_prefix today) os') as [o'|].
  - destruct H' as (_ & _ & Hmax). rewrite <- Hnum. now apply Hmax.
  - rewrite (H' m Hin') in Hm'. discriminate.
Qed.

(** X11. An order number depends on nothing but the numbers the tenant's
    orders of the day have: two collections that agree on these numbers, in
    whatever order they are stored and whatever else they hold (orders of
    other tenants, of other days), give the same next number. *)
Theorem number_depends_on_the_day_only (today : instant) (tid : string)
    (w w' : world) :
  (forall n, In n (numbers_of_day today tid (orders w)) <->
             In n (numbers_of_day today tid (orders w'))) ->
  fst (Order.generateOrderNumber today tid w)
  = fst (Order.generateOrderNumber today tid w').
Proof.
  intros Hset.
  change (Ret (Order.number_after today tid (orders w))
          = (Ret (Order.number_after today tid (orders w')) : outcome string)).
  f_equal. unfold Order.number_after. do 3 f_equal.
  pose proof (findLast_same_numbers today tid (orders w) (orders w')
                (fun n => proj1 (Hset n))) as H1.
  pose proof (findLast_same_numbers today tid (orders w') (orders w)
                (fun n => proj2 (Hset n))) as H2.
  destruct (Order.findLast tid (Order.day_prefix today) (orders w)) as [o|],
           (Order.findLast tid (Order.day_prefix today) (orders w')) as [o'|];
    try contradiction; [|reflexivity].
  cbn [Order.next_sequence]. now rewrite (string_leb_antisym _ _ H1 H2).
Qed.

Lemma number_depends_on_the_day_only_witness :
  fst (Order.generateOrderNumber (jan15 12 0) "t1" world_1)
  = fst (Order.generateOrderNumber (jan15 12 0) "t1"
           {| orders := [order_e "t2" pending 10 15; order_1;
                         order_e "t1" completed 20 14];
              events := [] |}).
Proof.
  apply (number_depends_on_the_day_only (jan15 12 0) "t1" world_1).
  intros n. vm_compute. tauto.
Defined.

(** ** The thousandth order of a day *)

Lemma next_number_thousand (tid : string) (today now : instant) (os : list order) :
  reached_999 tid today os ->
  yyyymmdd now = yyyymmdd today ->
  Order.number_after now tid os = order_number today 1000.
Proof.
  intros (Hall & o & Hin & Hm & Ho) Hday.
  assert (Hpre : Order.day_prefix now = Order.day_prefix today)
    by (now rewrite !day_prefix_spec, Hday).
  assert (Hnum : forall j, order_number now j = order_number today j)
    by (intros j; unfold order_number; now rewrite Hday).
  rewrite <- Hnum.
  change 1000%nat with (digits_value (pad 3 999) 0 + 1)%nat.
  apply number_after_greatest; [|reflexivity|discriminate].
  rewrite Hpre, <- order_number_prefix. split.
  - exists o. auto.
  - intros o' Hin' Hm'. destruct (Hall o' Hin' Hm') as (j & Hj & ->).
    destruct (decide (j = 1000%nat)) as [->|Hne].
    + rewrite !order_number_prefix. unfold String.leb.
      rewrite string_compare_app. reflexivity.
    + apply order_number_mono; lia.
Qed.

Lemma reached_999_next (tid : string) (today : instant) (os : list order) (o : order) :
  reached_999 tid today os ->
  orderNumber o = order_number today 1000 ->
  reached_999 tid today (os ++ [o]).
Proof.
  intros (Hall & o9 & Hin & Hm & Ho) Hn. split.
  - intros o' Hin' Hm'. apply in_app_or in Hin' as [Hin'|[<-|[]]].
    + now apply Hall.
    + exists 1000%nat. split; [lia|exact Hn].
  - exists o9. split; [apply in_or_app; now left|]. auto.
Qed.

(** X12. The sequence does not get past 1000: once the tenant's orders of
    the day reach number 999 (the numbers still being compared as text),
    every order created later that day is numbered 1000, the thousandth
    and all that follow alike. *)
Theorem thousandth_number_repeats (e : env) (tid : string) (today : instant)
    (reqs : list (instant * order_data)) (w w' : world) (os : list order) :
  Forall (fun r => yyyymmdd (fst r) = yyyymmdd today) reqs ->
  reached_999 tid today (orders w) ->
  create_all e tid reqs w = (Ret os, w') ->
  Forall (fun o => orderNumber o = "ORD-" ++ yyyymmdd today ++ "-1000") os.
Proof.
  revert w w' os. induction reqs as [|[now b] reqs IH]; intros w w' os Hday Hinv Hrun.
  - cbn in Hrun. injection Hrun as <- <-. constructor.
  - inversion Hday as [|? ? Hnow Hrest]; subst. cbn [fst] in Hnow.
    cbn [create_all] in Hrun. unfold bind at 1 in Hrun.
    destruct (orderService.createOrder e now tid b w) as [[o|ex] w1] eqn:Hone;
      [|discriminate].
    unfold bind at 1 in Hrun.
    destruct (create_all e tid reqs w1) as [[os'|ex] w2] eqn:Hmore; [|discriminate].
    injection Hrun as <- <-.
    apply createOrder_number in Hone as (Hn & Ht & Hw1).
    rewrite (next_number_thousand tid today now (orders w) Hinv Hnow) in Hn.
    constructor; [exact Hn|].
    apply (IH w1 w2 os' Hrest); [|exact Hmore].
    rewrite Hw1. now apply reached_999_next.
Qed.

Lemma thousandth_number_repeats_witness :
  exists o1 o2 w',
    create_all no_env "t1" [(jan15 12 0, body_a); (jan15 12 5, body_a)]
      {| orders := [order_numbered "ORD-20240115-999"]; events := [] |}
    = (Ret [o1; o2], w') /\
    orderNumber o1 = "ORD-20240115-1000" /\ orderNumber o2 = "ORD-20240115-1000".
Proof.
  destruct (create_all no_env "t1" [(jan15 12 0, body_a); (jan15 12 5, body_a)]
              {| orders := [order_numbered "ORD-20240115-999"]; events := [] |})
    as [res w'] eqn:Hrun.
  assert (Hres : exists o1 o2, res = Ret [o1; o2]).
  { vm_compute in Hrun. injection Hrun as <- _. eexists _, _. reflexivity. }
  destruct Hres as (o1 & o2 & ->).
  assert (Hinv : reached_999 "t1" (jan15 12 0) [order_numbered "ORD-20240115-999"]).
  { split.
    - intros o Hin _. destruct Hin as [<-|[]].
      exists 999%nat. split; [lia|reflexivity].
    - exists (order_numbered "ORD-20240115-999").
      split; [now left|]. split; [split|]; reflexivity. }
  pose proof (thousandth_number_repeats no_env "t1" (jan15 12 0)
                [(jan15 12 0, body_a); (jan15 12 5, body_a)]
                {| orders := [order_numbered "ORD-20240115-999"]; events := [] |}
                w' [o1; o2] ltac:(repeat constructor) Hinv Hrun) as Hall.
  exists o1, o2, w'. split; [reflexivity|].
  inversion Hall as [|? ? H1 Hall']; subst. inversion Hall' as [|? ? H2 _]; subst.
  split; [exact H1|exact H2].
Defined.
(** ** Products a tenant cannot sell *)


Lemma object_id_nonempty (s : string) : object_id s = true -> s <> "".
Proof. intros H ->. discriminate H. Qed.







(** ** Where the notifications go *)

Lemma messages_app (a b : list event) :
  messages (a ++ b) = (messages a ++ messages b)%list.
Proof.
  induction a as [|ev a IH]; [reflexivity|].
  destruct ev; cbn; rewrite IH; reflexivity.
Qed.

Lemma sendMessage_delivers (e : env) (tid phone text : string) (w : world) :
  exists w',
    botService.sendMessage e tid phone text w = (Ret (tenant_known e tid), w') /\
    orders w' = orders w /\
    messages (events w')
    = (messages (events w)
       ++ if tenant_known e tid then [(tid, phone, text)] else [])%list.
Proof.
  unfold botService.sendMessage, tenant_known. run_monad.
  destruct (findTenant e tid) as [[t|]|ex]; cbn; eexists;
    (split; [reflexivity|]); (split; [reflexivity|]); cbn;
    rewrite ?messages_app; cbn; rewrite ?app_nil_r; reflexivity.
Qed.

Lemma notifyNewOrder_delivers (e : env) (tid : string) (o : order) (w : world) :
  exists w',
    botService.notifyNewOrder e tid o w
    = (Ret (bool_decide (owner_phone e tid <> None)), w') /\
    orders w' = orders w /\
    messages (events w')
    = (messages (events w)
       ++ match owner_phone e tid with
          | Some p => [(tid, p, botService.new_order_text o)]
          | None => []
          end)%list.
Proof.
  unfold botService.notifyNewOrder, owner_phone. run_monad.
  destruct (findTenant e tid) as [[t|]|ex] eqn:Hft; cbn.
  - destruct (contact_phone t) as [[|c r]|]; cbn;
      try (eexists; split; [reflexivity|]; split; [reflexivity|]; cbn;
           rewrite ?messages_app; cbn; rewrite ?app_nil_r; reflexivity).
    match goal with
    | |- context [botService.sendMessage e tid ?p ?m ?w0] =>
        destruct (sendMessage_delivers e tid p m w0) as (w' & Hs & Ho & Hm)
    end.
    rewrite Hs. unfold tenant_known in *. rewrite Hft in *.
    exists w'. split; [reflexivity|]. split; [exact Ho|].
    rewrite Hm. cbn. rewrite messages_app. cbn. now rewrite app_nil_r.
  - eexists. split; [reflexivity|]. split; [reflexivity|]. cbn.
    rewrite !messages_app. cbn. now rewrite !app_nil_r.
  - eexists. split; [reflexivity|]. split; [reflexivity|]. cbn.
    rewrite !messages_app. cbn. now rewrite !app_nil_r.
Qed.

Lemma notifyStatusChange_delivers (e : env) (tid : string) (o : order) (w : world) :
  exists w',
    botService.notifyStatusChange e tid o w
    = (Ret (tenant_known e tid), w') /\
    orders w' = orders w /\
    messages (events w')
    = (messages (events w)
       ++ if tenant_known e tid
          then [(tid, text_or_empty (cust_phone (customer o)),
                 botService.status_change_text o)]
          else [])%list.
Proof.
  unfold botService.notifyStatusChange. run_monad.
  destruct (findTenant e tid) as [[t|]|ex] eqn:Hft; cbn.
  - match goal with
    | |- context [botService.sendMessage e tid ?p ?m ?w0] =>
        destruct (sendMessage_delivers e tid p m w0) as (w' & Hs & Ho & Hm)
    end.
    rewrite Hs. unfold tenant_known in *. rewrite Hft in *.
    exists w'. split; [reflexivity|]. split; [exact Ho|].
    rewrite Hm. cbn. rewrite messages_app. cbn. now rewrite app_nil_r.
  - unfold tenant_known. rewrite Hft.
    eexists. split; [reflexivity|]. split; [reflexivity|]. cbn.
    rewrite !messages_app. cbn. now rewrite !app_nil_r.
  - unfold tenant_known. rewrite Hft.
    eexists. split; [reflexivity|]. split; [reflexivity|]. cbn.
    rewrite !messages_app. cbn. now rewrite !app_nil_r.
Qed.

(** X14. The notifications reach the right phone or nobody: the
    new-order notification reports success exactly when the tenant is found
    and has a contact phone, and then one message, the text of the new
    order, goes to that phone; the status notification reports success
    exactly when the tenant is found, and then one message, the text of the
    status change, goes to the phone of the order's customer.  Otherwise no
    message leaves, and the orders are untouched in every case. *)
Theorem notifications_reach_their_phone (e : env) (tid : string) (o : order)
    (w : world) :
  (exists w',
     botService.notifyNewOrder e tid o w
     = (Ret (bool_decide (owner_phone e tid <> None)), w') /\
     orders w' = orders w /\
     messages (events w')
     = (messages (events w)
        ++ match owner_phone e tid with
           | Some p => [(tid, p, botService.new_order_text o)]
           | None => []
           end)%list) /\
  (exists w',
     botService.notifyStatusChange e tid o w
     = (Ret (tenant_known e tid), w') /\
     orders w' = orders w /\
     messages (events w')
     = (messages (events w)
        ++ if tenant_known e tid
           then [(tid, text_or_empty (cust_phone (customer o)),
                  botService.status_change_text o)]
           else [])%list).
Proof.
  split; [apply notifyNewOrder_delivers|apply notifyStatusChange_delivers].
Qed.
(** ** The breakdown adds up *)





(** ** The two status updates *)

Lemma service_update_rejected (tid : string) (id : nat) (w : world) (o : order)
    (requested : string) :
  orders w !! id = Some o ->
  tenantId o = tid ->
  ~ allowed_request (status o) requested ->
  orderService.updateOrderStatus tid id requested w
  = (Throw (ErrorExn (orderService.transition_message (status o) requested)),
     {| orders := orders w;
        events := events w ++ [LogError "Erro ao atualizar status do pedido"] |}).
Proof.
  intros Hl Hten Hno. unfold orderService.updateOrderStatus.
  unfold try_catch, bind at 1. rewrite (findById_stored tid id w o Hl Hten).
  destruct (validTransitions_total (status o)) as (l & Hl'). rewrite Hl'.
  destruct (orderService.includes l requested) eqn:Hin.
  - exfalso. apply Hno. now apply (includes_allowed _ _ l Hl').
  - reflexivity.
Qed.

Lemma service_update_missing (tid : string) (id : nat) (w : world)
    (requested : string) :
  (forall o, orders w !! id = Some o -> tenantId o <> tid) ->
  orderService.updateOrderStatus tid id requested w
  = (Throw (ErrorExn "Pedido não encontrado"),
     {| orders := orders w;
        events := events w ++ [LogError "Erro ao atualizar status do pedido"] |}).
Proof.
  intros Hno. unfold orderService.updateOrderStatus.
  unfold try_catch, bind at 1. rewrite (findById_other tid id w Hno). reflexivity.
Qed.

(** X16. The service's status update and the controller's follow the same
    table: on every input they leave the same orders behind; the service
    returns the updated order exactly when the controller answers 200 with
    that order's status, and throws exactly when the controller answers 404
    or 400, with the controller's error text as its message.  The service
    sends no message to anybody. *)
Theorem status_updates_agree (e : env) (tid : string) (id : nat)
    (requested : string) (w : world) :
  exists rs ws resp wc,
    orderService.updateOrderStatus tid id requested w = (rs, ws) /\
    orderController.updateOrderStatus e tid id requested w = (Ret resp, wc) /\
    orders ws = orders wc /\
    messages (events ws) = messages (events w) /\
    match rs with
    | Ret o' =>
        code resp = 200%nat /\
        body resp = StatusUpdated "Status do pedido atualizado com sucesso" (status o') /\
        orders ws !! id = Some o'
    | Throw (ErrorExn m) =>
        (code resp = 404%nat \/ code resp = 400%nat) /\
        body resp = ErrorBody m [] /\ orders ws = orders w
    | Throw _ => False
    end.
Proof.
  assert (Hlog : forall evs ev, messages (evs ++ [LogError ev]) = messages evs).
  { intros evs ev. rewrite messages_app. cbn. now rewrite app_nil_r. }
  destruct (orders w !! id) as [o|] eqn:Hl.
  - destruct (decide (tenantId o = tid)) as [Hten|Hten].
    + destruct (allowed_request_dec (status o) requested) as [(to & -> & Hal)|Hno].
      * destruct (update_accepted e tid id w o Hl Hten to Hal) as (wc & Hrun & Ho & _).
        rewrite (service_update_follows_table tid id w o to Hl Hten Hal), Hrun.
        eexists _, _, _, _. split; [reflexivity|]. split; [reflexivity|].
        cbn [orders events]. split; [now rewrite Ho|]. split; [reflexivity|].
        cbn. split; [reflexivity|]. split; [reflexivity|].
        apply list_lookup_insert_eq. eapply lookup_lt_Some, Hl.
      * rewrite (service_update_rejected tid id w o requested Hl Hten Hno).
        rewrite (update_rejected e tid id w o Hl Hten requested Hno).
        eexists _, _, _, _. split; [reflexivity|]. split; [reflexivity|].
        cbn [orders events]. rewrite Hlog. cbn. auto 10.
    + assert (Hno : forall o', orders w !! id = Some o' -> tenantId o' <> tid)
        by (intros o' Ho'; congruence).
      rewrite (service_update_missing tid id w requested Hno).
      unfold orderController.updateOrderStatus. unfold try_catch, bind at 1.
      rewrite (findById_other tid id w Hno).
      eexists _, _, _, _. split; [reflexivity|]. split; [reflexivity|].
      cbn [orders events]. rewrite Hlog. cbn. auto 10.
  - assert (Hno : forall o', orders w !! id = Some o' -> tenantId o' <> tid)
      by (intros o' Ho'; congruence).
    rewrite (service_update_missing tid id w requested Hno).
    unfold orderController.updateOrderStatus. unfold try_catch, bind at 1.
    rewrite (findById_other tid id w Hno).
    eexists _, _, _, _. split; [reflexivity|]. split; [reflexivity|].
    cbn [orders events]. rewrite Hlog. cbn. auto 10.
Qed.
(** ** Who the public routes serve *)

Lemma findByApiKey_some (ts : list Tenant.doc) (t : Tenant.doc) :
  In t ts -> Tenant.t_active t = true ->
  exists t', Tenant.findByApiKey ts (Tenant.t_apiKey t) = Some t' /\
             In t' ts /\ Tenant.t_active t' = true /\
             Tenant.t_apiKey t' = Tenant.t_apiKey t.
Proof.
  intros Hin Hact. unfold Tenant.findByApiKey.
  destruct (List.find _ ts) as [t'|] eqn:Hf.
  - apply find_some in Hf as [Hin' Hb]. apply andb_prop in Hb as [Hk Ha].
    apply String.eqb_eq in Hk. exists t'. auto.
  - pose proof (find_none _ _ Hf t Hin) as Hn. cbn in Hn.
    rewrite String.eqb_refl, Hact in Hn. discriminate.
Qed.

Lemma resolve_by_id (ts : list Tenant.doc) (t : Tenant.doc) :
  NoDup (List.map Tenant.t_id ts) ->
  no_slug_is ts (Tenant.t_id t) ->
  In t ts -> Tenant.t_active t = true ->
  List.find (fun x => (String.eqb (Tenant.t_id x) (Tenant.t_id t)
                       || String.eqb (Tenant.t_slug x) (Tenant.t_id t))
                      && Tenant.t_active x) ts = Some t.
Proof.
  intros Hnd Hslug Hin Hact. induction ts as [|x ts IH]; [contradiction|].
  cbn [List.map] in Hnd. apply NoDup_cons in Hnd as [Hx Hnd]. cbn [List.find].
  destruct Hin as [->|Hin].
  - now rewrite String.eqb_refl, Hact.
  - assert (Hid : String.eqb (Tenant.t_id x) (Tenant.t_id t) = false).
    { apply String.eqb_neq. intros Heq. apply Hx. rewrite Heq.
      apply list_elem_of_In, in_map, Hin. }
    assert (Hsl : String.eqb (Tenant.t_slug x) (Tenant.t_id t) = false).
    { apply String.eqb_neq. apply Hslug. now left. }
    rewrite Hid, Hsl. cbn. apply IH; [exact Hnd| |exact Hin].
    intros y Hy. apply Hslug. now right.
Qed.

Lemma through_served {R : Type} (ts : list Tenant.doc) (a b : Tenant.doc)
    (refuse : nat -> string -> R) (handler : string -> M R) :
  NoDup (List.map Tenant.t_id ts) ->
  no_slug_is ts (Tenant.t_id b) ->
  In a ts -> Tenant.t_active a = true -> Tenant.t_apiKey a <> "" ->
  In b ts -> Tenant.t_active b = true -> Tenant.t_id b <> "" ->
  access.through ts (Some (Tenant.t_apiKey a)) (Tenant.t_id b) refuse handler
  = handler (Tenant.t_id b).
Proof.
  intros Hnd Hslug Ha Haa Hka Hb Hba Hib. unfold access.through.
  destruct (findByApiKey_some ts a Ha Haa) as (a' & Hfind & _).
  unfold access.authenticateApiKey.
  destruct (Tenant.t_apiKey a) as [|c r] eqn:Hk; [contradiction|].
  rewrite Hfind. unfold access.tenantResolver.
  destruct (Tenant.t_id b) as [|c' r'] eqn:Hid; [contradiction|].
  rewrite <- Hid. rewrite (resolve_by_id ts b Hnd); auto.
  now rewrite Hid.
Qed.

Lemma post_order_created_for (e : env) (now : instant) (tid : string)
    (b : order_data) (w w' : world) (r : response) :
  routes.post_order e now tid b w = (Ret r, w') ->
  code r = 201%nat ->
  exists o, orders w' = (orders w ++ [o])%list /\ tenantId o = tid.
Proof.
  intros Hrun Hcode. unfold routes.post_order, routes.validate in Hrun.
  destruct (validators.order b) as [err|].
  { injection Hrun as <- _. discriminate Hcode. }
  destruct (controller_create_cases e now tid b w)
    as (r' & w2 & Hctl & [(o & w3 & Hok & _ & Ho)|(ex' & w3 & _ & Hc & _)]).
  - rewrite Hctl in Hrun. injection Hrun as <- <-.
    apply createOrder_number in Hok as (_ & Hten & _). eauto.
  - rewrite Hctl in Hrun. injection Hrun as <- _. rewrite Hc in Hcode.
    destruct ex'; discriminate.
Qed.

(** X17. The public order routes serve the tenant of the path, not the
    tenant of the key: with the key of any active tenant and the id of an
    active tenant in the path, the creation, the status query and the
    rating run for the tenant of the path, and a created order belongs to
    it. *)
Theorem public_routes_serve_the_path (ts : list Tenant.doc) (products : list product)
    (a b : Tenant.doc) (now : instant) (body_ : order_data) (num_ : string)
    (rating_ : jsval) (comment : option string) (w : world) :
  canonical_id (Tenant.t_id b) ->
  NoDup (List.map Tenant.t_id ts) ->
  no_slug_is ts (Tenant.t_id b) ->
  In a ts -> Tenant.t_active a = true -> Tenant.t_apiKey a <> "" ->
  In b ts -> Tenant.t_active b = true -> Tenant.t_id b <> "" ->
  access.post_order ts products now (Some (Tenant.t_apiKey a)) (Tenant.t_id b) body_ w
  = routes.post_order (env_of ts products) now (Tenant.t_id b) body_ w /\
  access.get_status ts (Some (Tenant.t_apiKey a)) (Tenant.t_id b) num_ w
  = orderQueries.getOrderStatus (Tenant.t_id b) num_ w /\
  access.post_rate ts (Some (Tenant.t_apiKey a)) (Tenant.t_id b) num_ rating_ comment w
  = orderController.rateOrder (Tenant.t_id b) num_ rating_ comment w /\
  (forall r w',
     access.post_order ts products now (Some (Tenant.t_apiKey a)) (Tenant.t_id b)
       body_ w = (Ret r, w') ->
     code r = 201%nat ->
     exists o, orders w' = (orders w ++ [o])%list /\ tenantId o = Tenant.t_id b).
Proof.
  intros _ Hnd Hslug Ha Haa Hka Hb Hba Hib.
  assert (Hpost :
            access.post_order ts products now (Some (Tenant.t_apiKey a))
              (Tenant.t_id b) body_ w
            = routes.post_order (env_of ts products) now (Tenant.t_id b) body_ w).
  { unfold access.post_order. now rewrite (through_served ts a b). }
  split; [exact Hpost|]. split; [|split].
  - unfold access.get_status. now rewrite (through_served ts a b).
  - unfold access.post_rate. now rewrite (through_served ts a b).
  - intros r w' Hrun Hcode. rewrite Hpost in Hrun.
    eapply post_order_created_for; eassumption.
Qed.

Lemma public_routes_serve_the_path_witness :
  exists r w' o,
    access.post_order two_tenants [] (jan15 12 0) (Some "key-a")
      "65a00000000000000000000b" body_a empty_world = (Ret r, w') /\
    code r = 201%nat /\ orders w' = [o] /\
    tenantId o = "65a00000000000000000000b".
Proof.
  destruct (access.post_order two_tenants [] (jan15 12 0) (Some "key-a")
              "65a00000000000000000000b" body_a empty_world) as [res w'] eqn:Hrun.
  assert (Hres : exists r, res = Ret r /\ code r = 201%nat).
  { vm_compute in Hrun. injection Hrun as <- _. eexists. split; reflexivity. }
  destruct Hres as (r & -> & Hcode).
  assert (Hnd : NoDup (List.map Tenant.t_id two_tenants)).
  { cbn. apply NoDup_cons. split; [|apply NoDup_singleton].
    intros H. apply list_elem_of_In in H. destruct H as [H|[]]. discriminate H. }
  assert (Hslug : no_slug_is two_tenants (Tenant.t_id tenant_b)).
  { intros t [<-|[<-|[]]]; discriminate. }
  destruct (public_routes_serve_the_path two_tenants [] tenant_a tenant_b
              (jan15 12 0) body_a "" VUndefined None empty_world
              (conj eq_refl eq_refl) Hnd Hslug
              ltac:(now left) eq_refl ltac:(discriminate)
              ltac:(right; now left) eq_refl ltac:(discriminate))
    as (_ & _ & _ & Hfor).
  destruct (Hfor r w' Hrun Hcode) as (o & Ho & Hten).
  exists r, w', o. auto.
Defined.

Lemma through_no_key {R : Type} (ts : list Tenant.doc) (key : option string)
    (p : string) (refuse : nat -> string -> R) (handler : string -> M R) (w : world) :
  key_unknown ts key ->
  exists err, access.through ts key p refuse handler w = (Ret (refuse 401 err), w).
Proof.
  intros Hno. unfold access.through, access.authenticateApiKey.
  destruct key as [[|c r]|]; try (eexists; reflexivity).
  destruct (Tenant.findByApiKey ts (String c r)) as [t|] eqn:Hf;
    [|eexists; reflexivity].
  apply find_some in Hf as [Hin Hb]. apply andb_prop in Hb as [Hk Ha].
  apply String.eqb_eq in Hk. rewrite (Hno _ t eq_refl Hin Hk) in Ha. discriminate.
Qed.

Lemma authenticateApiKey_answer (ts : list Tenant.doc) (key : option string)
    (c : nat) (err : string) :
  access.authenticateApiKey ts key = access.Answer c err -> c = 401%nat.
Proof.
  unfold access.authenticateApiKey.
  destruct key as [[|a r]|]; try (intros [= <- _]; reflexivity).
  destruct (Tenant.findByApiKey ts (String a r)); [discriminate|].
  intros [= <- _]; reflexivity.
Qed.

Lemma through_no_tenant {R : Type} (ts : list Tenant.doc) (key : option string)
    (p : string) (refuse : nat -> string -> R) (handler : string -> M R) (w : world) :
  p <> "" -> path_unknown ts p ->
  exists c err,
    access.through ts key p refuse handler w = (Ret (refuse c err), w) /\
    (c = 401%nat \/ c = 404%nat).
Proof.
  intros Hp Hno. unfold access.through.
  destruct (access.authenticateApiKey ts key) as [t0|c err] eqn:Hauth.
  - unfold access.tenantResolver. destruct p as [|c r]; [contradiction|].
    destruct (List.find _ ts) as [t|] eqn:Hf.
    + apply find_some in Hf as [Hin Hb]. apply andb_prop in Hb as [Hk Ha].
      apply orb_prop in Hk. rewrite !String.eqb_eq in Hk.
      rewrite (Hno t Hin Hk) in Ha. discriminate.
    + eexists _, _. split; [reflexivity|]. now right.
  - apply authenticateApiKey_answer in Hauth as ->.
    eexists _, _. split; [reflexivity|]. now left.
Qed.

(** X18. The public order routes are closed without a key of an active
    tenant and for a tenant id that is unknown or not active: in the first
    case the creation, the status query and the rating answer 401, in the
    second 401 or 404, and in both nothing is stored, logged or sent. *)
Theorem public_routes_closed (ts : list Tenant.doc) (products : list product)
    (now : instant) (key : option string) (p : string) (body_ : order_data)
    (num_ : string) (rating_ : jsval) (comment : option string) (w : world) :
  canonical_id p ->
  key_unknown ts key \/ path_unknown ts p ->
  exists c1 c2 c3 e1 e2 e3,
    access.post_order ts products now key p body_ w
    = (Ret (access.refused c1 e1), w) /\
    access.get_status ts key p num_ w = (Ret (access.read_refused c2 e2), w) /\
    access.post_rate ts key p num_ rating_ comment w
    = (Ret (access.refused c3 e3), w) /\
    Forall (fun c => c = 401%nat \/ c = 404%nat) [c1; c2; c3] /\
    (key_unknown ts key -> c1 = 401%nat /\ c2 = 401%nat /\ c3 = 401%nat).
Proof.
  intros Hcan [Hkey|Hpath];
    pose proof (object_id_nonempty p (proj1 Hcan)) as Hp.
  - destruct (through_no_key ts key p access.refused
                (fun tid => routes.post_order (env_of ts products) now tid body_)
                w Hkey) as (e1 & H1).
    destruct (through_no_key ts key p access.read_refused
                (fun tid => orderQueries.getOrderStatus tid num_) w Hkey)
      as (e2 & H2).
    destruct (through_no_key ts key p access.refused
                (fun tid => orderController.rateOrder tid num_ rating_ comment)
                w Hkey) as (e3 & H3).
    exists 401%nat, 401%nat, 401%nat, e1, e2, e3.
    split; [exact H1|]. split; [exact H2|]. split; [exact H3|].
    split; [repeat (constructor; [now left|]); constructor|auto].
  - destruct (through_no_tenant ts key p access.refused
                (fun tid => routes.post_order (env_of ts products) now tid body_)
                w Hp Hpath) as (c1 & e1 & H1 & Hc1).
    destruct (through_no_tenant ts key p access.read_refused
                (fun tid => orderQueries.getOrderStatus tid num_) w Hp Hpath)
      as (c2 & e2 & H2 & Hc2).
    destruct (through_no_tenant ts key p access.refused
                (fun tid => orderController.rateOrder tid num_ rating_ comment)
                w Hp Hpath) as (c3 & e3 & H3 & Hc3).
    exists c1, c2, c3, e1, e2, e3.
    split; [exact H1|]. split; [exact H2|]. split; [exact H3|].
    split; [repeat (constructor; [assumption|]); constructor|].
    intros Hkey.
    destruct (through_no_key ts key p access.refused
                (fun tid => routes.post_order (env_of ts products) now tid body_)
                w Hkey) as (e1' & H1').
    destruct (through_no_key ts key p access.read_refused
                (fun tid => orderQueries.getOrderStatus tid num_) w Hkey)
      as (e2' & H2').
    destruct (through_no_key ts key p access.refused
                (fun tid => orderController.rateOrder tid num_ rating_ comment)
                w Hkey) as (e3' & H3').
    unfold access.post_order in H1. unfold access.get_status in H2.
    unfold access.post_rate in H3.
    rewrite H1 in H1'. rewrite H2 in H2'. rewrite H3 in H3'.
    injection H1' as -> _. injection H2' as -> _. injection H3' as -> _. auto.
Qed.

Lemma public_routes_closed_witness :
  exists e1,
    access.post_order two_tenants [] (jan15 12 0) (Some "key-c")
      "65a00000000000000000000b" body_a empty_world
    = (Ret (access.refused 401 e1), empty_world).
Proof.
  destruct (public_routes_closed two_tenants [] (jan15 12 0) (Some "key-c")
              "65a00000000000000000000b" body_a "" VUndefined None empty_world
              (conj eq_refl eq_refl))
    as (c1 & c2 & c3 & e1 & e2 & e3 & H1 & _ & _ & _ & Hall).
  { left. intros k t [= <-] [<-|[<-|[]]] Hk; discriminate Hk. }
  assert (Hkey : key_unknown two_tenants (Some "key-c")).
  { intros k t [= <-] [<-|[<-|[]]] Hk; discriminate Hk. }
  destruct (Hall Hkey) as (-> & _). exists e1. exact H1.
Defined.
(** ** Clearing the cache of a tenant *)

Lemma lookup_fold_delete {V : Type} (c : gmap string V) (l : list string) (k : string) :
  fold_right (fun k acc => delete k acc) c l !! k
  = if decide (k ∈ l) then None else c !! k.
Proof.
  induction l as [|x l IH]; [reflexivity|]. cbn [fold_right].
  destruct (decide (x = k)) as [->|Hne].
  - rewrite lookup_delete_eq. destruct (decide (k ∈ k :: l)) as [_|Hn];
      [reflexivity|]. exfalso. apply Hn. left.
  - rewrite lookup_delete_ne by exact Hne. rewrite IH.
    destruct (decide (k ∈ l)) as [Hin|Hnin], (decide (k ∈ x :: l)) as [Hin'|Hnin'];
      try reflexivity.
    + exfalso. apply Hnin'. now right.
    + exfalso. apply elem_of_cons in Hin' as [->|Hin']; [now apply Hne|now apply Hnin].
Qed.

Lemma startsWith_prefix_app (p a b : string) :
  Str.startsWith (p ++ a) (p ++ b) = Str.startsWith a b.
Proof.
  induction p as [|c p IH]; [reflexivity|].
  change (Str.startsWith (String c (p ++ a)) (String c (p ++ b)) = Str.startsWith a b).
  cbn [Str.startsWith]. now rewrite Ascii.eqb_refl.
Qed.

Lemma startsWith_same_length (a b rest : string) :
  String.length a = String.length b ->
  Str.startsWith a (b ++ rest) = true -> a = b.
Proof.
  revert b. induction a as [|x a IH]; intros [|y b] Hlen H; try discriminate;
    [reflexivity|].
  change (Str.startsWith (String x a) (String y (b ++ rest)) = true) in H.
  cbn [Str.startsWith] in H. apply andb_prop in H as [Hxy H].
  apply Ascii.eqb_eq in Hxy. subst y. f_equal. apply IH; [|exact H].
  cbn in Hlen. lia.
Qed.

(** X19. Clearing the cache by prefix removes the entries whose key starts
    with the prefix, all of them and no other, and reports how many they
    were.  Clearing for one tenant ([tenant_<id>]) therefore keeps every
    entry of a tenant with another id of the same length. *)
Theorem delByPrefix_removes_the_prefix {V : Type} (c : cacheManager.cache V)
    (prefix : string) :
  (forall k,
     cacheManager.get (snd (cacheManager.delByPrefix c prefix)) k
     = if Str.startsWith prefix k then None else cacheManager.get c k) /\
  fst (cacheManager.delByPrefix c prefix)
  = length (List.filter (Str.startsWith prefix) (List.map fst (map_to_list c))) /\
  (forall id id' rest,
     String.length id = String.length id' -> id <> id' ->
     cacheManager.get (snd (cacheManager.delByPrefix c ("tenant_" ++ id)))
       ("tenant_" ++ id' ++ rest)
     = cacheManager.get c ("tenant_" ++ id' ++ rest)).
Proof.
  assert (Hget : forall p k,
             cacheManager.get (snd (cacheManager.delByPrefix c p)) k
             = if Str.startsWith p k then None else cacheManager.get c k).
  { intros p k. unfold cacheManager.delByPrefix, cacheManager.get. cbn [snd].
    rewrite lookup_fold_delete.
    destruct (decide (k ∈ List.filter (Str.startsWith p)
                            (List.map fst (map_to_list c)))) as [Hin|Hnin].
    - apply list_elem_of_In, filter_In in Hin as [_ ->]. reflexivity.
    - destruct (Str.startsWith p k) eqn:Hp; [|reflexivity].
      destruct (c !! k) as [v|] eqn:Hk; [|exact Hk].
      exfalso. apply Hnin. apply list_elem_of_In, filter_In. split; [|exact Hp].
      apply in_map_iff. exists (k, v). split; [reflexivity|].
      apply list_elem_of_In.
      apply (proj2 (elem_of_map_to_list (c : gmap string V) k v)). exact Hk. }
  split; [apply Hget|]. split; [reflexivity|].
  intros id id' rest Hlen Hne. rewrite Hget.
  destruct (Str.startsWith ("tenant_" ++ id) ("tenant_" ++ id' ++ rest)) eqn:Hs;
    [|reflexivity].
  rewrite startsWith_prefix_app in Hs.
  now apply startsWith_same_length in Hs.
Qed.

(** ** Switching a tenant off and on *)

Lemma findById_from_spec (ts : list Tenant.doc) (id : string) (k i : nat)
    (t : Tenant.doc) :
  Tenant.findById_from ts id k = Some (i, t) ->
  (k <= i)%nat /\ ts !! (i - k)%nat = Some t /\ Tenant.t_id t = id.
Proof.
  revert k. induction ts as [|x ts IH]; intros k H; [discriminate|].
  cbn in H. destruct (String.eqb (Tenant.t_id x) id) eqn:Hx.
  - injection H as <- <-. rewrite Nat.sub_diag. apply String.eqb_eq in Hx. auto.
  - apply IH in H as (Hle & Hl & Hid). split; [lia|]. split; [|exact Hid].
    replace (i - k)%nat with (S (i - S k)) by lia. exact Hl.
Qed.

Lemma findById_from_insert (ts : list Tenant.doc) (id : string) (k i : nat)
    (t t' : Tenant.doc) :
  Tenant.findById_from ts id k = Some (i, t) ->
  Tenant.t_id t' = id ->
  Tenant.findById_from (<[(i - k)%nat := t']> ts) id k = Some (i, t').
Proof.
  revert k. induction ts as [|x ts IH]; intros k H Hid; [discriminate|].
  cbn in H. destruct (String.eqb (Tenant.t_id x) id) eqn:Hx.
  - injection H as <- <-. rewrite Nat.sub_diag. cbn.
    now rewrite Hid, String.eqb_refl.
  - pose proof (findById_from_spec _ _ _ _ _ H) as (Hle & _).
    replace (i - k)%nat with (S (i - S k)) by lia. cbn. rewrite Hx.
    now apply IH.
Qed.

Lemma set_active_twice (t : Tenant.doc) :
  Tenant.set_active (Tenant.set_active t (negb (Tenant.t_active t))) (Tenant.t_active t)
  = t.
Proof. now destruct t. Qed.

Lemma deactivate_users_spec (tid : string) (us : list tenantController.user) :
  (forall u, In u (tenantController.deactivate_users tid us) ->
             tenantController.u_tenantId u = tid ->
             tenantController.u_active u = false) /\
  (forall j u, us !! j = Some u -> tenantController.u_tenantId u <> tid ->
               tenantController.deactivate_users tid us !! j = Some u) /\
  length (tenantController.deactivate_users tid us) = length us.
Proof.
  unfold tenantController.deactivate_users. split; [|split].
  - intros u Hin Hten. apply in_map_iff in Hin as (u0 & Hu & _).
    destruct (String.eqb (tenantController.u_tenantId u0) tid) eqn:Hq.
    + now subst u.
    + subst u0. apply String.eqb_neq in Hq. contradiction.
  - intros j u Hj Hne.
    change (List.map ?f us) with (f <$> us). rewrite list_lookup_fmap, Hj. cbn.
    apply String.eqb_neq in Hne. now rewrite Hne.
  - apply length_map.
Qed.

(** X20. Switching a tenant off and on again gives the tenant back as it
    was, but not its users: after two toggles the tenants are those before,
    the two answers report the opposite status and then the first one, and
    every user of the tenant is inactive, the users of other tenants being
    as they were. *)
Theorem toggle_twice_keeps_users_off {V : Type} (id : string)
    (s : tenantController.state V) (i : nat) (t : Tenant.doc) :
  Tenant.findById (tenantController.tenants s) id = Some (i, t) ->
  let r1 := tenantController.toggleTenantStatus id s in
  let r2 := tenantController.toggleTenantStatus id (snd r1) in
  (exists m1 m2,
     fst r1 = tenantController.Toggled m1 (negb (Tenant.t_active t)) /\
     fst r2 = tenantController.Toggled m2 (Tenant.t_active t)) /\
  tenantController.tenants (snd r2) = tenantController.tenants s /\
  tenantController.users (snd r2)
  = tenantController.deactivate_users id (tenantController.users s) /\
  (forall u, In u (tenantController.users (snd r2)) ->
             tenantController.u_tenantId u = id ->
             tenantController.u_active u = false) /\
  (forall j u, tenantController.users s !! j = Some u ->
               tenantController.u_tenantId u <> id ->
               tenantController.users (snd r2) !! j = Some u).
Proof.
  intros Hfind r1 r2.
  pose proof (findById_from_spec _ _ _ _ _ Hfind) as (_ & Hl & Hid).
  rewrite Nat.sub_0_r in Hl.
  set (t' := Tenant.set_active t (negb (Tenant.t_active t))).
  assert (Hfind' : Tenant.findById (<[i := t']> (tenantController.tenants s)) id
                   = Some (i, t')).
  { unfold Tenant.findById in *.
    pose proof (findById_from_insert _ _ _ _ _ t' Hfind Hid) as H.
    now rewrite Nat.sub_0_r in H. }
  assert (Hr1 : r1 = tenantController.toggleTenantStatus id s) by reflexivity.
  unfold tenantController.toggleTenantStatus in Hr1. rewrite Hfind in Hr1.
  fold t' in Hr1. cbn zeta in Hr1.
  assert (Hr2 : r2 = tenantController.toggleTenantStatus id (snd r1)) by reflexivity.
  rewrite Hr1 in Hr2. cbn [snd] in Hr2.
  unfold tenantController.toggleTenantStatus in Hr2.
  cbn [tenantController.tenants tenantController.users tenantController.cached] in Hr2.
  rewrite Hfind' in Hr2. cbn zeta in Hr2.
  assert (Hback : Tenant.set_active t' (negb (Tenant.t_active t')) = t).
  { unfold t'. cbn [Tenant.t_active Tenant.set_active]. rewrite negb_involutive.
    apply set_active_twice. }
  rewrite Hback in Hr2.
  assert (Hus : tenantController.users (snd r2)
                = tenantController.deactivate_users id (tenantController.users s)).
  { rewrite Hr2. cbn [snd tenantController.users]. unfold t'.
    cbn [Tenant.t_active Tenant.t_id Tenant.set_active]. rewrite Hid.
    destruct (Tenant.t_active t); reflexivity. }
  split; [|split; [|split; [exact Hus|]]].
  - rewrite Hr1, Hr2. cbn [fst]. eexists _, _. split; reflexivity.
  - rewrite Hr2. cbn [snd tenantController.tenants].
    rewrite list_insert_insert_eq. now apply list_insert_id.
  - rewrite Hus. split.
    + apply deactivate_users_spec.
    + apply deactivate_users_spec.
Qed.

Lemma toggle_twice_keeps_users_off_witness :
  tenantController.tenants
    (snd (tenantController.toggleTenantStatus "65a00000000000000000000a"
            (snd (tenantController.toggleTenantStatus "65a00000000000000000000a"
                    admin_state))))
  = two_tenants /\
  tenantController.users
    (snd (tenantController.toggleTenantStatus "65a00000000000000000000a"
            (snd (tenantController.toggleTenantStatus "65a00000000000000000000a"
                    admin_state))))
  = [tenantController.deactivate (user_of "65a00000000000000000000a" "ana");
     user_of "65a00000000000000000000b" "bia"].
Proof.
  destruct (toggle_twice_keeps_users_off "65a00000000000000000000a" admin_state
              0 tenant_a eq_refl) as (_ & Hts & Hus & _).
  split; [exact Hts|exact Hus].
Defined.

(** X21. A tenant that is switched off is closed to its clients: after the
    toggle of an active tenant, a creation request for it is answered 401 or
    404 whatever key it carries, and 401 when it carries the tenant's own
    key; nothing is stored, logged or sent.  Its users are all inactive. *)
Theorem deactivated_tenant_is_closed {V : Type} (id : string)
    (s : tenantController.state V) (i : nat) (t : Tenant.doc)
    (products : list product) (now : instant) (key : option string)
    (body_ : order_data) (w : world) :
  Tenant.findById (tenantController.tenants s) id = Some (i, t) ->
  Tenant.t_active t = true ->
  NoDup (List.map Tenant.t_id (tenantController.tenants s)) ->
  NoDup (List.map Tenant.t_apiKey (tenantController.tenants s)) ->
  no_slug_is (tenantController.tenants s) id ->
  canonical_id id ->
  let s' := snd (tenantController.toggleTenantStatus id s) in
  (exists c err,
     access.post_order (tenantController.tenants s') products now key id body_ w
     = (Ret (access.refused c err), w) /\
     (c = 401%nat \/ c = 404%nat) /\
     (key = Some (Tenant.t_apiKey t) -> c = 401%nat)) /\
  (forall u, In u (tenantController.users s') ->
             tenantController.u_tenantId u = id ->
             tenantController.u_active u = false).
Proof.
  intros Hfind Hact Hids Hkeys Hslug Hcan s'.
  pose proof (object_id_nonempty id (proj1 Hcan)) as Hne.
  pose proof (findById_from_spec _ _ _ _ _ Hfind) as (_ & Hl & Hid).
  rewrite Nat.sub_0_r in Hl.
  assert (Hs' : s' = snd (tenantController.toggleTenantStatus id s)) by reflexivity.
  unfold tenantController.toggleTenantStatus in Hs'. rewrite Hfind in Hs'.
  cbn zeta in Hs'. cbn [snd Tenant.t_active Tenant.t_id Tenant.set_active] in Hs'.
  rewrite Hact in Hs'. cbn [negb] in Hs'.
  assert (Hts : tenantController.tenants s'
                = <[i := Tenant.set_active t false]> (tenantController.tenants s))
    by now rewrite Hs'.
  assert (Hin' : forall x, In x (tenantController.tenants s') ->
                   x = Tenant.set_active t false \/
                   (In x (tenantController.tenants s) /\ x <> t)).
  { intros x Hx. rewrite Hts in Hx. apply list_elem_of_In in Hx.
    apply list_elem_of_lookup in Hx as (j & Hj).
    destruct (decide (j = i)) as [->|Hji].
    - rewrite list_lookup_insert_eq in Hj by (eapply lookup_lt_Some, Hl).
      left. congruence.
    - rewrite list_lookup_insert_ne in Hj by congruence. right.
      split; [apply list_elem_of_In, list_elem_of_lookup; eauto|].
      intros ->. apply Hji.
      eapply (NoDup_lookup (List.map Tenant.t_id (tenantController.tenants s)));
        [exact Hids| |];
        change (List.map ?f ?l) with (f <$> l); rewrite list_lookup_fmap.
      + now rewrite Hj.
      + now rewrite Hl. }
  assert (Hpath : path_unknown (tenantController.tenants s') id).
  { intros x Hx Hor. destruct (Hin' x Hx) as [->|[Hx0 Hxt]]; [reflexivity|].
    exfalso. destruct Hor as [Hxid|Hxslug].
    - apply Hxt.
      apply list_elem_of_In, list_elem_of_lookup in Hx0 as (j & Hj).
      assert (j = i) as ->.
      { eapply (NoDup_lookup (List.map Tenant.t_id (tenantController.tenants s)));
          [exact Hids| |];
          change (List.map ?f ?l) with (f <$> l); rewrite list_lookup_fmap.
        - rewrite Hj. cbn. now rewrite Hxid.
        - rewrite Hl. cbn. now rewrite Hid. }
      congruence.
    - now apply (Hslug x Hx0). }
  split.
  - destruct (through_no_tenant (tenantController.tenants s') key id access.refused
                (fun tid => routes.post_order
                              (env_of (tenantController.tenants s') products)
                              now tid body_) w Hne Hpath)
      as (c & err & Hrun & Hc).
    exists c, err. split; [exact Hrun|]. split; [exact Hc|].
    intros ->.
    assert (Hkey : key_unknown (tenantController.tenants s')
                     (Some (Tenant.t_apiKey t))).
    { intros k x [= <-] Hx Hk. destruct (Hin' x Hx) as [->|[Hx0 Hxt]]; [reflexivity|].
      exfalso. apply Hxt.
      apply list_elem_of_In, list_elem_of_lookup in Hx0 as (j & Hj).
      assert (j = i) as ->.
      { eapply (NoDup_lookup (List.map Tenant.t_apiKey (tenantController.tenants s)));
          [exact Hkeys| |];
          change (List.map ?f ?l) with (f <$> l); rewrite list_lookup_fmap.
        - rewrite Hj. cbn. now rewrite Hk.
        - now rewrite Hl. }
      congruence. }
    destruct (through_no_key (tenantController.tenants s')
                (Some (Tenant.t_apiKey t)) id access.refused
                (fun tid => routes.post_order
                              (env_of (tenantController.tenants s') products)
                              now tid body_) w Hkey) as (err' & Hrun').
    unfold access.post_order in Hrun. rewrite Hrun in Hrun'.
    now injection Hrun' as -> _.
  - rewrite Hs'. cbn [tenantController.users]. rewrite Hid.
    apply deactivate_users_spec.
Qed.

Lemma deactivated_tenant_is_closed_witness :
  exists err,
    access.post_order
      (tenantController.tenants
         (snd (tenantController.toggleTenantStatus "65a00000000000000000000a"
                 admin_state)))
      [] (jan15 12 0) (Some "key-a") "65a00000000000000000000a" body_a empty_world
    = (Ret (access.refused 401 err), empty_world).
Proof.
  assert (Hids : NoDup (List.map Tenant.t_id (tenantController.tenants admin_state))).
  { cbn. apply NoDup_cons. split; [|apply NoDup_singleton].
    intros H. apply list_elem_of_In in H. destruct H as [H|[]]. discriminate H. }
  assert (Hkeys : NoDup (List.map Tenant.t_apiKey
                           (tenantController.tenants admin_state))).
  { cbn. apply NoDup_cons. split; [|apply NoDup_singleton].
    intros H. apply list_elem_of_In in H. destruct H as [H|[]]. discriminate H. }
  assert (Hslug : no_slug_is (tenantController.tenants admin_state)
                    "65a00000000000000000000a").
  { intros t [<-|[<-|[]]]; discriminate. }
  destruct (deactivated_tenant_is_closed "65a00000000000000000000a" admin_state
              0 tenant_a [] (jan15 12 0) (Some "key-a") body_a empty_world
              eq_refl eq_refl Hids Hkeys Hslug (conj eq_refl eq_refl))
    as ((c & err & Hrun & _ & Hc) & _).
  rewrite (Hc eq_refl) in Hrun. exists err. exact Hrun.
Defined.

(** ** A new key for a tenant *)

Lemma generateUniqueApiKey_fresh (draws : list string) (ts : list Tenant.doc) :
  fresh_draw draws ts ->
  exists k rest,
    tenantController.generateUniqueApiKey draws ts = Some (k, rest) /\
    In k draws /\ (forall t, In t ts -> Tenant.t_apiKey t <> k).
Proof.
  intros (k0 & Hin & Hfresh). induction draws as [|k draws IH]; [contradiction|].
  cbn [tenantController.generateUniqueApiKey].
  destruct (existsb _ ts) eqn:Hex.
  - destruct Hin as [->|Hin].
    + apply existsb_exists in Hex as (t & Ht & Heq). apply String.eqb_eq in Heq.
      now destruct (Hfresh t Ht).
    + destruct (IH Hin) as (k' & rest & Hrun & Hk' & Hf').
      exists k', rest. split; [exact Hrun|]. split; [now right|exact Hf'].
  - exists k, draws. split; [reflexivity|]. split; [now left|].
    intros t Ht Heq.
    assert (Hc : existsb (fun t => String.eqb (Tenant.t_apiKey t) k) ts = true).
    { apply existsb_exists. exists t. split; [exact Ht|]. now apply String.eqb_eq. }
    congruence.
Qed.

(** X22. A new key replaces the old one: when some draw of the generator
    is a key no tenant has, generating a key for an active tenant answers
    with a key that was drawn and that no tenant had; from then on this key
    lets the tenant's clients in, the old key lets nobody in, and the keys
    of all tenants are still distinct. *)
Theorem new_key_replaces_the_old {V : Type} (id : string) (draws : list string)
    (s : tenantController.state V) (i : nat) (t : Tenant.doc) :
  Tenant.findById (tenantController.tenants s) id = Some (i, t) ->
  Tenant.t_active t = true ->
  NoDup (List.map Tenant.t_apiKey (tenantController.tenants s)) ->
  hex_draws draws ->
  fresh_draw draws (tenantController.tenants s) ->
  exists k m s' rest,
    tenantController.generateApiKey id draws s
    = Some (tenantController.KeyGenerated m k, s', rest) /\
    In k draws /\
    (forall x, In x (tenantController.tenants s) -> Tenant.t_apiKey x <> k) /\
    tenantController.tenants s'
    = <[i := tenantController.set_apiKey t k]> (tenantController.tenants s) /\
    access.authenticateApiKey (tenantController.tenants s') (Some k)
    = access.Next (tenantController.set_apiKey t k) /\
    access.authenticateApiKey (tenantController.tenants s')
      (Some (Tenant.t_apiKey t))
    = access.Answer 401 (if String.eqb (Tenant.t_apiKey t) ""
                         then "API key não fornecida" else "API key inválida") /\
    NoDup (List.map Tenant.t_apiKey (tenantController.tenants s')).
Proof.
  intros Hfind Hact Hkeys Hhex Hfresh.
  pose proof (findById_from_spec _ _ _ _ _ Hfind) as (_ & Hl & Hid).
  rewrite Nat.sub_0_r in Hl.
  destruct (generateUniqueApiKey_fresh draws _ Hfresh) as (k & rest & Hgen & Hk & Hnew).
  unfold tenantController.generateApiKey. rewrite Hfind, Hgen. cbn zeta.
  eexists k, _, _, rest. split; [reflexivity|].
  cbn [tenantController.tenants].
  set (t' := tenantController.set_apiKey t k).
  set (ts := tenantController.tenants s) in *.
  assert (Hlen : (i < length ts)%nat) by (eapply lookup_lt_Some, Hl).
  assert (Hin' : forall x, In x (<[i := t']> ts) ->
                   x = t' \/ (In x ts /\ x <> t)).
  { intros x Hx. apply list_elem_of_In in Hx.
    apply list_elem_of_lookup in Hx as (j & Hj).
    destruct (decide (j = i)) as [->|Hji].
    - rewrite list_lookup_insert_eq in Hj by exact Hlen. left. congruence.
    - rewrite list_lookup_insert_ne in Hj by congruence. right.
      split; [apply list_elem_of_In, list_elem_of_lookup; eauto|].
      intros ->. apply Hji.
      eapply (NoDup_lookup (List.map Tenant.t_apiKey ts)); [exact Hkeys| |];
        change (List.map ?f ?l) with (f <$> l); rewrite list_lookup_fmap.
      + now rewrite Hj.
      + now rewrite Hl. }
  assert (Hk64 : String.length k = 64%nat).
  { unfold hex_draws in Hhex. rewrite List.Forall_forall in Hhex. now apply Hhex. }
  split; [exact Hk|]. split; [exact Hnew|]. split; [reflexivity|].
  split; [|split].
  - unfold access.authenticateApiKey.
    destruct k as [|c r]; [discriminate Hk64|].
    unfold Tenant.findByApiKey.
    destruct (List.find _ (<[i := t']> ts)) as [x|] eqn:Hf.
    + apply find_some in Hf as [Hx Hb]. apply andb_prop in Hb as [Hxk _].
      apply String.eqb_eq in Hxk.
      destruct (Hin' x Hx) as [->|[Hx0 _]]; [reflexivity|].
      now destruct (Hnew x Hx0).
    + assert (H : In t' (<[i := t']> ts)).
      { apply list_elem_of_In, list_elem_of_lookup. exists i.
        now apply list_lookup_insert_eq. }
      pose proof (find_none _ _ Hf t' H) as Hn. cbn beta in Hn.
      change (Tenant.t_apiKey t') with (String c r) in Hn.
      change (Tenant.t_active t') with (Tenant.t_active t) in Hn.
      rewrite String.eqb_refl, Hact in Hn. discriminate Hn.
  - unfold access.authenticateApiKey.
    destruct (Tenant.t_apiKey t) as [|c r] eqn:Hold; [reflexivity|]. cbn [String.eqb].
    unfold Tenant.findByApiKey.
    destruct (List.find _ (<[i := t']> ts)) as [x|] eqn:Hf; [|reflexivity].
    apply find_some in Hf as [Hx Hb]. apply andb_prop in Hb as [Hxk _].
    apply String.eqb_eq in Hxk.
    destruct (Hin' x Hx) as [->|[Hx0 Hxt]].
    + cbn in Hxk. exfalso. apply (Hnew t).
      * apply list_elem_of_In, list_elem_of_lookup; eauto.
      * now rewrite Hold.
    + exfalso. apply Hxt.
      apply list_elem_of_In, list_elem_of_lookup in Hx0 as (j & Hj).
      assert (j = i) as ->.
      { eapply (NoDup_lookup (List.map Tenant.t_apiKey ts)); [exact Hkeys| |];
          change (List.map ?f ?l) with (f <$> l); rewrite list_lookup_fmap.
        - rewrite Hj. cbn. now rewrite Hxk.
        - rewrite Hl. cbn. now rewrite Hold. }
      congruence.
  - change (List.map ?f ?l) with (f <$> l). rewrite list_fmap_insert.
    apply NoDup_alt. intros a b x Ha Hb.
    change (Tenant.t_apiKey <$> ts) with (List.map Tenant.t_apiKey ts) in *.
    destruct (decide (a = i)) as [->|Hai], (decide (b = i)) as [->|Hbi];
      try reflexivity.
    + rewrite list_lookup_insert_eq in Ha by (now rewrite length_map).
      rewrite list_lookup_insert_ne in Hb by congruence.
      injection Ha as <-. exfalso.
      change (List.map ?f ?l) with (f <$> l) in Hb.
      rewrite list_lookup_fmap in Hb.
      destruct (ts !! b) as [y|] eqn:Hy; [|discriminate]. cbn in Hb.
      injection Hb as Hb. apply (Hnew y); [|exact Hb].
      apply list_elem_of_In, list_elem_of_lookup; eauto.
    + rewrite list_lookup_insert_eq in Hb by (now rewrite length_map).
      rewrite list_lookup_insert_ne in Ha by congruence.
      injection Hb as <-. exfalso.
      change (List.map ?f ?l) with (f <$> l) in Ha.
      rewrite list_lookup_fmap in Ha.
      destruct (ts !! a) as [y|] eqn:Hy; [|discriminate]. cbn in Ha.
      injection Ha as Ha. apply (Hnew y); [|exact Ha].
      apply list_elem_of_In, list_elem_of_lookup; eauto.
    + rewrite list_lookup_insert_ne in Ha by congruence.
      rewrite list_lookup_insert_ne in Hb by congruence.
      eapply NoDup_lookup; eassumption.
Qed.

Lemma new_key_replaces_the_old_witness :
  exists m s' rest,
    tenantController.generateApiKey "65a00000000000000000000a"
      [sixty_four "a"; sixty_four "b"] admin_state
    = Some (tenantController.KeyGenerated m (sixty_four "a"), s', rest) /\
    access.authenticateApiKey (tenantController.tenants s') (Some "key-a")
    = access.Answer 401 "API key inválida".
Proof.
  assert (Hkeys : NoDup (List.map Tenant.t_apiKey
                           (tenantController.tenants admin_state))).
  { cbn. apply NoDup_cons. split; [|apply NoDup_singleton].
    intros H. apply list_elem_of_In in H. destruct H as [H|[]]. discriminate H. }
  destruct (new_key_replaces_the_old "65a00000000000000000000a"
              [sixty_four "a"; sixty_four "b"] admin_state 0 tenant_a
              eq_refl eq_refl Hkeys)
    as (k & m & s' & rest & Hrun & _ & _ & _ & _ & Hold & _).
  { repeat constructor. }
  { exists (sixty_four "a"). split; [now left|].
    intros t [<-|[<-|[]]]; discriminate. }
  assert (Hk : k = sixty_four "a").
  { pose proof Hrun as Hrun'. vm_compute in Hrun'.
    injection Hrun' as _ Hk' _ _. rewrite <- Hk'. reflexivity. }
  subst k. exists m, s', rest. split; [exact Hrun|exact Hold].
Defined.
(** ** The groups of an aggregation *)

Section GroupFacts.

Context {D K A : Type} `{EqDecision K}.
Variables (key : D -> K) (init : A) (step : A -> D -> A).

Lemma group_add_keys (d : D) (gs : list (K * A)) :
  forall k, In k (List.map fst (reportService.group_add key init step d gs)) <->
            k = key d \/ In k (List.map fst gs).
Proof.
  induction gs as [|[k0 a] gs IH]; intros k; cbn.
  - intuition.
  - destruct (decide (k0 = key d)) as [->|Hne]; cbn; [intuition|].
    rewrite IH. intuition.
Qed.

Lemma group_add_nodup (d : D) (gs : list (K * A)) :
  NoDup (List.map fst gs) ->
  NoDup (List.map fst (reportService.group_add key init step d gs)).
Proof.
  induction gs as [|[k0 a] gs IH]; intros Hnd; cbn.
  - apply NoDup_singleton.
  - cbn in Hnd. apply NoDup_cons in Hnd as [Hk Hnd].
    destruct (decide (k0 = key d)) as [->|Hne]; cbn.
    + apply NoDup_cons. auto.
    + apply NoDup_cons. split; [|now apply IH].
      intros Hin. apply list_elem_of_In, group_add_keys in Hin as [Heq|Hin];
        [contradiction|]. apply Hk. now apply list_elem_of_In.
Qed.

Lemma group_from_nodup (ds : list D) (gs : list (K * A)) :
  NoDup (List.map fst gs) ->
  NoDup (List.map fst (fold_left (fun gs d => reportService.group_add key init step d gs)
                         ds gs)).
Proof.
  revert gs. induction ds as [|d ds IH]; intros gs Hnd; [exact Hnd|].
  cbn. apply IH. now apply group_add_nodup.
Qed.

Lemma group_nodup (ds : list D) :
  NoDup (List.map fst (reportService.group key init step ds)).
Proof. apply group_from_nodup. constructor. Qed.

(** A measure of the groups that every document raises by its own share. *)
Lemma group_add_measure (m : K -> A -> nat) (c : D -> nat) (d : D)
    (gs : list (K * A)) :
  (forall a, m (key d) (step a d) = (m (key d) a + c d)%nat) ->
  m (key d) init = 0%nat ->
  list_sum (List.map (fun g => m (fst g) (snd g))
              (reportService.group_add key init step d gs))
  = (list_sum (List.map (fun g => m (fst g) (snd g)) gs) + c d)%nat.
Proof.
  intros Hstep Hinit. induction gs as [|[k0 a] gs IH];
    cbn [reportService.group_add List.map list_sum fold_right fst snd].
  - rewrite Hstep, Hinit. lia.
  - destruct (decide (k0 = key d)) as [->|Hne];
      cbn [List.map list_sum fold_right fst snd].
    + rewrite Hstep. lia.
    + fold (list_sum (List.map (fun g => m (fst g) (snd g))
                        (reportService.group_add key init step d gs))).
      rewrite IH. fold (list_sum (List.map (fun g => m (fst g) (snd g)) gs)). lia.
Qed.

Lemma group_measure (m : K -> A -> nat) (c : D -> nat) (ds : list D) :
  (forall d a, m (key d) (step a d) = (m (key d) a + c d)%nat) ->
  (forall d, m (key d) init = 0%nat) ->
  list_sum (List.map (fun g => m (fst g) (snd g)) (reportService.group key init step ds))
  = list_sum (List.map c ds).
Proof.
  intros Hstep Hinit. unfold reportService.group.
  enough (forall gs,
             list_sum (List.map (fun g => m (fst g) (snd g))
                         (fold_left (fun gs d => reportService.group_add key init step d gs)
                            ds gs))
             = (list_sum (List.map (fun g => m (fst g) (snd g)) gs)
                + list_sum (List.map c ds))%nat) as Hgen
      by (rewrite Hgen; reflexivity).
  induction ds as [|d ds IH]; intros gs; cbn [fold_left List.map]; [cbn; lia|].
  rewrite IH, (group_add_measure m c); [|apply Hstep|apply Hinit].
  cbn [list_sum fold_right].
  fold (list_sum (List.map c ds)). lia.
Qed.






End GroupFacts.

Lemma list_sum_perm (l l' : list nat) : Permutation l l' -> list_sum l = list_sum l'.
Proof.
  induction 1 as [|x l l' _ IH|x y l|l l' l'' _ IH1 _ IH2].
  - reflexivity.
  - change (x + list_sum l = x + list_sum l')%nat. lia.
  - change (y + (x + list_sum l) = x + (y + list_sum l))%nat. lia.
  - lia.
Qed.

(** ** The sales report *)

Section Tickets.

Local Open Scope float_scope.








End Tickets.



#[local] Instance earlier_day_total {A : Type} : Total (@reportService.earlier_day A).
Proof.
  intros [[[y1 m1] d1] a] [[[y2 m2] d2] b].
  unfold reportService.earlier_day, reportService.day_le. cbn. lia.
Qed.

#[local] Instance earlier_day_trans {A : Type} : Transitive (@reportService.earlier_day A).
Proof.
  intros [[[y1 m1] d1] a] [[[y2 m2] d2] b] [[[y3 m3] d3] c].
  unfold reportService.earlier_day, reportService.day_le. cbn. lia.
Qed.





(** ** The customers report *)

Lemma group_add_counts {D K : Type} `{EqDecision K} (key : D -> K) (d : D)
    (gs : list (K * nat)) :
  Forall (fun g => (1 <= snd g)%nat) gs ->
  Forall (fun g => (1 <= snd g)%nat)
    (reportService.group_add key 0%nat (fun n _ => S n) d gs).
Proof.
  induction 1 as [|[k n] gs Hg Hgs IH]; cbn [reportService.group_add].
  - constructor; [cbn; lia|constructor].
  - destruct (decide (k = key d)).
    + constructor; [cbn in *; lia|exact Hgs].
    + constructor; [exact Hg|exact IH].
Qed.

Lemma group_counts_positive {D K : Type} `{EqDecision K} (key : D -> K) (ds : list D) :
  Forall (fun g => (1 <= snd g)%nat)
    (reportService.group key 0%nat (fun n _ => S n) ds).
Proof.
  unfold reportService.group.
  enough (forall gs, Forall (fun g : K * nat => (1 <= snd g)%nat) gs ->
                     Forall (fun g : K * nat => (1 <= snd g)%nat)
                       (fold_left (fun gs d =>
                                     reportService.group_add key 0%nat
                                       (fun n _ => S n) d gs) ds gs)) as Hgen
      by (apply Hgen; constructor).
  induction ds as [|d ds IH]; intros gs Hgs; [exact Hgs|].
  cbn. apply IH. now apply group_add_counts.
Qed.

Lemma group_add_keys_indep {D K A B : Type} `{EqDecision K} (key : D -> K)
    (ia : A) (sa : A -> D -> A) (ib : B) (sb : B -> D -> B) (d : D)
    (ga : list (K * A)) (gb : list (K * B)) :
  List.map fst ga = List.map fst gb ->
  List.map fst (reportService.group_add key ia sa d ga)
  = List.map fst (reportService.group_add key ib sb d gb).
Proof.
  revert gb. induction ga as [|[k a] ga IH]; intros [|[k' b] gb] Heq;
    try discriminate; [reflexivity|].
  cbn in Heq. injection Heq as <- Heq. cbn.
  destruct (decide (k = key d)); cbn; [now rewrite Heq|].
  f_equal. now apply IH.
Qed.

Lemma group_keys_indep {D K A B : Type} `{EqDecision K} (key : D -> K)
    (ia : A) (sa : A -> D -> A) (ib : B) (sb : B -> D -> B) (ds : list D) :
  List.map fst (reportService.group key ia sa ds)
  = List.map fst (reportService.group key ib sb ds).
Proof.
  unfold reportService.group.
  enough (forall ga gb,
             List.map fst ga = List.map fst gb ->
             List.map fst (fold_left (fun gs d => reportService.group_add key ia sa d gs)
                             ds ga)
             = List.map fst (fold_left (fun gs d => reportService.group_add key ib sb d gs)
                               ds gb)) as Hgen by now apply Hgen.
  induction ds as [|d ds IH]; intros ga gb Heq; [exact Heq|].
  cbn. apply IH. now apply group_add_keys_indep.
Qed.

Lemma group_keys_from {D K A : Type} `{EqDecision K} (key : D -> K) (init : A)
    (step : A -> D -> A) (ds : list D) (k : K) :
  In k (List.map fst (reportService.group key init step ds)) ->
  exists d, In d ds /\ key d = k.
Proof.
  unfold reportService.group.
  enough (forall gs : list (K * A),
             In k (List.map fst
                     (fold_left (fun gs d => reportService.group_add key init step d gs)
                        ds gs)) ->
             In k (List.map fst gs) \/ exists d, In d ds /\ key d = k) as Hgen.
  { intros Hk. destruct (Hgen [] Hk) as [[]|H']; exact H'. }
  induction ds as [|d ds IH]; intros gs Hk; [now left|].
  cbn [fold_left] in Hk. destruct (IH _ Hk) as [Hin|(d' & Hd' & Hkey)].
  - apply group_add_keys in Hin as [->|Hin]; [|now left].
    right. exists d. split; [now left|reflexivity].
  - right. exists d'. split; [now right|exact Hkey].
Qed.

Lemma list_sum_ones {D : Type} (ds : list D) :
  list_sum (List.map (fun _ => 1%nat) ds) = length ds.
Proof.
  induction ds as [|d ds IH]; [reflexivity|]. cbn [List.map length].
  change (list_sum (1%nat :: List.map (fun _ => 1%nat) ds))
    with (1 + list_sum (List.map (fun _ : D => 1%nat) ds))%nat.
  lia.
Qed.

(** X25. The frequency distribution of the customers report accounts for
    every customer and every order: its customer counts sum to the number
    of unique customers and its order counts, each weighted by its customer
    count, to the number of orders; every line stands for at least one
    customer with at least one order, no order count comes twice and the
    lines are in ascending order of it. *)
Theorem frequency_distribution_adds_up (matched : list order) :
  customers_in (reportService.orderFrequency matched)
  = reportService.totalUniqueCustomers matched /\
  orders_in (reportService.orderFrequency matched) = length matched /\
  Forall (fun f => (1 <= fst f)%nat /\ (1 <= snd f)%nat)
    (reportService.orderFrequency matched) /\
  NoDup (List.map fst (reportService.orderFrequency matched)) /\
  StronglySorted reportService.fewer_orders (reportService.orderFrequency matched).
Proof.
  set (byPhone := reportService.ordersByPhone matched).
  set (groups := reportService.group (fun g : option string * nat => snd g) 0%nat
                   (fun n _ => S n) byPhone).
  pose proof (merge_sort_Permutation reportService.fewer_orders groups) as Hperm.
  change (reportService.orderFrequency matched)
    with (merge_sort reportService.fewer_orders groups).
  assert (Hcust : list_sum (List.map snd groups) = length byPhone).
  { unfold groups.
    rewrite (group_measure (fun g : option string * nat => snd g) 0%nat
               (fun n _ => S n) (fun _ n => n) (fun _ => 1%nat)).
    - apply list_sum_ones.
    - intros d a. lia.
    - reflexivity. }
  assert (Hord : list_sum (List.map (fun f => (fst f * snd f)%nat) groups)
                 = length matched).
  { unfold groups.
    rewrite (group_measure (fun g : option string * nat => snd g) 0%nat
               (fun n _ => S n) (fun k n => (k * n)%nat) (fun g => snd g)).
    - unfold byPhone, reportService.ordersByPhone.
      rewrite (group_measure (fun o => cust_phone (customer o)) 0%nat
                 (fun n _ => S n) (fun _ n => n) (fun _ => 1%nat)).
      + apply list_sum_ones.
      + intros d a. lia.
      + reflexivity.
    - intros d a. lia.
    - intros d. lia. }
  split; [|split; [|split; [|split]]].
  - unfold customers_in.
    rewrite (list_sum_perm _ _ (Permutation_map snd Hperm)), Hcust.
    unfold reportService.totalUniqueCustomers, reportService.uniqueCustomers.
    assert (Hlen : length byPhone
                   = length (reportService.group (fun o => cust_phone (customer o)) tt
                               (fun u _ => u) matched)).
    { unfold byPhone, reportService.ordersByPhone.
      rewrite <- (length_map fst), <- (length_map fst (reportService.group _ tt _ _)).
      f_equal. apply group_keys_indep. }
    rewrite Hlen.
    destruct (reportService.group (fun o => cust_phone (customer o)) tt
                (fun u _ => u) matched); reflexivity.
  - unfold orders_in.
    rewrite (list_sum_perm _ _ (Permutation_map (fun f => (fst f * snd f)%nat) Hperm)).
    exact Hord.
  - rewrite Hperm. apply List.Forall_forall. intros [n c] Hin. cbn [fst snd].
    split.
    + assert (Hn : In n (List.map fst groups)) by (apply in_map_iff; now exists (n, c)).
      destruct (group_keys_from (fun g : option string * nat => snd g) 0%nat
                  (fun n _ => S n) byPhone n Hn) as (g & Hg & <-).
      pose proof (group_counts_positive (fun o => cust_phone (customer o)) matched)
        as Hpos.
      rewrite List.Forall_forall in Hpos. now apply Hpos.
    + pose proof (group_counts_positive (fun g : option string * nat => snd g) byPhone)
        as Hpos.
      rewrite List.Forall_forall in Hpos. apply (Hpos (n, c) Hin).
  - assert (Hp : Permutation
                   (List.map fst (merge_sort reportService.fewer_orders groups))
                   (List.map fst groups)) by now apply Permutation_map.
    rewrite Hp. apply group_nodup.
  - apply StronglySorted_merge_sort.
    + intros x y z. unfold reportService.fewer_orders. lia.
    + intros x y. unfold reportService.fewer_orders. lia.
Qed.
(** ** Two creations in flight *)

Lemma step_waiting (e : env) (now : instant) (tid : string) (b : order_data)
    (w : world) p :
  orderService.prepare e tid b = Ret p ->
  Concurrent.step e (Concurrent.Waiting now tid b) w
  = (Ret (Concurrent.Numbered now tid b p (Order.number_after now tid (orders w))), w).
Proof.
  intros Hp. cbn [Concurrent.step]. rewrite Hp.
  unfold Order.generateOrderNumber. run_monad. reflexivity.
Qed.

Lemma step_numbered (e : env) (now : instant) (tid : string) (b : order_data)
    (w : world) p n o :
  Order.validate now (orderService.draft_of tid b n p) = Some o ->
  Concurrent.step e (Concurrent.Numbered now tid b p n) w
  = (Ret (Concurrent.Finished (Ret o)),
     {| orders := orders w ++ [o]; events := events w |}).
Proof.
  intros Hv. cbn [Concurrent.step]. unfold Order.create. rewrite Hv.
  run_monad. reflexivity.
Qed.

(** X26. Two creations that overlap always collide: whenever two creation
    requests of a tenant on the same day, each of which would succeed on its
    own, both read the last order number before either has saved, both
    orders are stored, each exactly as if its request had run alone, and
    they carry the same order number. *)
Theorem overlapping_requests_share_a_number (e : env) (tid : string)
    (t1 t2 : instant) (b1 b2 : order_data) (w w1 w2 : world) (o1 o2 : order) :
  yyyymmdd t1 = yyyymmdd t2 ->
  orderService.createOrder e t1 tid b1 w = (Ret o1, w1) ->
  orderService.createOrder e t2 tid b2 w = (Ret o2, w2) ->
  Concurrent.run e [0; 1; 0; 1]%nat
    [Concurrent.Waiting t1 tid b1; Concurrent.Waiting t2 tid b2] w
  = (Ret [Concurrent.Finished (Ret o1); Concurrent.Finished (Ret o2)],
     {| orders := orders w ++ [o1; o2]; events := events w |}) /\
  orderNumber o1 = orderNumber o2.
Proof.
  intros Hday H1 H2.
  pose proof (createOrder_number _ _ _ _ _ _ _ H1) as (Hn1 & _ & _).
  pose proof (createOrder_number _ _ _ _ _ _ _ H2) as (Hn2 & _ & _).
  apply createOrder_ret_inv in H1 as (p1 & Hp1 & Hv1 & _).
  apply createOrder_ret_inv in H2 as (p2 & Hp2 & Hv2 & _).
  split.
  - cbn [Concurrent.run]. unfold bind at 1. unfold Concurrent.advance at 1.
    cbn [lookup list_lookup]. unfold bind at 1.
    rewrite (step_waiting e t1 tid b1 w p1 Hp1). cbn [ret list_insert insert].
    unfold ret at 1. unfold bind at 1. unfold Concurrent.advance at 1.
    cbn [lookup list_lookup]. unfold bind at 1.
    rewrite (step_waiting e t2 tid b2 w p2 Hp2).
    unfold ret at 1. cbn [list_insert insert]. unfold bind at 1.
    unfold Concurrent.advance at 1. cbn [lookup list_lookup]. unfold bind at 1.
    rewrite (step_numbered e t1 tid b1 w p1 _ o1 Hv1).
    unfold ret at 1. cbn [list_insert insert]. unfold bind at 1.
    unfold Concurrent.advance at 1. cbn [lookup list_lookup]. unfold bind at 1.
    rewrite (step_numbered e t2 tid b2 _ p2 _ o2 Hv2).
    unfold ret. cbn [list_insert insert orders events].
    now rewrite <- app_assoc.
  - rewrite Hn1, Hn2. unfold Order.number_after.
    assert (Hpre : Order.day_prefix t1 = Order.day_prefix t2)
      by (now rewrite !day_prefix_spec, Hday).
    now rewrite Hpre.
Qed.

Lemma overlapping_requests_share_a_number_witness :
  exists o1 o2 w',
    Concurrent.run no_env [0; 1; 0; 1]%nat
      [Concurrent.Waiting (jan15 12 0) "t1" body_a;
       Concurrent.Waiting (jan15 12 30) "t1" body_cash] world_1
    = (Ret [Concurrent.Finished (Ret o1); Concurrent.Finished (Ret o2)], w') /\
    orderNumber o1 = orderNumber o2.
Proof.
  destruct (orderService.createOrder no_env (jan15 12 0) "t1" body_a world_1)
    as [r1 w1] eqn:H1.
  destruct (orderService.createOrder no_env (jan15 12 30) "t1" body_cash world_1)
    as [r2 w2] eqn:H2.
  assert (Hr1 : exists o1, r1 = Ret o1).
  { pose proof H1 as H. vm_compute in H. injection H as <- _. eexists. reflexivity. }
  assert (Hr2 : exists o2, r2 = Ret o2).
  { pose proof H2 as H. vm_compute in H. injection H as <- _. eexists. reflexivity. }
  destruct Hr1 as (o1 & ->), Hr2 as (o2 & ->).
  destruct (overlapping_requests_share_a_number no_env "t1" (jan15 12 0) (jan15 12 30)
              body_a body_cash world_1 w1 w2 o1 o2 eq_refl H1 H2) as (Hrun & Hnum).
  eexists o1, o2, _. split; [exact Hrun|exact Hnum].
Defined.
(** ** What a request makes the bot say *)

Lemma messages_log (evs : list event) (text : string) :
  messages (evs ++ [LogError text]) = messages evs.
Proof. rewrite messages_app. cbn. now rewrite app_nil_r. Qed.

(** X27. The messages follow the changes: a status update that succeeds
    sends the customer of the order one message, the text of the change to
    the new status, when the tenant is known, and nothing otherwise; a
    creation that succeeds sends the owner one message, the text of the new
    order, when the tenant has a contact phone, and nothing otherwise; a
    status update or a creation that is refused sends nothing. *)
Theorem messages_follow_the_changes (e : env) (now : instant) (tid : string)
    (id : nat) (w : world) (o : order) (b : order_data) :
  orders w !! id = Some o ->
  tenantId o = tid ->
  (forall to, allowed_transition (status o) to ->
     exists r w',
       orderController.updateOrderStatus e tid id (status_name to) w = (Ret r, w') /\
       code r = 200%nat /\
       messages (events w')
       = (messages (events w)
          ++ if tenant_known e tid
             then [(tid, text_or_empty (cust_phone (customer o)),
                    botService.status_change_text (set_status o to))]
             else [])%list) /\
  (forall requested, ~ allowed_request (status o) requested ->
     exists r w',
       orderController.updateOrderStatus e tid id requested w = (Ret r, w') /\
       code r = 400%nat /\ messages (events w') = messages (events w)) /\
  (exists r w',
     orderController.createOrder e now tid b w = (Ret r, w') /\
     match orderService.createOrder e now tid b w with
     | (Ret created, _) =>
         code r = 201%nat /\
         messages (events w')
         = (messages (events w)
            ++ match owner_phone e tid with
               | Some p => [(tid, p, botService.new_order_text created)]
               | None => []
               end)%list
     | (Throw _, _) =>
         code r <> 201%nat /\ messages (events w') = messages (events w)
     end).
Proof.
  intros Hl Hten. split; [|split].
  - intros to Hal. unfold orderController.updateOrderStatus.
    unfold try_catch, bind at 1. rewrite (findById_stored tid id w o Hl Hten).
    destruct (validTransitions_total (status o)) as (l & Hl'). rewrite Hl'.
    assert (Hin : orderService.includes l (status_name to) = true).
    { apply (includes_allowed _ _ l Hl'). now exists to. }
    rewrite Hin. cbn [negb].
    unfold orderService.save_status. rewrite status_of_name_name.
    unfold Order.save. run_monad.
    match goal with
    | |- context [botService.notifyStatusChange e tid ?o1 ?w1] =>
        destruct (notifyStatusChange_delivers e tid o1 w1) as (w2 & Hn & _ & Hm)
    end.
    rewrite Hn. eexists _, w2. split; [reflexivity|]. split; [reflexivity|].
    exact Hm.
  - intros requested Hno.
    rewrite (update_rejected e tid id w o Hl Hten requested Hno).
    eexists _, w. split; [reflexivity|]. split; reflexivity.
  - unfold orderController.createOrder. unfold try_catch, bind at 1.
    destruct (orderService.createOrder e now tid b w) as [[created|ex] w1] eqn:Hsvc.
    + destruct (notifyNewOrder_delivers e tid created w1) as (w2 & Hn & _ & Hm).
      unfold bind. rewrite Hn. eexists _, w2. split; [reflexivity|].
      split; [reflexivity|].
      apply createOrder_ret_inv in Hsvc as (p & _ & _ & ->). exact Hm.
    + assert (Hev : messages (events w1) = messages (events w)).
      { unfold orderService.createOrder in Hsvc.
        unfold try_catch, bind, lift, Order.generateOrderNumber, get_orders, ret,
          Order.create, throw, emit in Hsvc.
        destruct (orderService.prepare e tid b) as [p|ex'].
        - cbn in Hsvc. destruct (Order.validate _ _) as [o'|]; cbn in Hsvc;
            [discriminate|].
          injection Hsvc as _ <-. cbn. apply messages_log.
        - cbn in Hsvc. injection Hsvc as _ <-. cbn. apply messages_log. }
      run_monad. destruct ex as [m d|m]; eexists _, _;
        (split; [reflexivity|]); cbn; rewrite messages_log;
        (split; [discriminate|exact Hev]).
Qed.

Lemma messages_follow_the_changes_witness :
  exists r w',
    orderController.updateOrderStatus shop_env "t1" 0 "confirmed" world_1 = (Ret r, w') /\
    code r = 200%nat /\
    messages (events w')
    = [("t1", "5511999990000",
        botService.status_change_text (set_status order_1 confirmed))].
Proof.
  destruct (messages_follow_the_changes shop_env (jan15 12 0) "t1" 0 world_1 order_1
              body_a eq_refl eq_refl) as (Hok & _ & _).
  destruct (Hok confirmed ltac:(constructor)) as (r & w' & Hrun & Hcode & Hm).
  exists r, w'. split; [exact Hrun|]. split; [exact Hcode|exact Hm].
Defined.
